(** * Planetary hour face: a shallow embedding of planetary_hour_face.c

    The development follows the source file
    [watch-faces/complication/planetary_hour_face.c]: machine integers are
    [Z] with the wrap-around written where the C code has it, bit-fields
    are [Z] truncated to their width on every store, and the helpers that
    live in other translation units (the RTC date/time type, the Unix-time
    conversions, the digit record of the location editor) are modelled
    next to the functions that call them. *)

From Stdlib Require Import ZArith List Bool Lia String Ascii.
From Stdlib Require Import SpecFloat.
Import ListNotations.
Local Open Scope Z_scope.

(** ** Machine integers *)

Module CInt.

(** Conversion to [uint32_t]. *)
Definition u32 (z : Z) : Z := z mod 2 ^ 32.

(** Conversion to [uint8_t]. *)
Definition u8 (z : Z) : Z := z mod 2 ^ 8.

(** Conversion to [int16_t]: a value the type cannot hold wraps modulo
    2^16, as the compilers of the watch define it. *)
Definition s16 (z : Z) : Z := (z + 2 ^ 15) mod 2 ^ 16 - 2 ^ 15.

(** Store into an unsigned bit-field of [w] bits. *)
Definition bitfield (w z : Z) : Z := z mod 2 ^ w.

(** C division and remainder truncate towards zero. *)
Definition cdiv (a b : Z) : Z := Z.quot a b.
Definition cmod (a b : Z) : Z := Z.rem a b.

End CInt.
Import CInt.

(** ** Bounded universal quantification by enumeration *)

Fixpoint forall_from (n : nat) (lo : Z) (p : Z -> bool) : bool :=
  match n with
  | O => true
  | S k => p lo && forall_from k (lo + 1) p
  end.

(** ** The RTC date/time register *)

(** [WATCH_RTC_REFERENCE_YEAR] of watch_rtc.h. *)
Definition WATCH_RTC_REFERENCE_YEAR : Z := 2020.

(** [watch_date_time_t]: the [unit] view of the RTC clock register.  The
    declaration is in watch_rtc.h; the widths are second:6, minute:6,
    hour:5, day:5, month:4, year:6, from the least significant bit. *)
Record watch_date_time_t := mk_date_time {
  dt_year : Z;
  dt_month : Z;
  dt_day : Z;
  dt_hour : Z;
  dt_minute : Z;
  dt_second : Z
}.

(** The [reg] view of the same union: the six fields packed in 32 bits. *)
Definition reg (t : watch_date_time_t) : Z :=
  dt_second t + 2 ^ 6 * dt_minute t + 2 ^ 12 * dt_hour t
  + 2 ^ 17 * dt_day t + 2 ^ 22 * dt_month t + 2 ^ 26 * dt_year t.

(** Every field within its width. *)
Definition fields_ok (t : watch_date_time_t) : Prop :=
  0 <= dt_second t < 2 ^ 6 /\ 0 <= dt_minute t < 2 ^ 6 /\
  0 <= dt_hour t < 2 ^ 5 /\ 0 <= dt_day t < 2 ^ 5 /\
  0 <= dt_month t < 2 ^ 4 /\ 0 <= dt_year t < 2 ^ 6.

Definition set_hour (t : watch_date_time_t) (h : Z) : watch_date_time_t :=
  mk_date_time (dt_year t) (dt_month t) (dt_day t) (bitfield 5 h)
               (dt_minute t) (dt_second t).

Definition set_minute (t : watch_date_time_t) (m : Z) : watch_date_time_t :=
  mk_date_time (dt_year t) (dt_month t) (dt_day t) (dt_hour t)
               (bitfield 6 m) (dt_second t).

Definition set_second (t : watch_date_time_t) (s : Z) : watch_date_time_t :=
  mk_date_time (dt_year t) (dt_month t) (dt_day t) (dt_hour t)
               (dt_minute t) (bitfield 6 s).

(** ** Calendar *)

Definition is_leap (y : Z) : bool :=
  ((y mod 4 =? 0) && negb (y mod 100 =? 0)) || (y mod 400 =? 0).

Definition days_in_month (y m : Z) : Z :=
  if m =? 2 then (if is_leap y then 29 else 28)
  else if (m =? 4) || (m =? 6) || (m =? 9) || (m =? 11) then 30
  else 31.

(** A civil date and time of day the RTC can hold (2020 to 2083). *)
Definition valid_date_time (t : watch_date_time_t) : bool :=
  (0 <=? dt_year t) && (dt_year t <? 64) &&
  (1 <=? dt_month t) && (dt_month t <=? 12) &&
  (1 <=? dt_day t) &&
  (dt_day t <=? days_in_month (dt_year t + WATCH_RTC_REFERENCE_YEAR) (dt_month t)) &&
  (0 <=? dt_hour t) && (dt_hour t <? 24) &&
  (0 <=? dt_minute t) && (dt_minute t <? 60) &&
  (0 <=? dt_second t) && (dt_second t <? 60).

Definition DAYS_SO_FAR : list Z :=
  [0; 31; 59; 90; 120; 151; 181; 212; 243; 273; 304; 334].

(** Days from 1970-01-01 to the civil date [year]-[month]-[day]. *)
Definition days_from_civil (year month day : Z) : Z :=
  let year_adj := year + 4800 in
  let febs := year_adj - (if month <=? 2 then 1 else 0) in
  let leap_days := 1 + febs / 4 - febs / 100 + febs / 400 in
  365 * year_adj + leap_days + nth (Z.to_nat (month - 1)) DAYS_SO_FAR 0
  + day - 1 - 2472692.

(** The civil date of a day number: (year, month, day). *)
Definition civil_from_days (days : Z) : Z * Z * Z :=
  let z := days + 719468 in
  let era := z / 146097 in
  let doe := z mod 146097 in
  let yoe := (doe - doe / 1460 + doe / 36524 - doe / 146096) / 365 in
  let doy := doe - (365 * yoe + yoe / 4 - yoe / 100) in
  let mp := (5 * doy + 2) / 153 in
  let d := doy - (153 * mp + 2) / 5 + 1 in
  let m := if mp <? 10 then mp + 3 else mp - 9 in
  let y := yoe + era * 400 + (if m <=? 2 then 1 else 0) in
  (y, m, d).

(** Modelled from the spec: [watch_utility_date_time_to_unix_time] is in
    watch_utility.c, which is not part of the source under study.  The spec
    has every [LocalDateTime] convertible losslessly to seconds since the
    epoch; the model is the Gregorian day count times 86400 plus the time
    of day, in [uint32_t] arithmetic, less the offset. *)
Definition watch_utility_date_time_to_unix_time
    (t : watch_date_time_t) (utc_offset : Z) : Z :=
  let days := days_from_civil (dt_year t + WATCH_RTC_REFERENCE_YEAR)
                              (dt_month t) (dt_day t) in
  u32 (days * 86400 + dt_hour t * 3600 + dt_minute t * 60 + dt_second t
       - utc_offset).

(** Modelled from the spec: [watch_utility_date_time_from_unix_time] is in
    watch_utility.c as well.  It is the inverse conversion; an instant whose
    year the six-bit year field cannot hold yields the all-zero register. *)
Definition watch_utility_date_time_from_unix_time
    (timestamp : Z) (utc_offset : Z) : watch_date_time_t :=
  let ts := u32 (timestamp + utc_offset) in
  let days := ts / 86400 in
  let secs := ts mod 86400 in
  let '(y, m, d) := civil_from_days days in
  if (y <? WATCH_RTC_REFERENCE_YEAR) || (WATCH_RTC_REFERENCE_YEAR + 63 <? y)
  then mk_date_time 0 0 0 0 0 0
  else mk_date_time (y - WATCH_RTC_REFERENCE_YEAR) m d
                    (secs / 3600) (secs mod 3600 / 60) (secs mod 60).

(** ** Time helpers of the face *)

Definition _unix (t : watch_date_time_t) : Z :=
  watch_utility_date_time_to_unix_time t 0.

Definition _from_unix (ts : Z) : watch_date_time_t :=
  watch_utility_date_time_from_unix_time ts 0.

Definition _midnight_of (t : watch_date_time_t) : watch_date_time_t :=
  mk_date_time (dt_year t) (dt_month t) (dt_day t) 0 0 0.

(** [_add_days]: the day count is made non-negative, converted to
    [uint32_t], multiplied by [86400u], and the product is multiplied by
    [1] or [-1] converted to unsigned; every step wraps modulo 2^32. *)
Definition _add_days (day_midnight : watch_date_time_t) (d : Z)
    : watch_date_time_t :=
  let magnitude := u32 (if d >=? 0 then d else - d) in
  let direction := u32 (if d >=? 0 then 1 else -1) in
  let offset := u32 (u32 (86400 * magnitude) * direction) in
  _from_unix (u32 (_unix day_midnight + offset)).

(** ** Ruler resolver *)

Record planet_names_t := mk_planet {
  name : string;
  abbreviation : string
}.

(** Map of planetary rulers to day of the week values (Sunday first). *)
Definition week_days_to_chaldean_order : list Z := [3; 6; 2; 5; 1; 4; 0].

(** Map of the Chaldean order numbers to the planets and abbreviations. *)
Definition planet_names : list planet_names_t :=
  [ mk_planet "Satur" "SA"; mk_planet "Jupit" "JU"; mk_planet "Mars " "MA";
    mk_planet "Sun  " "SU"; mk_planet "Venus" "VE"; mk_planet "Mercu" "ME";
    mk_planet "Moon " "MO" ].

(** What a read past the end of [planet_names] is taken to yield. *)
Definition no_planet : planet_names_t := mk_planet "" "".

(** Steps 1 and 2 of [planetary_ruler_from_base_and_time]: the weekday of
    the base day, Sunday being 0, by Zeller's congruence in [int]
    arithmetic, stored in a [uint8_t]. *)
Definition day_of_week (base_sunrise_local : watch_date_time_t) : Z :=
  let year := dt_year base_sunrise_local + WATCH_RTC_REFERENCE_YEAR in
  let month := dt_month base_sunrise_local in
  let day := dt_day base_sunrise_local in
  let '(month, year) :=
    if month <? 3 then (month + 12, year - 1) else (month, year) in
  u8 (cmod (day + 2 * month + cdiv (3 * (month + 1)) 5 + year
            + cdiv year 4 - cdiv year 100 + cdiv year 400 + 1) 7).

(** Step 3: the ruler of the day, from the day of the week. *)
Definition ruler_of_day_index (base_sunrise_local : watch_date_time_t) : Z :=
  u8 (nth (Z.to_nat (day_of_week base_sunrise_local))
          week_days_to_chaldean_order 0).

(** Step 4: the planetary ruler of the hour, as an index into
    [planet_names]. *)
Definition ruler_index (base_sunrise_local : watch_date_time_t)
    (time_since_sunrise : Z) : Z :=
  cmod (ruler_of_day_index base_sunrise_local + time_since_sunrise) 7.

Definition planetary_ruler_from_base_and_time
    (base_sunrise_local : watch_date_time_t) (time_since_sunrise : Z)
    : planet_names_t :=
  nth (Z.to_nat (ruler_index base_sunrise_local time_since_sunrise))
      planet_names no_planet.

(** ** Location editor *)

(** Modelled from the spec: the declaration of [lat_lon_settings_t] is in a
    header that is not part of the source under study.  The spec has the
    digits sign, hundreds, tens, ones, tenths and hundredths, a sign that
    toggles when advanced and coordinates of at most 180.00 degrees: the
    sign and the hundreds digit are one-bit fields, the four decimal
    digits are four-bit fields. *)
Record lat_lon_settings_t := mk_latlon {
  sign : Z;
  hundreds : Z;
  tens : Z;
  ones : Z;
  tenths : Z;
  hundredths : Z
}.

Definition SIGN_BITS : Z := 1.
Definition HUNDREDS_BITS : Z := 1.
Definition DIGIT_BITS : Z := 4.

Definition with_sign (v : lat_lon_settings_t) (x : Z) :=
  mk_latlon (bitfield SIGN_BITS x) (hundreds v) (tens v) (ones v)
            (tenths v) (hundredths v).
Definition with_hundreds (v : lat_lon_settings_t) (x : Z) :=
  mk_latlon (sign v) (bitfield HUNDREDS_BITS x) (tens v) (ones v)
            (tenths v) (hundredths v).
Definition with_tens (v : lat_lon_settings_t) (x : Z) :=
  mk_latlon (sign v) (hundreds v) (bitfield DIGIT_BITS x) (ones v)
            (tenths v) (hundredths v).
Definition with_ones (v : lat_lon_settings_t) (x : Z) :=
  mk_latlon (sign v) (hundreds v) (tens v) (bitfield DIGIT_BITS x)
            (tenths v) (hundredths v).
Definition with_tenths (v : lat_lon_settings_t) (x : Z) :=
  mk_latlon (sign v) (hundreds v) (tens v) (ones v)
            (bitfield DIGIT_BITS x) (hundredths v).
Definition with_hundredths (v : lat_lon_settings_t) (x : Z) :=
  mk_latlon (sign v) (hundreds v) (tens v) (ones v) (tenths v)
            (bitfield DIGIT_BITS x).

(** Modelled from the spec: [_latlon_from_struct] is defined outside the
    source under study.  The spec reconstructs the signed hundredths of a
    degree as [(sign ? -1 : 1) * (hundreds * 10000 + tens * 1000 +
    ones * 100 + tenths * 10 + hundredths)]. *)
Definition _latlon_from_struct (val : lat_lon_settings_t) : Z :=
  (if sign val =? 0 then 1 else -1)
  * (hundreds val * 10000 + tens val * 1000 + ones val * 100
     + tenths val * 10 + hundredths val).

(** [_planetary_hour_face_struct_from_latlon], on an [int16_t]: [abs]
    works on [int], and its result is stored back into the [int16_t]. *)
Definition _planetary_hour_face_struct_from_latlon (val : Z)
    : lat_lon_settings_t :=
  let s := if val <? 0 then 1 else 0 in
  let val := s16 (Z.abs val) in
  let d0 := cmod val 10 in
  let val := cdiv val 10 in
  let d1 := cmod val 10 in
  let val := cdiv val 10 in
  let d2 := cmod val 10 in
  let val := cdiv val 10 in
  let d3 := cmod val 10 in
  let val := cdiv val 10 in
  let d4 := cmod val 10 in
  mk_latlon (bitfield SIGN_BITS s) (bitfield HUNDREDS_BITS d4)
            (bitfield DIGIT_BITS d3) (bitfield DIGIT_BITS d2)
            (bitfield DIGIT_BITS d1) (bitfield DIGIT_BITS d0).

(** The part of the face state the editor works on. *)
Record location_state_t := mk_location_state {
  page : Z;
  active_digit : Z;
  location_changed : bool;
  working_latitude : lat_lon_settings_t;
  working_longitude : lat_lon_settings_t
}.

Definition with_latitude (s : location_state_t) (v : lat_lon_settings_t) :=
  mk_location_state (page s) (active_digit s) (location_changed s)
                    v (working_longitude s).
Definition with_longitude (s : location_state_t) (v : lat_lon_settings_t) :=
  mk_location_state (page s) (active_digit s) (location_changed s)
                    (working_latitude s) v.
Definition with_changed (s : location_state_t) (b : bool) :=
  mk_location_state (page s) (active_digit s) b
                    (working_latitude s) (working_longitude s).
Definition with_cursor (s : location_state_t) (p d : Z) :=
  mk_location_state p d (location_changed s)
                    (working_latitude s) (working_longitude s).

(** The display the watch is fitted with, as [watch_get_lcd_type] reports. *)
Inductive lcd_type := WATCH_LCD_TYPE_CLASSIC | WATCH_LCD_TYPE_CUSTOM.

Definition lat_over (v : lat_lon_settings_t) : bool :=
  Z.abs (_latlon_from_struct v) >? 9000.
Definition lon_over (v : lat_lon_settings_t) : bool :=
  Z.abs (_latlon_from_struct v) >? 18000.

(** The latitude page: [digit] names the field, whatever its position in
    the layout. *)
Definition advance_latitude_tens (v : lat_lon_settings_t) :=
  let v := with_tens v (cmod (tens v + 1) 10) in
  if lat_over v
  then with_hundredths (with_tenths (with_ones v 0) 0) 0
  else v.
Definition advance_latitude_ones (v : lat_lon_settings_t) :=
  let v := with_ones v (cmod (ones v + 1) 10) in
  if lat_over v then with_ones v 0 else v.
Definition advance_latitude_tenths (v : lat_lon_settings_t) :=
  let v := with_tenths v (cmod (tenths v + 1) 10) in
  if lat_over v then with_tenths v 0 else v.
Definition advance_latitude_hundredths (v : lat_lon_settings_t) :=
  let v := with_hundredths v (cmod (hundredths v + 1) 10) in
  if lat_over v then with_hundredths v 0 else v.
Definition advance_sign (v : lat_lon_settings_t) :=
  with_sign v (sign v + 1).

(** The longitude page. *)
Definition advance_longitude_tens_carry (v : lat_lon_settings_t) :=
  let v := with_tens v (tens v + 1) in
  let v := if tens v >=? 10
           then with_hundreds (with_tens v 0) (hundreds v + 1)
           else v in
  if lon_over v
  then with_hundredths
         (with_tenths (with_ones (with_tens (with_hundreds v 0) 0) 0) 0) 0
  else v.
Definition advance_longitude_hundreds (v : lat_lon_settings_t) :=
  let v := with_hundreds v (cmod (hundreds v + 1) 10) in
  if lon_over v
  then with_hundredths (with_tenths (with_ones (with_tens v 8) 0) 0) 0
  else v.
Definition advance_longitude_tens (v : lat_lon_settings_t) :=
  let v := with_tens v (cmod (tens v + 1) 10) in
  if lon_over v then with_tens v 0 else v.
Definition advance_longitude_ones (v : lat_lon_settings_t) :=
  let v := with_ones v (cmod (ones v + 1) 10) in
  if lon_over v then with_ones v 0 else v.
Definition advance_longitude_tenths (v : lat_lon_settings_t) :=
  let v := with_tenths v (cmod (tenths v + 1) 10) in
  if lon_over v then with_tenths v 0 else v.
Definition advance_longitude_hundredths (v : lat_lon_settings_t) :=
  let v := with_hundredths v (cmod (hundredths v + 1) 10) in
  if lon_over v then with_hundredths v 0 else v.

(** [_planetary_hour_face_advance_digit], on the location state. *)
Definition _planetary_hour_face_advance_digit
    (lcd : lcd_type) (state : location_state_t) : location_state_t :=
  let state := with_changed state true in
  let lat := working_latitude state in
  let lon := working_longitude state in
  match lcd with
  | WATCH_LCD_TYPE_CUSTOM =>
    match page state with
    | 1 =>
      match active_digit state with
      | 0 => with_latitude state (advance_latitude_tens lat)
      | 1 => with_latitude state (advance_latitude_ones lat)
      | 2 => with_latitude state (advance_latitude_tenths lat)
      | 3 => with_latitude state (advance_latitude_hundredths lat)
      | 4 => with_latitude state (advance_sign lat)
      | _ => state
      end
    | 2 =>
      match active_digit state with
      | 0 => with_longitude state (advance_longitude_tens_carry lon)
      | 1 => with_longitude state (advance_longitude_ones lon)
      | 2 => with_longitude state (advance_longitude_tenths lon)
      | 3 => with_longitude state (advance_longitude_hundredths lon)
      | 4 => with_longitude state (advance_sign lon)
      | _ => state
      end
    | _ => state
    end
  | WATCH_LCD_TYPE_CLASSIC =>
    match page state with
    | 1 =>
      match active_digit state with
      | 0 => with_latitude state (advance_sign lat)
      | 1 => state
      | 2 => with_latitude state (advance_latitude_tens lat)
      | 3 => with_latitude state (advance_latitude_ones lat)
      | 4 => with_latitude state (advance_latitude_tenths lat)
      | 5 => with_latitude state (advance_latitude_hundredths lat)
      | _ => state
      end
    | 2 =>
      match active_digit state with
      | 0 => with_longitude state (advance_sign lon)
      | 1 => with_longitude state (advance_longitude_hundreds lon)
      | 2 => with_longitude state (advance_longitude_tens lon)
      | 3 => with_longitude state (advance_longitude_ones lon)
      | 4 => with_longitude state (advance_longitude_tenths lon)
      | 5 => with_longitude state (advance_longitude_hundredths lon)
      | _ => state
      end
    | _ => state
    end
  end.

(** ** Binary64 arithmetic

    The C [double] is IEEE-754 binary64.  Values are the [spec_float] of the
    standard library's reference implementation, with a 53-bit significand
    and exponents up to 1024; sums, differences, products and quotients are
    its correctly rounded operations.  A conversion to an integer type whose
    result the type cannot hold is undefined in C: it yields [None]. *)

Module Double.

Definition prec : Z := 53.
Definition emax : Z := 1024.

Definition double := spec_float.

(** Conversion of an integer to [double]. *)
Definition of_Z (z : Z) : double := binary_normalize prec emax z 0 false.

Definition add : double -> double -> double := SFadd prec emax.
Definition sub : double -> double -> double := SFsub prec emax.
Definition mul : double -> double -> double := SFmul prec emax.
Definition div : double -> double -> double := SFdiv prec emax.
Definition ltb : double -> double -> bool := SFltb.

Definition signed (s : bool) (m : positive) : Z :=
  if s then Z.neg m else Z.pos m.

(** [floor], [ceil] and truncation towards zero, as integers; a NaN or
    an infinity has none. *)
Definition floor_Z (x : double) : option Z :=
  match x with
  | S754_zero _ => Some 0
  | S754_finite s m e =>
      Some (if 0 <=? e then signed s m * 2 ^ e
            else signed s m / 2 ^ (- e))
  | _ => None
  end.

Definition ceil_Z (x : double) : option Z :=
  match x with
  | S754_zero _ => Some 0
  | S754_finite s m e =>
      Some (if 0 <=? e then signed s m * 2 ^ e
            else - ((- signed s m) / 2 ^ (- e)))
  | _ => None
  end.

Definition trunc_Z (x : double) : option Z :=
  match x with
  | S754_zero _ => Some 0
  | S754_finite s m e =>
      Some (if 0 <=? e then signed s m * 2 ^ e
            else Z.quot (signed s m) (2 ^ (- e)))
  | _ => None
  end.

(** [fmod(x, 1.0)]: the fractional part, with the sign of [x]; exact. *)
Definition fmod1 (x : double) : double :=
  match x with
  | S754_zero _ => x
  | S754_finite s m e =>
      if 0 <=? e then S754_zero s
      else binary_normalize prec emax
             (Z.rem (signed s m) (2 ^ (- e))) e s
  | _ => S754_nan
  end.

(** Conversions to integer types. *)
Definition in_range (lo hi : Z) (z : option Z) : option Z :=
  match z with
  | Some v => if (lo <=? v) && (v <=? hi) then Some v else None
  | None => None
  end.

(** [(int)floor(x)]. *)
Definition int_of_floor (x : double) : option Z :=
  in_range (- 2 ^ 31) (2 ^ 31 - 1) (floor_Z x).

(** [(uint8_t)floor(x)] and [(uint8_t)ceil(x)]. *)
Definition u8_of_floor (x : double) : option Z :=
  in_range 0 255 (floor_Z x).
Definition u8_of_ceil (x : double) : option Z :=
  in_range 0 255 (ceil_Z x).

(** [(uint32_t)x]. *)
Definition u32_of_double (x : double) : option Z :=
  in_range 0 (2 ^ 32 - 1) (trunc_Z x).

End Double.
Import Double.

(** Sequencing of computations that may be undefined. *)
Definition bind {A B : Type} (x : option A) (f : A -> option B) : option B :=
  match x with
  | Some a => f a
  | None => None
  end.

Notation "x <- e ;; k" := (bind e (fun x => k))
  (at level 61, e at next level, right associativity).
Notation "' p <- e ;; k" := (bind e (fun x => let p := x in k))
  (at level 61, p pattern, e at next level, right associativity).

(** ** Hour divider *)

(** [_find_planetary_hour_in_period]: the index, and the start and end of
    that subdivision. *)
Definition _find_planetary_hour_in_period
    (period_start period_end target_time : watch_date_time_t)
    : option (Z * watch_date_time_t * watch_date_time_t) :=
  let ps := _unix period_start in
  let pe := _unix period_end in
  let tt := _unix target_time in
  let hour_duration := div (of_Z (u32 (pe - ps))) (of_Z 12) in
  index <- int_of_floor (div (of_Z (u32 (tt - ps))) hour_duration) ;;
  let index := if index <? 0 then 0 else index in
  let index := if index >? 11 then 11 else index in
  hs <- u32_of_double (mul (of_Z index) hour_duration) ;;
  he <- u32_of_double (mul (of_Z (index + 1)) hour_duration) ;;
  Some (index, _from_unix (u32 (ps + hs)), _from_unix (u32 (ps + he))).

(** ** Sun times *)

(** [_local_decimal_hours_to_dt]. *)
Definition _local_decimal_hours_to_dt
    (day_local : watch_date_time_t) (local_hours_dec : double)
    : option watch_date_time_t :=
  hour <- int_of_floor local_hours_dec ;;
  let fractional_hour := sub local_hours_dec (of_Z hour) in
  let '(hour, t) :=
    if hour <? 0
    then (hour + 24, _from_unix (u32 (_unix day_local - 86400)))
    else if hour >=? 24
    then (hour - 24, _from_unix (u32 (_unix day_local + 86400)))
    else (hour, day_local) in
  let t := set_hour t (u8 hour) in
  let minutes := mul (of_Z 60) fractional_hour in
  let seconds := mul (of_Z 60) (fmod1 minutes) in
  minute <- (if ltb seconds (of_Z 30)
             then u8_of_floor minutes else u8_of_ceil minutes) ;;
  let t := set_minute t minute in
  if dt_minute t =? 60
  then
    let t := set_minute t 0 in
    let t := set_hour t (u8 (cmod (dt_hour t + 1) 24)) in
    if dt_hour t =? 0
    then Some (_from_unix (u32 (_unix t + 86400)))
    else Some t
  else Some t.

(** ** The face *)

(** The face state; [planetary_hour_state_t] is declared in the header of
    the face. *)
Record planetary_hour_state_t := mk_state {
  hour_offset : Z;
  longLatToUse : Z;
  hour_offset_expires : watch_date_time_t;
  location_state : location_state_t
}.

Definition with_expires (s : planetary_hour_state_t) (t : watch_date_time_t) :=
  mk_state (hour_offset s) (longLatToUse s) t (location_state s).
Definition with_hour_offset (s : planetary_hour_state_t) (h : Z) :=
  mk_state h (longLatToUse s) (hour_offset_expires s) (location_state s).
Definition with_preset (s : planetary_hour_state_t) (i : Z) :=
  mk_state (hour_offset s) i (hour_offset_expires s) (location_state s).
Definition with_location_state (s : planetary_hour_state_t)
    (l : location_state_t) :=
  mk_state (hour_offset s) (longLatToUse s) (hour_offset_expires s) l.

(** [_planetary_hour_set_expiration]. *)
Definition _planetary_hour_set_expiration
    (state : planetary_hour_state_t) (next_hours_offset : watch_date_time_t)
    : planetary_hour_state_t :=
  let timestamp := _unix next_hours_offset in
  with_expires state (_from_unix (u32 (timestamp + 60))).

(** What the host supplies: the local clock, the time-zone offset in
    seconds, the persisted location in hundredths of a degree (latitude,
    longitude), the display type and the clock mode. *)
Record host_t := mk_host {
  movement_get_local_date_time : watch_date_time_t;
  movement_get_current_timezone_offset : Z;
  load_location_from_filesystem : Z * Z;
  watch_get_lcd_type : lcd_type;
  movement_clock_mode_24h : bool;
  watch_sleep_animation_is_running : bool
}.

Definition with_location (h : host_t) (loc : Z * Z) :=
  mk_host (movement_get_local_date_time h)
          (movement_get_current_timezone_offset h) loc
          (watch_get_lcd_type h) (movement_clock_mode_24h h)
          (watch_sleep_animation_is_running h).

(** The period the target instant falls in, and the day whose ruler
    governs it. *)
Record period_t := mk_period {
  period_start : watch_date_time_t;
  period_end : watch_date_time_t;
  is_night : bool;
  base_day : watch_date_time_t
}.

(** What [_planetary_hour_face_update] puts on the display. *)
Record planetary_hour_t := mk_planetary_hour {
  ph_period : period_t;
  hour_index : Z;
  hour_start : watch_date_time_t;
  hour_end : watch_date_time_t;
  ruler : planet_names_t
}.

Inductive display_t :=
| Display_No_Loc
| Display_None
| Display_Hour (r : planetary_hour_t).

Section Face.

(** The sun-event function of sunriset.h: status, sunrise and sunset in
    UTC decimal hours, from (year, month, day, longitude, latitude). *)
Variable sun_rise_set : Z -> Z -> Z -> double -> double -> Z * double * double.

(** The preset locations (latitude, longitude) of the header. *)
Variable longLatPresets : list (Z * Z).

(** What an automatic variable holds before it is first assigned. *)
Variable indeterminate : watch_date_time_t.

Definition _location_count : Z := u8 (Z.of_nat (List.length longLatPresets)).

(** [_compute_local_sun_times]: the status, and the two out-parameters,
    which keep their previous content when the status is [false]. *)
Definition _compute_local_sun_times
    (day_local : watch_date_time_t) (lon lat hours_from_utc : double)
    (sunrise_local sunset_local : watch_date_time_t)
    : option (bool * watch_date_time_t * watch_date_time_t) :=
  let '(status, rise_utc_dec, set_utc_dec) :=
    sun_rise_set (dt_year day_local + WATCH_RTC_REFERENCE_YEAR)
                 (dt_month day_local) (dt_day day_local) lon lat in
  let result := u8 status in
  if negb (result =? 0)
  then Some (false, sunrise_local, sunset_local)
  else
    sr <- _local_decimal_hours_to_dt day_local
            (add rise_utc_dec hours_from_utc) ;;
    ss <- _local_decimal_hours_to_dt day_local
            (add set_utc_dec hours_from_utc) ;;
    Some (true, sr, ss).

(** The planetary base selection of [_planetary_hour_face_update], once
    the sun times of the target day are known.  The status of the two
    inner calls is not looked at. *)
Definition select_period
    (target_time target0 sr_target_day ss_target_day : watch_date_time_t)
    (lon lat hours_from_utc : double) : option period_t :=
  let tt := _unix target_time in
  if tt <? _unix sr_target_day then
    let target_neg1 := _add_days target0 (-1) in
    '(_, _, ss_prev_day) <-
      _compute_local_sun_times target_neg1 lon lat hours_from_utc
                               indeterminate indeterminate ;;
    Some (mk_period ss_prev_day sr_target_day true target_neg1)
  else if tt >=? _unix ss_target_day then
    let target1 := _add_days target0 1 in
    '(_, sr_next_day, _) <-
      _compute_local_sun_times target1 lon lat hours_from_utc
                               indeterminate indeterminate ;;
    Some (mk_period ss_target_day sr_next_day true target0)
  else
    Some (mk_period sr_target_day ss_target_day false target0).

(** [_planetary_hour_face_update]: the new state and what is shown. *)
Definition _planetary_hour_face_update
    (host : host_t) (state : planetary_hour_state_t)
    : option (planetary_hour_state_t * display_t) :=
  let movement_location :=
    if (longLatToUse state =? 0) || (_location_count <=? 1)
    then load_location_from_filesystem host
    else nth (Z.to_nat (longLatToUse state)) longLatPresets (0, 0) in
  let '(lat_centi, lon_centi) := movement_location in
  if (lat_centi =? 0) && (lon_centi =? 0)
  then Some (state, Display_No_Loc)
  else
    let now_local := movement_get_local_date_time host in
    let lat := div (of_Z lat_centi) (of_Z 100) in
    let lon := div (of_Z lon_centi) (of_Z 100) in
    let hours_from_utc :=
      div (of_Z (movement_get_current_timezone_offset host)) (of_Z 3600) in
    let unix_time := u32 (_unix now_local + hour_offset state * 3600) in
    let target_time := _from_unix unix_time in
    let target0 := _midnight_of target_time in
    '(ok, sr_target_day, ss_target_day) <-
      _compute_local_sun_times target0 lon lat hours_from_utc
                               indeterminate indeterminate ;;
    if negb ok
    then Some (state, Display_None)
    else
      p <- select_period target_time target0 sr_target_day ss_target_day
                         lon lat hours_from_utc ;;
      '(index, h_start, h_end) <-
        _find_planetary_hour_in_period (period_start p) (period_end p)
                                       target_time ;;
      let chaldean_offset := index + (if is_night p then 12 else 0) in
      let r := planetary_ruler_from_base_and_time (base_day p)
                                                  chaldean_offset in
      let state := _planetary_hour_set_expiration state h_end in
      Some (state, Display_Hour (mk_planetary_hour p index h_start h_end r)).

(** *** The event loop *)

Inductive movement_event_type_t :=
| EVENT_ACTIVATE
| EVENT_LOW_ENERGY_UPDATE
| EVENT_TICK
| EVENT_ALARM_LONG_PRESS
| EVENT_ALARM_BUTTON_UP
| EVENT_TIMEOUT
| EVENT_LIGHT_BUTTON_DOWN
| EVENT_ALARM_BUTTON_DOWN
| EVENT_LIGHT_LONG_PRESS
| EVENT_LIGHT_BUTTON_UP
| EVENT_OTHER.

(** The calls the loop makes, in order. *)
Inductive effect_t :=
| Face_update (shown : display_t)
| Location_settings_display
| Start_sleep_animation
| Clear_display
| Request_tick_frequency (hz : Z)
| Move_to_face (index : Z)
| Illuminate_led
| Default_loop_handler.

(** Modelled from the spec: [_update_location_register] is defined
    outside the source under study.  The spec has it commit the working
    value into the persisted coordinate register; it does so when the
    working value was changed. *)
Definition _update_location_register
    (host : host_t) (ls : location_state_t) : host_t * location_state_t :=
  if location_changed ls
  then (with_location host (_latlon_from_struct (working_latitude ls),
                            _latlon_from_struct (working_longitude ls)),
        with_changed ls false)
  else (host, ls).

Definition loop_result : Type :=
  host_t * planetary_hour_state_t * list effect_t.

Definition call_update (host : host_t) (state : planetary_hour_state_t)
    (before : list effect_t) : option loop_result :=
  '(state, shown) <- _planetary_hour_face_update host state ;;
  Some (host, state, before ++ [Face_update shown]).

(** The cursor step of [EVENT_LIGHT_BUTTON_UP] on an editing page. *)
Definition advance_cursor (host : host_t) (ls : location_state_t)
    : host_t * location_state_t :=
  let last := match watch_get_lcd_type host with
              | WATCH_LCD_TYPE_CUSTOM => 4
              | WATCH_LCD_TYPE_CLASSIC => 5
              end in
  let digit := active_digit ls + 1 in
  let digit :=
    match watch_get_lcd_type host with
    | WATCH_LCD_TYPE_CUSTOM => digit
    | WATCH_LCD_TYPE_CLASSIC =>
        if (page ls =? 1) && (digit =? 1) then digit + 1 else digit
    end in
  if digit >? last
  then _update_location_register host
         (with_cursor ls (cmod (page ls + 1) 3) 0)
  else (host, with_cursor ls (page ls) digit).

(** [planetary_hour_face_loop], for a non-null context. *)
Definition planetary_hour_face_loop
    (host : host_t) (event : movement_event_type_t)
    (state : planetary_hour_state_t) : option loop_result :=
  let ls := location_state state in
  match event with
  | EVENT_ACTIVATE => call_update host state []
  | EVENT_LOW_ENERGY_UPDATE | EVENT_TICK =>
    if page ls =? 0 then
      let animation :=
        match event with
        | EVENT_LOW_ENERGY_UPDATE =>
            if negb (watch_sleep_animation_is_running host)
            then [Start_sleep_animation] else []
        | _ => []
        end in
      let date_time := movement_get_local_date_time host in
      if reg date_time >=? reg (hour_offset_expires state)
      then call_update host state animation
      else Some (host, state, animation)
    else Some (host, state, [Location_settings_display])
  | EVENT_ALARM_LONG_PRESS =>
    if page ls =? 0 then
      if negb (longLatToUse state =? 0)
      then call_update host (with_preset state 0) []
      else
        Some (host,
              with_location_state state (with_cursor ls (page ls + 1) 0),
              [Clear_display; Request_tick_frequency 4;
               Location_settings_display])
    else
      let '(host, ls) :=
        _update_location_register host (with_cursor ls 0 0) in
      call_update host (with_location_state state ls) []
  | EVENT_ALARM_BUTTON_UP =>
    if negb (page ls =? 0)
    then
      Some (host,
            with_location_state state
              (_planetary_hour_face_advance_digit
                 (watch_get_lcd_type host) ls),
            [Location_settings_display])
    else call_update host (with_hour_offset state (hour_offset state + 1)) []
  | EVENT_TIMEOUT => Some (host, state, [Move_to_face 0])
  | EVENT_LIGHT_BUTTON_DOWN | EVENT_ALARM_BUTTON_DOWN =>
    Some (host, state, [])
  | EVENT_LIGHT_LONG_PRESS => Some (host, state, [Illuminate_led])
  | EVENT_LIGHT_BUTTON_UP =>
    if (page ls =? 0) && (_location_count >? 1)
    then
      call_update host
        (with_preset state (cmod (longLatToUse state + 1) _location_count))
        []
    else
      let '(host, ls, shown) :=
        if negb (page ls =? 0)
        then let '(host, ls) := advance_cursor host ls in
             (host, ls, [Location_settings_display])
        else (host, ls, []) in
      let state := with_location_state state ls in
      if page ls =? 0
      then call_update host
             (with_hour_offset state (hour_offset state - 1))
             (shown ++ [Request_tick_frequency 1])
      else Some (host, state, shown)
  | EVENT_OTHER => Some (host, state, [Default_loop_handler])
  end.

End Face.


(** ** Notions used in the statements *)

(** The days the RTC holds, as day numbers: from 2020-01-01 to
    2083-12-31. *)
Definition first_day : Z := 18262.
Definition end_day : Z := 41638.

Definition triple_eqb (a b : Z * Z * Z) : bool :=
  let '(a1, a2, a3) := a in
  let '(b1, b2, b3) := b in
  (a1 =? b1) && (a2 =? b2) && (a3 =? b3).

Definition check_date (y m d : Z) : bool :=
  if d <=? days_in_month (y + WATCH_RTC_REFERENCE_YEAR) m
  then
    let n := days_from_civil (y + WATCH_RTC_REFERENCE_YEAR) m d in
    (first_day <=? n) && (n <? end_day) &&
    triple_eqb (civil_from_days n) (y + WATCH_RTC_REFERENCE_YEAR, m, d)
  else true.

Definition check_day (n : Z) : bool :=
  let '(y, m, d) := civil_from_days n in
  (WATCH_RTC_REFERENCE_YEAR <=? y) && (y <? WATCH_RTC_REFERENCE_YEAR + 64) &&
  (1 <=? m) && (m <=? 12) && (1 <=? d) && (d <=? days_in_month y m) &&
  (days_from_civil y m d =? n).

(** The seven planets, by name. *)
Definition Saturn := mk_planet "Satur" "SA".
Definition Jupiter := mk_planet "Jupit" "JU".
Definition Mars := mk_planet "Mars " "MA".
Definition Sun := mk_planet "Sun  " "SU".
Definition Venus := mk_planet "Venus" "VE".
Definition Mercury := mk_planet "Mercu" "ME".
Definition Moon := mk_planet "Moon " "MO".

(** The planet at a position of the Chaldean cycle. *)
Definition planet_at (i : Z) : planet_names_t :=
  nth (Z.to_nat (i mod 7)) planet_names no_planet.

(** The weekday of day number [n + 1] follows that of day number [n]. *)
Definition dow_step_check (n : Z) : bool :=
  let today := day_of_week (_from_unix (n * 86400)) in
  (0 <=? today) && (today <? 7) &&
  (day_of_week (_from_unix ((n + 1) * 86400)) =? (today + 1) mod 7).

(** The digit fields hold what their widths allow. *)
Definition settings_wf (v : lat_lon_settings_t) : Prop :=
  0 <= sign v < 2 ^ SIGN_BITS /\ 0 <= hundreds v < 2 ^ HUNDREDS_BITS /\
  0 <= tens v < 2 ^ DIGIT_BITS /\ 0 <= ones v < 2 ^ DIGIT_BITS /\
  0 <= tenths v < 2 ^ DIGIT_BITS /\ 0 <= hundredths v < 2 ^ DIGIT_BITS.

(** The reconstructed coordinate is within 90.00 (180.00) degrees. *)
Definition lat_in_range (v : lat_lon_settings_t) : Prop :=
  Z.abs (_latlon_from_struct v) <= 9000.
Definition lon_in_range (v : lat_lon_settings_t) : Prop :=
  Z.abs (_latlon_from_struct v) <= 18000.

Definition editor_ok (s : location_state_t) : Prop :=
  settings_wf (working_latitude s) /\ lat_in_range (working_latitude s) /\
  settings_wf (working_longitude s) /\ lon_in_range (working_longitude s).

(** The cursor of the editor is on page [p], digit [d], of display [lcd0]. *)
Definition cursor_at (lcd : lcd_type) (s : location_state_t)
    (lcd0 : lcd_type) (p d : Z) : Prop :=
  lcd = lcd0 /\ page s = p /\ active_digit s = d.

(** ** Sample hosts for the worked examples *)

(** A sun-event function for an observer at 70 degrees north in May 2024:
    up to the 17th the sun rises at 01:30 and sets at 23:00 UTC; from the
    18th on it stays above the horizon and the status is +1. *)
Definition midnight_sun_onset (year month day : Z) (lon lat : double)
    : Z * double * double :=
  if day <? 18
  then (0, div (of_Z 3) (of_Z 2), of_Z 23)
  else (1, of_Z 0, of_Z 0).

(** The watch at 70.00 N, 19.00 E, on UTC, at [now]. *)
Definition arctic_host (now : watch_date_time_t) : host_t :=
  mk_host now 0 (7000, 1900) WATCH_LCD_TYPE_CLASSIC true false.

Definition idle_location_state : location_state_t :=
  mk_location_state 0 0 false
    (_planetary_hour_face_struct_from_latlon 7000)
    (_planetary_hour_face_struct_from_latlon 1900).

(** The face state after activation at [now]. *)
Definition fresh_state (now : watch_date_time_t) : planetary_hour_state_t :=
  mk_state 0 0 now idle_location_state.

(** Whether the loop ran [_planetary_hour_face_update]. *)
Definition is_face_update (e : effect_t) : bool :=
  match e with
  | Face_update _ => true
  | _ => false
  end.

Definition recomputed (r : option loop_result) : bool :=
  match r with
  | Some (_, _, effects) => existsb is_face_update effects
  | None => false
  end.

(** The date part of the register of day number [n]. *)
Definition date_key_of_day (n : Z) : Z :=
  let '(y, m, d) := civil_from_days n in
  d + 2 ^ 5 * m + 2 ^ 9 * (y - WATCH_RTC_REFERENCE_YEAR).

Definition date_key_step_check (n : Z) : bool :=
  date_key_of_day n <? date_key_of_day (n + 1).

(** The all-zero register. *)
Definition zero_date_time : watch_date_time_t := mk_date_time 0 0 0 0 0 0.

(** The inputs [_planetary_hour_face_update] derives from the host and the
    state before it asks for sun times: the location in use, the target
    instant, and the coordinates and offset as [double]. *)
Definition location_in_use (longLatPresets : list (Z * Z))
    (host : host_t) (state : planetary_hour_state_t) : Z * Z :=
  if (longLatToUse state =? 0) || (_location_count longLatPresets <=? 1)
  then load_location_from_filesystem host
  else nth (Z.to_nat (longLatToUse state)) longLatPresets (0, 0).

Definition target_time_of (host : host_t) (state : planetary_hour_state_t)
    : watch_date_time_t :=
  _from_unix (u32 (_unix (movement_get_local_date_time host)
                   + hour_offset state * 3600)).

Definition degrees (centi : Z) : double := div (of_Z centi) (of_Z 100).

Definition hours_from_utc_of (host : host_t) : double :=
  div (of_Z (movement_get_current_timezone_offset host)) (of_Z 3600).

(** The sun times of the target day, as the update asks for them. *)
Definition target_day_sun_times
    (sun_rise_set : Z -> Z -> Z -> double -> double -> Z * double * double)
    (longLatPresets : list (Z * Z)) (indeterminate : watch_date_time_t)
    (host : host_t) (state : planetary_hour_state_t)
    : option (bool * watch_date_time_t * watch_date_time_t) :=
  let loc := location_in_use longLatPresets host state in
  _compute_local_sun_times sun_rise_set
    (_midnight_of (target_time_of host state))
    (degrees (snd loc)) (degrees (fst loc)) (hours_from_utc_of host)
    indeterminate indeterminate.

(** ** Round to nearest, ties to even *)

(** [m * U] is the multiple of [U] nearest to the rational [A / B], and the
    even one of the two when [A / B] is half-way. *)
Definition nearest_even (A B U m : Z) : Prop :=
  2 * Z.abs (A - m * U * B) <= U * B /\
  (2 * Z.abs (A - m * U * B) = U * B -> Z.even m = true).

(** The binary64 number of significand [m], between 2^52 and 2^53
    inclusive, and exponent [e]. *)
Definition normal53 (m e : Z) : double :=
  if m <? 2 ^ 53
  then S754_finite false (Z.to_pos m) e
  else S754_finite false (Z.to_pos (2 ^ 52)) (e + 1).

(** Where [mx + r / B] lies between [mx] and [mx + 1]. *)
Definition location_of (r B : Z) : location :=
  if r =? 0 then loc_Exact else loc_Inexact (2 * r ?= B).

(** The boundary [(uint32_t)(i * hour_duration)] of the hour divider for a
    period of [D] seconds. *)
Definition sub_hour_bound (D i : Z) : Z :=
  match u32_of_double (mul (of_Z i) (div (of_Z D) (of_Z 12))) with
  | Some v => v
  | None => 0
  end.

(** ** Entry points of the face *)

(** What [memset] leaves in a freshly allocated context. *)
Definition zeroed_state : planetary_hour_state_t :=
  mk_state 0 0 (mk_date_time 0 0 0 0 0 0)
    (mk_location_state 0 0 false (mk_latlon 0 0 0 0 0 0)
                       (mk_latlon 0 0 0 0 0 0)).

(** [planetary_hour_face_setup], on the context pointer: [None] is the null
    pointer, and the allocation is taken to succeed. *)
Definition planetary_hour_face_setup
    (context : option planetary_hour_state_t)
    : option planetary_hour_state_t :=
  match context with
  | None => Some zeroed_state
  | Some state => Some state
  end.

(** [planetary_hour_face_activate]. *)
Definition planetary_hour_face_activate
    (host : host_t) (state : planetary_hour_state_t)
    : planetary_hour_state_t :=
  let state := with_hour_offset state 0 in
  let state := with_preset state 0 in
  let state := with_expires state (movement_get_local_date_time host) in
  let '(latitude, longitude) := load_location_from_filesystem host in
  let ls := location_state state in
  let ls := with_latitude ls
              (_planetary_hour_face_struct_from_latlon latitude) in
  let ls := with_longitude ls
              (_planetary_hour_face_struct_from_latlon longitude) in
  let ls := with_cursor ls 0 0 in
  let ls := with_changed ls false in
  with_location_state state ls.

(** [planetary_hour_face_resign]. *)
Definition planetary_hour_face_resign
    (host : host_t) (state : planetary_hour_state_t)
    : host_t * planetary_hour_state_t :=
  let ls := with_cursor (location_state state) 0 0 in
  let state := with_hour_offset state 0 in
  let '(host, ls) := _update_location_register host ls in
  (host, with_location_state state ls).

(** ** Further notions used in the statements *)

(** The last digit position of a page of the editor. *)
Definition last_digit (lcd : lcd_type) : Z :=
  match lcd with
  | WATCH_LCD_TYPE_CUSTOM => 4
  | WATCH_LCD_TYPE_CLASSIC => 5
  end.

(** The cursor is at rest (page 0, digit 0), or on a digit of an editing
    page that the layout has. *)
Definition cursor_ok (lcd : lcd_type) (s : location_state_t) : Prop :=
  (page s = 0 /\ active_digit s = 0) \/
  ((page s = 1 \/ page s = 2) /\ 0 <= active_digit s <= last_digit lcd /\
   ~ (lcd = WATCH_LCD_TYPE_CLASSIC /\ page s = 1 /\ active_digit s = 1)).

(** The cursor positions (page, digit) after 0, 1, ..., [n] presses of the
    light button on the editing pages. *)
Fixpoint cursor_trace (n : nat) (host : host_t) (ls : location_state_t)
    : list (Z * Z) :=
  (page ls, active_digit ls) ::
  match n with
  | O => []
  | S k => let '(host, ls) := advance_cursor host ls in
           cursor_trace k host ls
  end.

(** The preset index selects the stored location (0) or an entry of the
    preset table. *)
Definition preset_ok (longLatPresets : list (Z * Z))
    (state : planetary_hour_state_t) : Prop :=
  longLatToUse state = 0 \/
  (0 < longLatToUse state < _location_count longLatPresets /\
   (Z.to_nat (longLatToUse state) < List.length longLatPresets)%nat).

(** Every decimal digit of the record is at most 9. *)
Definition decimal_digits (v : lat_lon_settings_t) : Prop :=
  tens v <= 9 /\ ones v <= 9 /\ tenths v <= 9 /\ hundredths v <= 9.

(** The weekday of day number [n], Sunday being 0: day 0, the first of
    January 1970, was a Thursday. *)
Definition weekday_of_day_number (n : Z) : Z := (n + 4) mod 7.

(** The planets the days of the week are named after, Sunday first. *)
Definition weekday_planets : list planet_names_t :=
  [Sun; Moon; Mars; Mercury; Jupiter; Venus; Saturn].

Definition weekday_check (y m d : Z) : bool :=
  if d <=? days_in_month (y + WATCH_RTC_REFERENCE_YEAR) m
  then day_of_week (mk_date_time y m d 0 0 0)
       =? weekday_of_day_number
            (days_from_civil (y + WATCH_RTC_REFERENCE_YEAR) m d)
  else true.

(** The civil date of a day number has a month and a day of the month. *)
Definition civil_fields_check (n : Z) : bool :=
  let '(y, m, d) := civil_from_days n in
  (1 <=? m) && (m <=? 12) && (1 <=? d) && (d <=? 31).

(** * Properties *)

(** ** Machine integers *)

Lemma u32_small z : 0 <= z < 2 ^ 32 -> u32 z = z.
Proof. intro H. unfold u32. now apply Z.mod_small. Qed.

Lemma u32_range z : 0 <= u32 z < 2 ^ 32.
Proof. unfold u32. apply Z.mod_pos_bound. reflexivity. Qed.

Lemma bitfield_small w z : 0 <= z < 2 ^ w -> bitfield w z = z.
Proof. intro H. unfold bitfield. now apply Z.mod_small. Qed.

Lemma cdiv_nonneg a b : 0 <= a -> 0 < b -> cdiv a b = a / b.
Proof. intros. unfold cdiv. apply Z.quot_div_nonneg; lia. Qed.

Lemma cmod_nonneg a b : 0 <= a -> 0 < b -> cmod a b = a mod b.
Proof. intros. unfold cmod. apply Z.rem_mod_nonneg; lia. Qed.

Lemma forall_from_spec n : forall lo p,
  forall_from n lo p = true ->
  forall z, lo <= z < lo + Z.of_nat n -> p z = true.
Proof.
  induction n as [|k IH]; intros lo p H z Hz.
  - simpl in Hz. lia.
  - simpl in H. apply andb_true_iff in H as [H0 Hk].
    destruct (Z.eq_dec z lo) as [->|Hne]; [exact H0|].
    apply (IH (lo + 1) p Hk). lia.
Qed.

(** ** Calendar: the two conversions are inverse on the RTC range *)

Lemma triple_eqb_eq a b : triple_eqb a b = true -> a = b.
Proof.
  destruct a as [[a1 a2] a3], b as [[b1 b2] b3]. simpl.
  rewrite !andb_true_iff, !Z.eqb_eq. intros [[-> ->] ->]. reflexivity.
Qed.

Lemma all_dates_checked :
  forall_from 64 0 (fun y =>
    forall_from 12 1 (fun m =>
      forall_from 31 1 (fun d => check_date y m d))) = true.
Proof. vm_compute. reflexivity. Qed.

Lemma all_days_checked :
  forall_from (Z.to_nat (end_day - first_day)) first_day check_day = true.
Proof. vm_compute. reflexivity. Qed.

Lemma check_date_holds y m d :
  0 <= y < 64 -> 1 <= m <= 12 -> 1 <= d <= 31 -> check_date y m d = true.
Proof.
  intros Hy Hm Hd.
  pose proof (forall_from_spec _ _ _ all_dates_checked y) as H1.
  cbv beta in H1. specialize (H1 ltac:(simpl; lia)).
  pose proof (forall_from_spec _ _ _ H1 m) as H2.
  cbv beta in H2. specialize (H2 ltac:(simpl; lia)).
  apply (forall_from_spec _ _ _ H2 d). simpl; lia.
Qed.

Lemma check_day_holds n : first_day <= n < end_day -> check_day n = true.
Proof.
  intro H.
  apply (forall_from_spec (Z.to_nat (end_day - first_day)) first_day
                          check_day all_days_checked n).
  rewrite Z2Nat.id; unfold first_day, end_day in *; lia.
Qed.

Lemma days_in_month_le y m : days_in_month y m <= 31.
Proof.
  unfold days_in_month.
  destruct (m =? 2); [destruct (is_leap y); lia|].
  destruct ((m =? 4) || (m =? 6) || (m =? 9) || (m =? 11)); lia.
Qed.

Lemma valid_date_time_inv t :
  valid_date_time t = true ->
  0 <= dt_year t < 64 /\ 1 <= dt_month t <= 12 /\
  1 <= dt_day t <= days_in_month (dt_year t + WATCH_RTC_REFERENCE_YEAR) (dt_month t) /\
  0 <= dt_hour t < 24 /\ 0 <= dt_minute t < 60 /\ 0 <= dt_second t < 60.
Proof.
  unfold valid_date_time. rewrite !andb_true_iff. lia.
Qed.

Lemma valid_date_civil t :
  valid_date_time t = true ->
  let n := days_from_civil (dt_year t + WATCH_RTC_REFERENCE_YEAR)
                           (dt_month t) (dt_day t) in
  first_day <= n < end_day /\
  civil_from_days n = (dt_year t + WATCH_RTC_REFERENCE_YEAR, dt_month t, dt_day t).
Proof.
  intros Hv n. apply valid_date_time_inv in Hv.
  destruct Hv as (Hy & Hm & Hd & _).
  pose proof (days_in_month_le (dt_year t + WATCH_RTC_REFERENCE_YEAR) (dt_month t)).
  pose proof (check_date_holds (dt_year t) (dt_month t) (dt_day t) Hy Hm
                ltac:(lia)) as Hc.
  unfold check_date in Hc.
  destruct (Z.leb_spec (dt_day t)
              (days_in_month (dt_year t + WATCH_RTC_REFERENCE_YEAR) (dt_month t)));
    [|lia].
  fold n in Hc. rewrite !andb_true_iff in Hc.
  destruct Hc as [[H1 H2] H3]. apply triple_eqb_eq in H3.
  apply Z.leb_le in H1. apply Z.ltb_lt in H2. split; [lia | exact H3].
Qed.

(** The Unix time of a valid date and time, without wrap-around. *)
Lemma unix_valid t :
  valid_date_time t = true ->
  _unix t = days_from_civil (dt_year t + WATCH_RTC_REFERENCE_YEAR)
                            (dt_month t) (dt_day t) * 86400
            + dt_hour t * 3600 + dt_minute t * 60 + dt_second t /\
  first_day * 86400 <= _unix t < end_day * 86400.
Proof.
  intro Hv. pose proof (valid_date_civil t Hv) as [Hn _].
  apply valid_date_time_inv in Hv. destruct Hv as (_ & _ & _ & Hh & Hmi & Hs).
  unfold _unix, watch_utility_date_time_to_unix_time.
  unfold first_day, end_day in *.
  rewrite u32_small; [lia | change (2 ^ 32) with 4294967296; lia].
Qed.

Lemma from_unix_unix t :
  valid_date_time t = true -> _from_unix (_unix t) = t.
Proof.
  intro Hv. pose proof (unix_valid t Hv) as [Hu Hr].
  pose proof (valid_date_civil t Hv) as [Hn Hc]. cbv zeta in Hn, Hc.
  apply valid_date_time_inv in Hv. destruct Hv as (Hy & _ & _ & Hh & Hmi & Hs).
  unfold _from_unix, watch_utility_date_time_from_unix_time.
  rewrite Z.add_0_r, u32_small
    by (unfold first_day, end_day in Hr; change (2 ^ 32) with 4294967296; lia).
  set (n := days_from_civil _ _ _) in *.
  set (tod := dt_hour t * 3600 + dt_minute t * 60 + dt_second t).
  assert (Htod : 0 <= tod < 86400) by (unfold tod; lia).
  assert (Hdiv : _unix t / 86400 = n)
    by (rewrite Hu; fold tod; symmetry; apply (Z.div_unique _ 86400 n tod); lia).
  assert (Hmod : _unix t mod 86400 = tod)
    by (rewrite Hu; fold tod; symmetry; apply (Z.mod_unique _ 86400 n tod); lia).
  rewrite Hdiv, Hmod, Hc.
  replace ((dt_year t + WATCH_RTC_REFERENCE_YEAR <? WATCH_RTC_REFERENCE_YEAR)
           || (WATCH_RTC_REFERENCE_YEAR + 63 <? dt_year t + WATCH_RTC_REFERENCE_YEAR))
    with false
    by (symmetry; apply orb_false_iff; split; apply Z.ltb_ge; lia).
  assert (H1 : tod / 3600 = dt_hour t)
    by (symmetry; apply (Z.div_unique _ 3600 _ (dt_minute t * 60 + dt_second t));
        unfold tod; lia).
  assert (H2 : tod mod 3600 = dt_minute t * 60 + dt_second t)
    by (symmetry; apply (Z.mod_unique _ 3600 (dt_hour t)); unfold tod; lia).
  assert (H3 : (dt_minute t * 60 + dt_second t) / 60 = dt_minute t)
    by (symmetry; apply (Z.div_unique _ 60 _ (dt_second t)); lia).
  assert (H4 : tod mod 60 = dt_second t)
    by (symmetry;
        apply (Z.mod_unique _ 60 (dt_hour t * 60 + dt_minute t)); unfold tod; lia).
  rewrite H1, H2, H3, H4.
  destruct t; simpl. f_equal. lia.
Qed.

Lemma unix_from_unix n :
  first_day * 86400 <= n < end_day * 86400 ->
  valid_date_time (_from_unix n) = true /\ _unix (_from_unix n) = n.
Proof.
  intro Hr. unfold first_day, end_day in Hr.
  assert (Hd : first_day <= n / 86400 < end_day).
  { unfold first_day, end_day. split.
    - apply Z.div_le_lower_bound; lia.
    - apply Z.div_lt_upper_bound; lia. }
  pose proof (check_day_holds _ Hd) as Hc.
  pose proof (Z.mod_pos_bound n 86400 ltac:(lia)) as Hm.
  pose proof (Z.div_mod n 86400 ltac:(lia)) as Hdm.
  set (secs := n mod 86400) in *.
  pose proof (Z.mod_pos_bound secs 3600 ltac:(lia)) as Hm1.
  pose proof (Z.div_mod secs 3600 ltac:(lia)) as Hdm1.
  pose proof (Z.mod_pos_bound (secs mod 3600) 60 ltac:(lia)) as Hm2.
  pose proof (Z.div_mod (secs mod 3600) 60 ltac:(lia)) as Hdm2.
  assert (Hs60 : secs mod 60 = (secs mod 3600) mod 60).
  { symmetry. apply Z.mod_mod_divide. exists 60. reflexivity. }
  assert (Hh : 0 <= secs / 3600 < 24).
  { split; [apply Z.div_pos; lia | apply Z.div_lt_upper_bound; lia]. }
  assert (Hmi : 0 <= secs mod 3600 / 60 < 60).
  { split; [apply Z.div_pos; lia | apply Z.div_lt_upper_bound; lia]. }
  unfold check_day in Hc.
  assert (Hfu : _from_unix n =
    let '(y, m, d) := civil_from_days (n / 86400) in
    if (y <? WATCH_RTC_REFERENCE_YEAR) || (WATCH_RTC_REFERENCE_YEAR + 63 <? y)
    then mk_date_time 0 0 0 0 0 0
    else mk_date_time (y - WATCH_RTC_REFERENCE_YEAR) m d
           (secs / 3600) (secs mod 3600 / 60) (secs mod 60)).
  { unfold _from_unix, watch_utility_date_time_from_unix_time.
    rewrite Z.add_0_r, u32_small by (change (2 ^ 32) with 4294967296; lia).
    reflexivity. }
  destruct (civil_from_days (n / 86400)) as [[y m] d].
  rewrite !andb_true_iff in Hc.
  destruct Hc as [[[[[[Hy1 Hy2] Hm1'] Hm2'] Hd1] Hd2] Hdays].
  apply Z.leb_le in Hy1, Hm1', Hm2', Hd1, Hd2. apply Z.ltb_lt in Hy2.
  apply Z.eqb_eq in Hdays.
  replace ((y <? WATCH_RTC_REFERENCE_YEAR) || (WATCH_RTC_REFERENCE_YEAR + 63 <? y))
    with false in Hfu
    by (symmetry; apply orb_false_iff; split; apply Z.ltb_ge; lia).
  rewrite Hfu. split.
  - unfold valid_date_time. cbn [dt_year dt_month dt_day dt_hour dt_minute dt_second].
    replace (y - WATCH_RTC_REFERENCE_YEAR + WATCH_RTC_REFERENCE_YEAR) with y by lia.
    rewrite !andb_true_iff.
    repeat split; try (apply Z.leb_le; lia); try (apply Z.ltb_lt; lia).
  - unfold _unix, watch_utility_date_time_to_unix_time.
    cbn [dt_year dt_month dt_day dt_hour dt_minute dt_second].
    replace (y - WATCH_RTC_REFERENCE_YEAR + WATCH_RTC_REFERENCE_YEAR) with y by lia.
    rewrite Hdays.
    rewrite u32_small; [lia | change (2 ^ 32) with 4294967296; lia].
Qed.

(** The date of an instant depends on its day number alone. *)
Lemma midnight_of_from_unix n tod :
  first_day <= n < end_day -> 0 <= tod < 86400 ->
  _midnight_of (_from_unix (n * 86400 + tod)) = _from_unix (n * 86400).
Proof.
  intros Hn Htod. unfold first_day, end_day in Hn.
  unfold _from_unix, watch_utility_date_time_from_unix_time.
  rewrite !Z.add_0_r.
  rewrite !u32_small by (change (2 ^ 32) with 4294967296; lia).
  replace ((n * 86400 + tod) / 86400) with n
    by (apply (Z.div_unique _ 86400 n tod); lia).
  replace (n * 86400 / 86400) with n
    by (apply (Z.div_unique _ 86400 n 0); lia).
  replace (n * 86400 mod 86400) with 0
    by (apply (Z.mod_unique _ 86400 n 0); lia).
  destruct (civil_from_days n) as [[y m] d].
  destruct ((y <? WATCH_RTC_REFERENCE_YEAR) || (WATCH_RTC_REFERENCE_YEAR + 63 <? y));
    reflexivity.
Qed.

(** ** Adding and subtracting a day *)

Lemma add_days_minus_one t :
  86400 <= _unix t ->
  _add_days t (-1) = _from_unix (_unix t - 86400).
Proof.
  intro H. unfold _add_days.
  pose proof (u32_range
    (days_from_civil (dt_year t + WATCH_RTC_REFERENCE_YEAR) (dt_month t) (dt_day t)
       * 86400 + dt_hour t * 3600 + dt_minute t * 60 + dt_second t - 0)) as Hr.
  change (u32 _) with (_unix t) in Hr.
  change (u32 (if -1 >=? 0 then -1 else - -1)) with 1.
  change (u32 (if -1 >=? 0 then 1 else -1)) with (2 ^ 32 - 1).
  change (u32 (u32 (86400 * 1) * (2 ^ 32 - 1))) with (2 ^ 32 - 86400).
  f_equal. unfold u32 at 1.
  replace (_unix t + (2 ^ 32 - 86400)) with (_unix t - 86400 + 1 * 2 ^ 32) by lia.
  rewrite Z.mod_add by (change (2 ^ 32) with 4294967296; lia).
  apply Z.mod_small. change (2 ^ 32) with 4294967296 in *. lia.
Qed.

Lemma add_days_plus_one t :
  _unix t + 86400 < 2 ^ 32 ->
  _add_days t 1 = _from_unix (_unix t + 86400).
Proof.
  intro H. unfold _add_days.
  pose proof (u32_range
    (days_from_civil (dt_year t + WATCH_RTC_REFERENCE_YEAR) (dt_month t) (dt_day t)
       * 86400 + dt_hour t * 3600 + dt_minute t * 60 + dt_second t - 0)) as Hr.
  change (u32 _) with (_unix t) in Hr.
  change (u32 (if 1 >=? 0 then 1 else - 1)) with 1.
  change (u32 (u32 (86400 * 1) * 1)) with 86400.
  f_equal. apply u32_small. lia.
Qed.

(** The day after a valid day that is not the last one the RTC holds. *)
Lemma unix_add_days_plus_one t :
  valid_date_time t = true ->
  _unix t + 86400 < end_day * 86400 ->
  valid_date_time (_add_days t 1) = true /\
  _unix (_add_days t 1) = _unix t + 86400.
Proof.
  intros Hv Hlast. destruct (unix_valid t Hv) as [_ Hr].
  rewrite add_days_plus_one
    by (unfold end_day in Hlast; change (2 ^ 32) with 4294967296; lia).
  apply unix_from_unix. unfold first_day, end_day in *. lia.
Qed.

Lemma unix_add_days_minus_one t :
  valid_date_time t = true ->
  first_day * 86400 <= _unix t - 86400 ->
  valid_date_time (_add_days t (-1)) = true /\
  _unix (_add_days t (-1)) = _unix t - 86400.
Proof.
  intros Hv Hfirst. destruct (unix_valid t Hv) as [_ Hr].
  rewrite add_days_minus_one by (unfold first_day in Hfirst; lia).
  apply unix_from_unix. unfold first_day, end_day in *. lia.
Qed.

(** C10, as the code has it.  For every date and time [t] the RTC holds,
    the Unix time of [t] is at least one day past the epoch, and
    [_add_days t (-1)] and [_add_days t 1] are the conversions of the
    instants 86400 seconds before and after [t]: the offset
    [86400u * 1 * (uint32_t)(-1)] is 2^32 - 86400, and adding it modulo
    2^32 is an exact subtraction.  When the RTC also holds the day before
    (the day after), the result is a date and time the RTC holds and its
    Unix time is that of [t] less (plus) 86400 seconds. *)
Theorem add_days_is_exact (t : watch_date_time_t) :
  valid_date_time t = true ->
  86400 <= _unix t /\
  u32 (u32 (86400 * u32 1) * u32 (-1)) = 2 ^ 32 - 86400 /\
  u32 (_unix t + (2 ^ 32 - 86400)) = _unix t - 86400 /\
  u32 (_unix t + 86400) = _unix t + 86400 /\
  _add_days t (-1) = _from_unix (_unix t - 86400) /\
  _add_days t 1 = _from_unix (_unix t + 86400) /\
  (first_day * 86400 <= _unix t - 86400 ->
   valid_date_time (_add_days t (-1)) = true /\
   _unix (_add_days t (-1)) = _unix t - 86400) /\
  (_unix t + 86400 < end_day * 86400 ->
   valid_date_time (_add_days t 1) = true /\
   _unix (_add_days t 1) = _unix t + 86400).
Proof.
  intro Hv. destruct (unix_valid t Hv) as [_ Hr].
  unfold first_day, end_day in Hr.
  split; [lia|]. split; [reflexivity|].
  split.
  { unfold u32.
    replace (_unix t + (2 ^ 32 - 86400)) with (_unix t - 86400 + 1 * 2 ^ 32)
      by lia.
    rewrite Z.mod_add by (change (2 ^ 32) with 4294967296; lia).
    apply Z.mod_small. change (2 ^ 32) with 4294967296. lia. }
  split; [apply u32_small; change (2 ^ 32) with 4294967296; lia|].
  split; [apply add_days_minus_one; lia|].
  split; [apply add_days_plus_one; change (2 ^ 32) with 4294967296; lia|].
  split; intro H.
  - apply unix_add_days_minus_one; assumption.
  - apply unix_add_days_plus_one; assumption.
Qed.

Lemma add_days_is_exact_witness :
  let t := mk_date_time 4 3 1 0 0 0 in
  valid_date_time t = true /\
  _add_days t (-1) = mk_date_time 4 2 29 0 0 0 /\
  _add_days t 1 = mk_date_time 4 3 2 0 0 0 /\
  _unix (_add_days t (-1)) = _unix t - 86400 /\
  _unix (_add_days t 1) = _unix t + 86400.
Proof.
  cbv zeta. split; [reflexivity|].
  split; [vm_compute; reflexivity|]. split; [vm_compute; reflexivity|].
  destruct (add_days_is_exact (mk_date_time 4 3 1 0 0 0) eq_refl)
    as (_ & _ & _ & _ & _ & _ & Hm & Hp).
  split.
  - apply Hm. apply Z.leb_le. vm_compute. reflexivity.
  - apply Hp. apply Z.ltb_lt. vm_compute. reflexivity.
Defined.

(** C10 as stated fails at the ends of the RTC range: midnight of
    2083-12-31 is a date and time the RTC holds, more than a day past the
    epoch, and the instant 86400 seconds later is below 2^32, but
    [_add_days] returns the all-zero register and not that instant; one
    day before midnight of 2020-01-01 it returns the all-zero register too,
    which is no date. *)
Lemma add_days_leaves_the_rtc_range :
  let last := mk_date_time 63 12 31 0 0 0 in
  let first := mk_date_time 0 1 1 0 0 0 in
  valid_date_time last = true /\ 86400 <= _unix last /\
  _unix last + 86400 < 2 ^ 32 /\
  _add_days last 1 = mk_date_time 0 0 0 0 0 0 /\
  _unix (_add_days last 1) <> _unix last + 86400 /\
  valid_date_time first = true /\ 86400 <= _unix first /\
  _add_days first (-1) = mk_date_time 0 0 0 0 0 0 /\
  valid_date_time (_add_days first (-1)) = false.
Proof.
  cbv zeta.
  assert (L : _unix (_add_days (mk_date_time 63 12 31 0 0 0) 1) = 1577750400)
    by (vm_compute; reflexivity).
  assert (UL : _unix (mk_date_time 63 12 31 0 0 0) = 3597436800)
    by (vm_compute; reflexivity).
  assert (UF : _unix (mk_date_time 0 1 1 0 0 0) = 1577836800)
    by (vm_compute; reflexivity).
  rewrite L, UL, UF. change (2 ^ 32) with 4294967296.
  split; [reflexivity|]. split; [lia|]. split; [lia|].
  split; [vm_compute; reflexivity|]. split; [lia|].
  split; [reflexivity|]. split; [lia|].
  split; vm_compute; reflexivity.
Qed.

(** ** Ruler resolver *)

Lemma ruler_of_day_index_range base : 0 <= ruler_of_day_index base <= 6.
Proof.
  unfold ruler_of_day_index.
  assert (H : forall k, 0 <= nth k week_days_to_chaldean_order 0 <= 6).
  { intro k. do 7 (destruct k as [|k]; [simpl; lia|]). destruct k; simpl; lia. }
  specialize (H (Z.to_nat (day_of_week base))).
  unfold u8. rewrite Z.mod_small; [lia | change (2 ^ 8) with 256; lia].
Qed.

Lemma ruler_index_mod base off :
  0 <= off -> ruler_index base off = (ruler_of_day_index base + off) mod 7.
Proof.
  intro H. pose proof (ruler_of_day_index_range base).
  unfold ruler_index. apply cmod_nonneg; lia.
Qed.

Lemma planet_at_injective i j :
  0 <= i < 7 -> 0 <= j < 7 -> planet_at i = planet_at j -> i = j.
Proof.
  intros Hi Hj.
  assert (Ci : i = 0 \/ i = 1 \/ i = 2 \/ i = 3 \/ i = 4 \/ i = 5 \/ i = 6) by lia.
  assert (Cj : j = 0 \/ j = 1 \/ j = 2 \/ j = 3 \/ j = 4 \/ j = 5 \/ j = 6) by lia.
  destruct Ci as [->|[->|[->|[->|[->|[->| ->]]]]]];
  destruct Cj as [->|[->|[->|[->|[->|[->| ->]]]]]];
  intro H; try reflexivity; discriminate H.
Qed.

Lemma ruler_is_planet_at base off :
  0 <= off ->
  planetary_ruler_from_base_and_time base off
  = planet_at (ruler_of_day_index base + off).
Proof.
  intro H. unfold planetary_ruler_from_base_and_time, planet_at.
  now rewrite ruler_index_mod.
Qed.

(** C7.  The anchor day 2024-01-01 is a Monday, its Chaldean position is
    that of the Moon, and chaldean offset 0 resolves to the Moon; for every
    base day and every non-negative offset the ruler is the planet at
    position (chaldean position + offset) mod 7 of the cycle Saturn,
    Jupiter, Mars, Sun, Venus, Mercury, Moon. *)
Theorem ruler_of_2024_01_01_and_formula :
  let monday := mk_date_time 4 1 1 0 0 0 in
  day_of_week monday = 1 /\
  nth (Z.to_nat (ruler_of_day_index monday)) planet_names no_planet = Moon /\
  planetary_ruler_from_base_and_time monday 0 = Moon /\
  planet_names = [Saturn; Jupiter; Mars; Sun; Venus; Mercury; Moon] /\
  forall base chaldean_offset, 0 <= chaldean_offset ->
    planetary_ruler_from_base_and_time base chaldean_offset
    = nth (Z.to_nat ((ruler_of_day_index base + chaldean_offset) mod 7))
          planet_names no_planet.
Proof.
  cbv zeta. repeat split; try reflexivity.
  intros base off H. apply (ruler_is_planet_at base off H).
Qed.

Lemma ruler_of_2024_01_01_and_formula_witness :
  0 <= 13 /\
  planetary_ruler_from_base_and_time (mk_date_time 4 1 1 0 0 0) 13
  = nth (Z.to_nat ((ruler_of_day_index (mk_date_time 4 1 1 0 0 0) + 13) mod 7))
        planet_names no_planet.
Proof.
  split; [lia|]. apply ruler_of_2024_01_01_and_formula. lia.
Defined.

(** *** The weekday advances by one from a day to the next *)

Lemma all_dow_steps_checked :
  forall_from (Z.to_nat (end_day - 1 - first_day)) first_day dow_step_check
  = true.
Proof. vm_compute. reflexivity. Qed.

Lemma day_of_week_midnight t : day_of_week (_midnight_of t) = day_of_week t.
Proof. reflexivity. Qed.

Lemma midnight_of_valid t n tod :
  valid_date_time t = true ->
  _unix t = n * 86400 + tod -> first_day <= n < end_day -> 0 <= tod < 86400 ->
  _midnight_of t = _from_unix (n * 86400).
Proof.
  intros Hv Hu Hn Htod.
  rewrite <- (midnight_of_from_unix n tod Hn Htod), <- Hu.
  now rewrite (from_unix_unix t Hv).
Qed.

Lemma unix_day_decomposition t :
  valid_date_time t = true ->
  _unix t + 86400 < end_day * 86400 ->
  exists n tod, _unix t = n * 86400 + tod /\ first_day <= n < end_day - 1 /\ 0 <= tod < 86400.
Proof.
  intros Hv Hlast.
  destruct (unix_valid t Hv) as [Hu Hr].
  destruct (valid_date_civil t Hv) as [Hn _]. cbv zeta in Hn.
  pose proof (valid_date_time_inv t Hv) as (_ & _ & _ & Hh & Hmi & Hs).
  exists (days_from_civil (dt_year t + WATCH_RTC_REFERENCE_YEAR)
                            (dt_month t) (dt_day t)).
  exists (dt_hour t * 3600 + dt_minute t * 60 + dt_second t).
  split; [lia|]. unfold first_day, end_day in *. lia.
Qed.

Lemma dow_step_holds n : first_day <= n < end_day - 1 -> dow_step_check n = true.
Proof.
  intro H.
  apply (forall_from_spec (Z.to_nat (end_day - 1 - first_day)) first_day
                dow_step_check all_dow_steps_checked n).
  rewrite Z2Nat.id; unfold first_day, end_day in *; lia.
Qed.

Lemma day_of_week_next t :
  valid_date_time t = true ->
  _unix t + 86400 < end_day * 86400 ->
  0 <= day_of_week t < 7 /\
  day_of_week (_add_days t 1) = (day_of_week t + 1) mod 7.
Proof.
  intros Hv Hlast.
  destruct (unix_day_decomposition t Hv Hlast) as (n & tod & Hu & Hn & Htod).
  destruct (unix_add_days_plus_one t Hv Hlast) as [Hv1 Hu1].
  pose proof (dow_step_holds n Hn) as Hc.
  unfold dow_step_check in Hc. cbv zeta in Hc. rewrite !andb_true_iff in Hc.
  destruct Hc as [[H0 H7] Hstep].
  apply Z.leb_le in H0. apply Z.ltb_lt in H7. apply Z.eqb_eq in Hstep.
  assert (E1 : _midnight_of t = _from_unix (n * 86400))
    by (apply (midnight_of_valid t n tod); auto; lia).
  assert (E2 : _midnight_of (_add_days t 1) = _from_unix ((n + 1) * 86400))
    by (apply (midnight_of_valid _ (n + 1) tod); auto; lia).
  assert (D1 : day_of_week t = day_of_week (_from_unix (n * 86400)))
    by (rewrite <- E1; symmetry; apply day_of_week_midnight).
  assert (D2 : day_of_week (_add_days t 1) = day_of_week (_from_unix ((n + 1) * 86400)))
    by (rewrite <- E2; symmetry; apply day_of_week_midnight).
  rewrite D2, D1. split; [lia | exact Hstep].
Qed.

Lemma chaldean_table_step w :
  0 <= w < 7 ->
  nth (Z.to_nat ((w + 1) mod 7)) week_days_to_chaldean_order 0
  = (nth (Z.to_nat w) week_days_to_chaldean_order 0 + 3) mod 7.
Proof.
  intro H.
  assert (C : w = 0 \/ w = 1 \/ w = 2 \/ w = 3 \/ w = 4 \/ w = 5 \/ w = 6) by lia.
  destruct C as [->|[->|[->|[->|[->|[->| ->]]]]]]; reflexivity.
Qed.

Lemma chaldean_table_range k :
  0 <= nth k week_days_to_chaldean_order 0 <= 6.
Proof.
  do 7 (destruct k as [|k]; [simpl; lia|]). destruct k; simpl; lia.
Qed.

Lemma ruler_of_day_index_eq t :
  ruler_of_day_index t
  = nth (Z.to_nat (day_of_week t)) week_days_to_chaldean_order 0.
Proof.
  unfold ruler_of_day_index, u8.
  pose proof (chaldean_table_range (Z.to_nat (day_of_week t))).
  apply Z.mod_small. change (2 ^ 8) with 256. lia.
Qed.

Lemma ruler_of_day_index_next t :
  valid_date_time t = true ->
  _unix t + 86400 < end_day * 86400 ->
  ruler_of_day_index (_add_days t 1) = (ruler_of_day_index t + 3) mod 7.
Proof.
  intros Hv Hlast. destruct (day_of_week_next t Hv Hlast) as [Hr Hn].
  rewrite !ruler_of_day_index_eq, Hn.
  apply chaldean_table_step. exact Hr.
Qed.

Lemma ruler_index_next t off :
  valid_date_time t = true ->
  _unix t + 86400 < end_day * 86400 ->
  0 <= off ->
  ruler_index (_add_days t 1) off = (ruler_index t off + 3) mod 7.
Proof.
  intros Hv Hlast Hoff.
  rewrite !ruler_index_mod by exact Hoff.
  rewrite (ruler_of_day_index_next t Hv Hlast).
  rewrite Zplus_mod_idemp_l, Zplus_mod_idemp_l. f_equal. lia.
Qed.

Lemma planet_at_mod i : planet_at (i mod 7) = planet_at i.
Proof. unfold planet_at. now rewrite Z.mod_mod by lia. Qed.

(** C2, as the code has it.  For every base day and every non-negative
    chaldean offset the ruler has period exactly 7 in the offset and the
    seven rulers from any offset on are the seven planets; from a day the
    RTC holds to the next, at the same offset, the ruler moves three steps
    forward in the cycle Saturn, Jupiter, Mars, Sun, Venus, Mercury, Moon
    (not five). *)
Theorem ruler_period_and_day_shift :
  (forall base off, 0 <= off ->
     planetary_ruler_from_base_and_time base (off + 7)
     = planetary_ruler_from_base_and_time base off /\
     (forall k, 0 < k < 7 ->
        planetary_ruler_from_base_and_time base (off + k)
        <> planetary_ruler_from_base_and_time base off) /\
     (forall p, In p planet_names ->
        exists k, 0 <= k < 7 /\
                  planetary_ruler_from_base_and_time base (off + k) = p)) /\
  (forall day off,
     valid_date_time day = true ->
     _unix day + 86400 < end_day * 86400 ->
     0 <= off ->
     ruler_index (_add_days day 1) off = (ruler_index day off + 3) mod 7 /\
     planetary_ruler_from_base_and_time (_add_days day 1) off
     = planet_at (ruler_index day off + 3)).
Proof.
  split.
  - intros base off Hoff. pose proof (ruler_of_day_index_range base) as Hr.
    set (c := ruler_of_day_index base) in *.
    split; [|split].
    + rewrite !ruler_is_planet_at by lia. fold c.
      unfold planet_at. f_equal. f_equal.
      replace (c + (off + 7)) with (c + off + 1 * 7) by lia.
      apply Z.mod_add. lia.
    + intros k Hk. rewrite !ruler_is_planet_at by lia. fold c.
      rewrite <- (planet_at_mod (c + (off + k))), <- (planet_at_mod (c + off)).
      intro H. apply planet_at_injective in H;
        try (apply Z.mod_pos_bound; lia).
      pose proof (Z.div_mod (c + (off + k)) 7 ltac:(lia)).
      pose proof (Z.div_mod (c + off) 7 ltac:(lia)). lia.
    + intros p Hp.
      assert (Hj : exists j, 0 <= j < 7 /\ p = planet_at j).
      { simpl in Hp.
        destruct Hp as [<-|[<-|[<-|[<-|[<-|[<-|[<-|[]]]]]]]];
          [exists 0|exists 1|exists 2|exists 3|exists 4|exists 5|exists 6];
          (split; [lia | reflexivity]). }
      destruct Hj as (j & Hj & ->).
      exists ((j - (c + off)) mod 7). split.
      * apply Z.mod_pos_bound. lia.
      * rewrite ruler_is_planet_at
          by (pose proof (Z.mod_pos_bound (j - (c + off)) 7 ltac:(lia)); lia).
        fold c. rewrite <- planet_at_mod. rewrite <- (planet_at_mod j). f_equal.
        rewrite Z.add_assoc, Zplus_mod_idemp_r. f_equal. lia.
  - intros day off Hv Hlast Hoff.
    pose proof (ruler_index_next day off Hv Hlast Hoff) as H. split; [exact H|].
    unfold planetary_ruler_from_base_and_time. rewrite H. reflexivity.
Qed.

Lemma ruler_period_and_day_shift_witness :
  let day := mk_date_time 4 1 1 0 0 0 in
  valid_date_time day = true /\ _unix day + 86400 < end_day * 86400 /\ 0 <= 13 /\
  ruler_index (_add_days day 1) 13 = (ruler_index day 13 + 3) mod 7.
Proof.
  cbv zeta. split; [reflexivity|]. split; [vm_compute; reflexivity|].
  split; [lia|].
  apply (proj2 ruler_period_and_day_shift (mk_date_time 4 1 1 0 0 0) 13).
  - reflexivity.
  - vm_compute; reflexivity.
  - lia.
Defined.

(** C2 as stated fails: from Monday 2024-01-01 to Tuesday 2024-01-02, at
    offset 0, the ruler goes from the Moon to Mars, three steps forward;
    five steps forward from the Moon is Venus. *)
Lemma five_step_shift_fails :
  let day := mk_date_time 4 1 1 0 0 0 in
  valid_date_time day = true /\
  _add_days day 1 = mk_date_time 4 1 2 0 0 0 /\
  planetary_ruler_from_base_and_time day 0 = Moon /\
  planetary_ruler_from_base_and_time (_add_days day 1) 0 = Mars /\
  planet_at (ruler_index day 0 + 5) = Venus /\
  ruler_index (_add_days day 1) 0 <> (ruler_index day 0 + 5) mod 7.
Proof.
  cbv zeta. repeat split; try (vm_compute; reflexivity).
  vm_compute. discriminate.
Qed.

(** ** Location editor *)

Lemma abs_latlon v :
  settings_wf v ->
  Z.abs (_latlon_from_struct v)
  = hundreds v * 10000 + tens v * 1000 + ones v * 100 + tenths v * 10
    + hundredths v.
Proof.
  unfold settings_wf, _latlon_from_struct.
  intros (Hs & Hh & Ht & Ho & Hte & Hhu).
  destruct (sign v =? 0); lia.
Qed.

Lemma digit_step x :
  0 <= x < 2 ^ DIGIT_BITS ->
  bitfield DIGIT_BITS (cmod (x + 1) 10) = (x + 1) mod 10 /\
  0 <= (x + 1) mod 10 <= 9.
Proof.
  intro H. change (2 ^ DIGIT_BITS) with 16 in H.
  pose proof (Z.mod_pos_bound (x + 1) 10 ltac:(lia)).
  rewrite cmod_nonneg by lia. split; [|lia].
  apply bitfield_small. change (2 ^ DIGIT_BITS) with 16. lia.
Qed.

Lemma bit_step w x : 0 <= bitfield 1 x < 2 /\ (w = 1 -> 0 <= bitfield w x < 2 ^ w).
Proof.
  unfold bitfield. split.
  - apply (Z.mod_pos_bound x (2 ^ 1)). reflexivity.
  - intros ->. apply Z.mod_pos_bound. reflexivity.
Qed.

Ltac editor_unfold :=
  unfold lat_in_range, lon_in_range, lat_over, lon_over in *;
  repeat match goal with
  | H : settings_wf _ |- _ =>
      let H' := fresh in
      pose proof (abs_latlon _ H) as H'; rewrite H' in *; clear H';
      destruct H as (? & ? & ? & ? & ? & ?)
  end.

Ltac bits :=
  change (2 ^ SIGN_BITS) with 2 in *; change (2 ^ HUNDREDS_BITS) with 2 in *;
  change (2 ^ DIGIT_BITS) with 16 in *.

Lemma with_tens_wf v x :
  settings_wf v -> 0 <= x < 16 -> settings_wf (with_tens v x) /\ tens (with_tens v x) = x.
Proof.
  intros (? & ? & ? & ? & ? & ?) Hx. unfold with_tens, settings_wf; cbn.
  rewrite bitfield_small by (bits; lia). bits. lia.
Qed.

Ltac zlia := Z.quot_rem_to_equations; Z.div_mod_to_equations; lia.

Ltac field_solve :=
  intros [s h t o te hu];
  unfold advance_latitude_tens, advance_latitude_ones, advance_latitude_tenths,
    advance_latitude_hundredths, advance_sign, advance_longitude_tens_carry,
    advance_longitude_hundreds, advance_longitude_tens, advance_longitude_ones,
    advance_longitude_tenths, advance_longitude_hundredths;
  unfold settings_wf, lat_in_range, lon_in_range, lat_over, lon_over;
  unfold with_sign, with_hundreds, with_tens, with_ones, with_tenths,
    with_hundredths; cbn [sign hundreds tens ones tenths hundredths];
  unfold _latlon_from_struct, bitfield, cmod;
  cbn [sign hundreds tens ones tenths hundredths];
  change (2 ^ SIGN_BITS) with 2; change (2 ^ HUNDREDS_BITS) with 2;
  change (2 ^ DIGIT_BITS) with 16;
  intros (Hs & Hh & Ht & Ho & Hte & Hhu) Hr;
  repeat match goal with
  | |- context [if ?a >? ?b then _ else _] =>
      destruct (Z.gtb_spec a b);
      cbn [sign hundreds tens ones tenths hundredths] in *
  | |- context [if ?a >=? ?b then _ else _] =>
      destruct (Z.geb_spec a b);
      cbn [sign hundreds tens ones tenths hundredths] in *
  end;
  repeat match goal with
  | H : context [if ?a =? 0 then _ else _] |- _ => destruct (Z.eqb_spec a 0)
  | |- context [if ?a =? 0 then _ else _] => destruct (Z.eqb_spec a 0)
  end;
  zlia.

Lemma advance_latitude_tens_ok : forall v,
  settings_wf v -> lat_in_range v ->
  settings_wf (advance_latitude_tens v) /\ lat_in_range (advance_latitude_tens v).
Proof. field_solve. Qed.

Lemma advance_latitude_ones_ok : forall v,
  settings_wf v -> lat_in_range v ->
  settings_wf (advance_latitude_ones v) /\ lat_in_range (advance_latitude_ones v).
Proof. field_solve. Qed.

Lemma advance_latitude_tenths_ok : forall v,
  settings_wf v -> lat_in_range v ->
  settings_wf (advance_latitude_tenths v) /\
  lat_in_range (advance_latitude_tenths v).
Proof. field_solve. Qed.

Lemma advance_latitude_hundredths_ok : forall v,
  settings_wf v -> lat_in_range v ->
  settings_wf (advance_latitude_hundredths v) /\
  lat_in_range (advance_latitude_hundredths v).
Proof. field_solve. Qed.

Lemma advance_sign_lat_ok : forall v,
  settings_wf v -> lat_in_range v ->
  settings_wf (advance_sign v) /\ lat_in_range (advance_sign v).
Proof. field_solve. Qed.

Lemma advance_sign_lon_ok : forall v,
  settings_wf v -> lon_in_range v ->
  settings_wf (advance_sign v) /\ lon_in_range (advance_sign v).
Proof. field_solve. Qed.

Lemma advance_longitude_tens_carry_ok : forall v,
  settings_wf v -> lon_in_range v ->
  settings_wf (advance_longitude_tens_carry v) /\
  lon_in_range (advance_longitude_tens_carry v).
Proof. field_solve. Qed.

Lemma advance_longitude_hundreds_ok : forall v,
  settings_wf v -> lon_in_range v ->
  settings_wf (advance_longitude_hundreds v) /\
  lon_in_range (advance_longitude_hundreds v).
Proof. field_solve. Qed.

Lemma advance_longitude_tens_ok : forall v,
  settings_wf v -> lon_in_range v ->
  settings_wf (advance_longitude_tens v) /\
  lon_in_range (advance_longitude_tens v).
Proof. field_solve. Qed.

Lemma advance_longitude_ones_ok : forall v,
  settings_wf v -> lon_in_range v ->
  settings_wf (advance_longitude_ones v) /\
  lon_in_range (advance_longitude_ones v).
Proof. field_solve. Qed.

Lemma advance_longitude_tenths_ok : forall v,
  settings_wf v -> lon_in_range v ->
  settings_wf (advance_longitude_tenths v) /\
  lon_in_range (advance_longitude_tenths v).
Proof. field_solve. Qed.

Lemma advance_longitude_hundredths_ok : forall v,
  settings_wf v -> lon_in_range v ->
  settings_wf (advance_longitude_hundredths v) /\
  lon_in_range (advance_longitude_hundredths v).
Proof. field_solve. Qed.

Ltac split_cursor p d :=
  destruct p as [|[[?|?|]|[?|?|]|]|?];
  try (destruct d as [|[[[?|?|]|[?|?|]|]|[[?|?|]|[?|?|]|]|]|?]).

Lemma advance_digit_ok lcd s :
  editor_ok s -> editor_ok (_planetary_hour_face_advance_digit lcd s).
Proof.
  destruct s as [p d ch lat lon].
  unfold editor_ok, _planetary_hour_face_advance_digit.
  cbn [with_latitude with_longitude with_changed
       working_latitude working_longitude page active_digit location_changed].
  intros (Hlat & Hlatr & Hlon & Hlonr).
  destruct lcd; split_cursor p d;
    cbn [with_latitude with_longitude with_changed
      working_latitude working_longitude page active_digit location_changed];
    refine (conj _ (conj _ (conj _ _))); try assumption;
    first
      [ solve [apply advance_latitude_tens_ok; assumption]
      | solve [apply advance_latitude_ones_ok; assumption]
      | solve [apply advance_latitude_tenths_ok; assumption]
      | solve [apply advance_latitude_hundredths_ok; assumption]
      | solve [apply advance_sign_lat_ok; assumption]
      | solve [apply advance_sign_lon_ok; assumption]
      | solve [apply advance_longitude_tens_carry_ok; assumption]
      | solve [apply advance_longitude_hundreds_ok; assumption]
      | solve [apply advance_longitude_tens_ok; assumption]
      | solve [apply advance_longitude_ones_ok; assumption]
      | solve [apply advance_longitude_tenths_ok; assumption]
      | solve [apply advance_longitude_hundredths_ok; assumption] ].
Qed.

(** *** What the clamp does when the incremented value is over the bound *)

Ltac clamp_solve :=
  intros [s h t o te hu];
  unfold advance_latitude_tens, advance_latitude_ones, advance_latitude_tenths,
    advance_latitude_hundredths, advance_longitude_tens_carry,
    advance_longitude_hundreds, advance_longitude_tens, advance_longitude_ones,
    advance_longitude_tenths, advance_longitude_hundredths;
  intros (Hs & Hh & Ht & Ho & Hte & Hhu) Hover; try rewrite Hover;
  revert Hs Hh Ht Ho Hte Hhu;
  unfold with_sign, with_hundreds, with_tens, with_ones, with_tenths,
    with_hundredths; cbn [sign hundreds tens ones tenths hundredths];
  unfold bitfield, cmod;
  change (2 ^ SIGN_BITS) with 2; change (2 ^ HUNDREDS_BITS) with 2;
  change (2 ^ DIGIT_BITS) with 16; intros;
  f_equal; zlia.

Lemma clamp_latitude_tens : forall v,
  settings_wf v ->
  lat_over (with_tens v (cmod (tens v + 1) 10)) = true ->
  advance_latitude_tens v
  = mk_latlon (sign v) (hundreds v) ((tens v + 1) mod 10) 0 0 0.
Proof. clamp_solve. Qed.

Lemma clamp_latitude_ones : forall v,
  settings_wf v ->
  lat_over (with_ones v (cmod (ones v + 1) 10)) = true ->
  advance_latitude_ones v
  = mk_latlon (sign v) (hundreds v) (tens v) 0 (tenths v) (hundredths v).
Proof. clamp_solve. Qed.

Lemma clamp_latitude_tenths : forall v,
  settings_wf v ->
  lat_over (with_tenths v (cmod (tenths v + 1) 10)) = true ->
  advance_latitude_tenths v
  = mk_latlon (sign v) (hundreds v) (tens v) (ones v) 0 (hundredths v).
Proof. clamp_solve. Qed.

Lemma clamp_latitude_hundredths : forall v,
  settings_wf v ->
  lat_over (with_hundredths v (cmod (hundredths v + 1) 10)) = true ->
  advance_latitude_hundredths v
  = mk_latlon (sign v) (hundreds v) (tens v) (ones v) (tenths v) 0.
Proof. clamp_solve. Qed.

Lemma clamp_longitude_hundreds : forall v,
  settings_wf v ->
  lon_over (with_hundreds v (cmod (hundreds v + 1) 10)) = true ->
  advance_longitude_hundreds v
  = mk_latlon (sign v) ((hundreds v + 1) mod 2) 8 0 0 0.
Proof. clamp_solve. Qed.

Lemma clamp_longitude_tens : forall v,
  settings_wf v ->
  lon_over (with_tens v (cmod (tens v + 1) 10)) = true ->
  advance_longitude_tens v
  = mk_latlon (sign v) (hundreds v) 0 (ones v) (tenths v) (hundredths v).
Proof. clamp_solve. Qed.

Lemma clamp_longitude_ones : forall v,
  settings_wf v ->
  lon_over (with_ones v (cmod (ones v + 1) 10)) = true ->
  advance_longitude_ones v
  = mk_latlon (sign v) (hundreds v) (tens v) 0 (tenths v) (hundredths v).
Proof. clamp_solve. Qed.

Lemma clamp_longitude_tenths : forall v,
  settings_wf v ->
  lon_over (with_tenths v (cmod (tenths v + 1) 10)) = true ->
  advance_longitude_tenths v
  = mk_latlon (sign v) (hundreds v) (tens v) (ones v) 0 (hundredths v).
Proof. clamp_solve. Qed.

Lemma clamp_longitude_hundredths : forall v,
  settings_wf v ->
  lon_over (with_hundredths v (cmod (hundredths v + 1) 10)) = true ->
  advance_longitude_hundredths v
  = mk_latlon (sign v) (hundreds v) (tens v) (ones v) (tenths v) 0.
Proof. clamp_solve. Qed.

(** In the five-digit layout the tens digit of the longitude carries into
    the hundreds digit; over the bound, all five digits are zeroed. *)
Lemma clamp_longitude_tens_carry : forall v,
  settings_wf v ->
  lon_over (let v1 := with_tens v (tens v + 1) in
            if tens v1 >=? 10
            then with_hundreds (with_tens v1 0) (hundreds v1 + 1)
            else v1) = true ->
  advance_longitude_tens_carry v = mk_latlon (sign v) 0 0 0 0 0.
Proof.
  intros v Hwf Hover. unfold advance_longitude_tens_carry.
  cbv zeta in Hover. rewrite Hover.
  destruct (tens (with_tens v (tens v + 1)) >=? 10); reflexivity.
Qed.

Lemma advance_digit_dispatch lcd s :
  let s' := _planetary_hour_face_advance_digit lcd s in
  let lat := working_latitude s in
  let lon := working_longitude s in
  (cursor_at lcd s WATCH_LCD_TYPE_CUSTOM 1 0 \/
   cursor_at lcd s WATCH_LCD_TYPE_CLASSIC 1 2 ->
   working_latitude s' = advance_latitude_tens lat) /\
  (cursor_at lcd s WATCH_LCD_TYPE_CUSTOM 1 1 \/
   cursor_at lcd s WATCH_LCD_TYPE_CLASSIC 1 3 ->
   working_latitude s' = advance_latitude_ones lat) /\
  (cursor_at lcd s WATCH_LCD_TYPE_CUSTOM 1 2 \/
   cursor_at lcd s WATCH_LCD_TYPE_CLASSIC 1 4 ->
   working_latitude s' = advance_latitude_tenths lat) /\
  (cursor_at lcd s WATCH_LCD_TYPE_CUSTOM 1 3 \/
   cursor_at lcd s WATCH_LCD_TYPE_CLASSIC 1 5 ->
   working_latitude s' = advance_latitude_hundredths lat) /\
  (cursor_at lcd s WATCH_LCD_TYPE_CUSTOM 2 0 ->
   working_longitude s' = advance_longitude_tens_carry lon) /\
  (cursor_at lcd s WATCH_LCD_TYPE_CLASSIC 2 1 ->
   working_longitude s' = advance_longitude_hundreds lon) /\
  (cursor_at lcd s WATCH_LCD_TYPE_CLASSIC 2 2 ->
   working_longitude s' = advance_longitude_tens lon) /\
  (cursor_at lcd s WATCH_LCD_TYPE_CUSTOM 2 1 \/
   cursor_at lcd s WATCH_LCD_TYPE_CLASSIC 2 3 ->
   working_longitude s' = advance_longitude_ones lon) /\
  (cursor_at lcd s WATCH_LCD_TYPE_CUSTOM 2 2 \/
   cursor_at lcd s WATCH_LCD_TYPE_CLASSIC 2 4 ->
   working_longitude s' = advance_longitude_tenths lon) /\
  (cursor_at lcd s WATCH_LCD_TYPE_CUSTOM 2 3 \/
   cursor_at lcd s WATCH_LCD_TYPE_CLASSIC 2 5 ->
   working_longitude s' = advance_longitude_hundredths lon).
Proof.
  destruct s as [p d ch lat lon]. unfold cursor_at. cbn.
  repeat split;
    try (intros [(-> & -> & ->)|(-> & -> & ->)]; reflexivity);
    intros (-> & -> & ->); reflexivity.
Qed.

(** C5, as the code has it.  From a state whose digit fields are within
    their widths and whose reconstructed coordinates are in range, a single
    advance of the active digit, on either page, for every cursor position
    and both layouts, leaves the latitude within 90.00 degrees and the
    longitude within 180.00 degrees.  When the incremented value is over
    the bound the value is forced, by a rule that depends on the field:
    the latitude tens digit keeps its new value and ones, tenths and
    hundredths are zeroed; the longitude hundreds digit (six-digit layout)
    keeps its new value, tens is set to 8 and the lower digits are zeroed;
    the longitude tens digit of the five-digit layout zeroes all five
    digits; any other digit is itself reset to 0 and the digits below it
    keep their values. *)
Theorem advance_digit_stays_in_range :
  (forall lcd s,
     editor_ok s -> editor_ok (_planetary_hour_face_advance_digit lcd s)) /\
  (forall lcd s,
     let s' := _planetary_hour_face_advance_digit lcd s in
     let lat := working_latitude s in
     let lon := working_longitude s in
     settings_wf lat -> settings_wf lon ->
     (cursor_at lcd s WATCH_LCD_TYPE_CUSTOM 1 0 \/
      cursor_at lcd s WATCH_LCD_TYPE_CLASSIC 1 2 ->
      lat_over (with_tens lat (cmod (tens lat + 1) 10)) = true ->
      working_latitude s'
      = mk_latlon (sign lat) (hundreds lat) ((tens lat + 1) mod 10) 0 0 0) /\
     (cursor_at lcd s WATCH_LCD_TYPE_CUSTOM 1 1 \/
      cursor_at lcd s WATCH_LCD_TYPE_CLASSIC 1 3 ->
      lat_over (with_ones lat (cmod (ones lat + 1) 10)) = true ->
      working_latitude s'
      = mk_latlon (sign lat) (hundreds lat) (tens lat) 0
                  (tenths lat) (hundredths lat)) /\
     (cursor_at lcd s WATCH_LCD_TYPE_CUSTOM 1 2 \/
      cursor_at lcd s WATCH_LCD_TYPE_CLASSIC 1 4 ->
      lat_over (with_tenths lat (cmod (tenths lat + 1) 10)) = true ->
      working_latitude s'
      = mk_latlon (sign lat) (hundreds lat) (tens lat) (ones lat) 0
                  (hundredths lat)) /\
     (cursor_at lcd s WATCH_LCD_TYPE_CUSTOM 1 3 \/
      cursor_at lcd s WATCH_LCD_TYPE_CLASSIC 1 5 ->
      lat_over (with_hundredths lat (cmod (hundredths lat + 1) 10)) = true ->
      working_latitude s'
      = mk_latlon (sign lat) (hundreds lat) (tens lat) (ones lat)
                  (tenths lat) 0) /\
     (cursor_at lcd s WATCH_LCD_TYPE_CUSTOM 2 0 ->
      lon_over (let v1 := with_tens lon (tens lon + 1) in
                if tens v1 >=? 10
                then with_hundreds (with_tens v1 0) (hundreds v1 + 1)
                else v1) = true ->
      working_longitude s' = mk_latlon (sign lon) 0 0 0 0 0) /\
     (cursor_at lcd s WATCH_LCD_TYPE_CLASSIC 2 1 ->
      lon_over (with_hundreds lon (cmod (hundreds lon + 1) 10)) = true ->
      working_longitude s'
      = mk_latlon (sign lon) ((hundreds lon + 1) mod 2) 8 0 0 0) /\
     (cursor_at lcd s WATCH_LCD_TYPE_CLASSIC 2 2 ->
      lon_over (with_tens lon (cmod (tens lon + 1) 10)) = true ->
      working_longitude s'
      = mk_latlon (sign lon) (hundreds lon) 0 (ones lon)
                  (tenths lon) (hundredths lon)) /\
     (cursor_at lcd s WATCH_LCD_TYPE_CUSTOM 2 1 \/
      cursor_at lcd s WATCH_LCD_TYPE_CLASSIC 2 3 ->
      lon_over (with_ones lon (cmod (ones lon + 1) 10)) = true ->
      working_longitude s'
      = mk_latlon (sign lon) (hundreds lon) (tens lon) 0
                  (tenths lon) (hundredths lon)) /\
     (cursor_at lcd s WATCH_LCD_TYPE_CUSTOM 2 2 \/
      cursor_at lcd s WATCH_LCD_TYPE_CLASSIC 2 4 ->
      lon_over (with_tenths lon (cmod (tenths lon + 1) 10)) = true ->
      working_longitude s'
      = mk_latlon (sign lon) (hundreds lon) (tens lon) (ones lon) 0
                  (hundredths lon)) /\
     (cursor_at lcd s WATCH_LCD_TYPE_CUSTOM 2 3 \/
      cursor_at lcd s WATCH_LCD_TYPE_CLASSIC 2 5 ->
      lon_over (with_hundredths lon (cmod (hundredths lon + 1) 10)) = true ->
      working_longitude s'
      = mk_latlon (sign lon) (hundreds lon) (tens lon) (ones lon)
                  (tenths lon) 0)).
Proof.
  split; [exact advance_digit_ok|].
  intros lcd s s' lat lon Hlat Hlon.
  destruct (advance_digit_dispatch lcd s)
    as (D1 & D2 & D3 & D4 & D5 & D6 & D7 & D8 & D9 & D10).
  fold s' lat lon in D1, D2, D3, D4, D5, D6, D7, D8, D9, D10.
  repeat split; intros Hc Hover.
  - rewrite (D1 Hc). now apply clamp_latitude_tens.
  - rewrite (D2 Hc). now apply clamp_latitude_ones.
  - rewrite (D3 Hc). now apply clamp_latitude_tenths.
  - rewrite (D4 Hc). now apply clamp_latitude_hundredths.
  - rewrite (D5 Hc). now apply clamp_longitude_tens_carry.
  - rewrite (D6 Hc). now apply clamp_longitude_hundreds.
  - rewrite (D7 Hc). now apply clamp_longitude_tens.
  - rewrite (D8 Hc). now apply clamp_longitude_ones.
  - rewrite (D9 Hc). now apply clamp_longitude_tenths.
  - rewrite (D10 Hc). now apply clamp_longitude_hundredths.
Qed.

Lemma editor_ok_intro p d ch lat lon :
  (0 <=? sign lat) && (sign lat <? 2) && (0 <=? hundreds lat)
  && (hundreds lat <? 2) && (0 <=? tens lat) && (tens lat <? 16)
  && (0 <=? ones lat) && (ones lat <? 16) && (0 <=? tenths lat)
  && (tenths lat <? 16) && (0 <=? hundredths lat) && (hundredths lat <? 16)
  && (Z.abs (_latlon_from_struct lat) <=? 9000)
  && (0 <=? sign lon) && (sign lon <? 2) && (0 <=? hundreds lon)
  && (hundreds lon <? 2) && (0 <=? tens lon) && (tens lon <? 16)
  && (0 <=? ones lon) && (ones lon <? 16) && (0 <=? tenths lon)
  && (tenths lon <? 16) && (0 <=? hundredths lon) && (hundredths lon <? 16)
  && (Z.abs (_latlon_from_struct lon) <=? 18000) = true ->
  editor_ok (mk_location_state p d ch lat lon).
Proof.
  rewrite !andb_true_iff, !Z.leb_le, !Z.ltb_lt.
  unfold editor_ok, settings_wf, lat_in_range, lon_in_range. cbn.
  change (2 ^ SIGN_BITS) with 2. change (2 ^ HUNDREDS_BITS) with 2.
  change (2 ^ DIGIT_BITS) with 16. lia.
Qed.

Lemma advance_digit_stays_in_range_witness :
  let s := mk_location_state 2 1 false (mk_latlon 0 0 4 5 1 2)
                             (mk_latlon 1 0 9 3 4 5) in
  editor_ok s /\
  editor_ok (_planetary_hour_face_advance_digit WATCH_LCD_TYPE_CLASSIC s) /\
  working_longitude (_planetary_hour_face_advance_digit WATCH_LCD_TYPE_CLASSIC s)
  = mk_latlon 1 1 8 0 0 0.
Proof.
  cbv zeta.
  assert (Hok : editor_ok (mk_location_state 2 1 false (mk_latlon 0 0 4 5 1 2)
                                             (mk_latlon 1 0 9 3 4 5)))
    by (apply editor_ok_intro; reflexivity).
  split; [exact Hok|]. split.
  - apply (proj1 advance_digit_stays_in_range). exact Hok.
  - destruct Hok as (Hlat & _ & Hlon & _).
    apply (proj2 advance_digit_stays_in_range WATCH_LCD_TYPE_CLASSIC _ Hlat Hlon).
    + repeat split.
    + reflexivity.
Defined.

(** C5 as stated fails in its last clause: in the six-digit layout, with the
    longitude at +175.00, advancing the tens digit gives 185.00, over the
    bound; the result is +105.00: the tens digit itself is reset and the
    ones digit, of lower order, keeps its 5. *)
Lemma clamp_keeps_lower_digits :
  let s := mk_location_state 2 2 false (mk_latlon 0 0 4 5 1 2)
                             (mk_latlon 0 1 7 5 0 0) in
  let s' := _planetary_hour_face_advance_digit WATCH_LCD_TYPE_CLASSIC s in
  editor_ok s /\
  _latlon_from_struct (working_longitude s) = 17500 /\
  _latlon_from_struct (with_tens (working_longitude s) 8) = 18500 /\
  working_longitude s' = mk_latlon 0 1 0 5 0 0 /\
  _latlon_from_struct (working_longitude s') = 10500 /\
  ones (working_longitude s') <> 0.
Proof.
  cbv zeta. split; [apply editor_ok_intro; reflexivity|].
  repeat split; try reflexivity. vm_compute. discriminate.
Qed.

(** C8.  With the cursor on the tens digit of the latitude, in the
    six-digit layout (digit 2) as in the five-digit layout (digit 0),
    advancing from 8 to 9 when ones, tenths and hundredths make the
    magnitude exceed 90.00 degrees forces these three digits to 0: the
    latitude becomes exactly 90.00 degrees, of the same sign. *)
Theorem latitude_tens_from_8_to_9 (lcd : lcd_type) (s : location_state_t) :
  cursor_at lcd s WATCH_LCD_TYPE_CLASSIC 1 2 \/
  cursor_at lcd s WATCH_LCD_TYPE_CUSTOM 1 0 ->
  settings_wf (working_latitude s) ->
  hundreds (working_latitude s) = 0 ->
  tens (working_latitude s) = 8 ->
  Z.abs (_latlon_from_struct (with_tens (working_latitude s) 9)) > 9000 ->
  let lat' :=
    working_latitude (_planetary_hour_face_advance_digit lcd s) in
  lat' = mk_latlon (sign (working_latitude s)) 0 9 0 0 0 /\
  Z.abs (_latlon_from_struct lat') = 9000.
Proof.
  intros Hc Hwf Hh Ht Hover lat'.
  destruct (advance_digit_dispatch lcd s) as (D1 & _).
  assert (E : lat' = advance_latitude_tens (working_latitude s))
    by (apply D1; tauto).
  assert (Hover' : lat_over (with_tens (working_latitude s)
                               (cmod (tens (working_latitude s) + 1) 10)) = true).
  { rewrite Ht. change (cmod (8 + 1) 10) with 9. unfold lat_over.
    apply Z.gtb_lt. lia. }
  rewrite E, (clamp_latitude_tens _ Hwf Hover'), Hh, Ht.
  split; [reflexivity|].
  destruct Hwf as (Hs & _). unfold _latlon_from_struct. cbn.
  destruct (sign (working_latitude s) =? 0); reflexivity.
Qed.

Lemma latitude_tens_from_8_to_9_witness :
  let s := mk_location_state 1 2 false (mk_latlon 1 0 8 9 9 9)
                             (mk_latlon 0 0 0 0 0 0) in
  working_latitude (_planetary_hour_face_advance_digit WATCH_LCD_TYPE_CLASSIC s)
  = mk_latlon 1 0 9 0 0 0.
Proof.
  cbv zeta.
  refine (proj1 (latitude_tens_from_8_to_9 WATCH_LCD_TYPE_CLASSIC
            (mk_location_state 1 2 false (mk_latlon 1 0 8 9 9 9)
                               (mk_latlon 0 0 0 0 0 0)) _ _ _ _ _)).
  - left. repeat split.
  - unfold settings_wf. cbn. change (2 ^ SIGN_BITS) with 2.
    change (2 ^ HUNDREDS_BITS) with 2. change (2 ^ DIGIT_BITS) with 16. lia.
  - reflexivity.
  - reflexivity.
  - vm_compute. reflexivity.
Defined.

(** ** The register orders date-times as the clock does *)

Lemma all_date_key_steps_checked :
  forall_from (Z.to_nat (end_day - 1 - first_day)) first_day
              date_key_step_check = true.
Proof. vm_compute. reflexivity. Qed.

Lemma date_key_step n :
  first_day <= n < end_day - 1 -> date_key_of_day n < date_key_of_day (n + 1).
Proof.
  intro H. apply Z.ltb_lt.
  apply (forall_from_spec (Z.to_nat (end_day - 1 - first_day)) first_day
           date_key_step_check all_date_key_steps_checked n).
  rewrite Z2Nat.id; unfold first_day, end_day in *; lia.
Qed.

Lemma date_key_mono n k :
  0 <= k -> first_day <= n -> n + k < end_day ->
  date_key_of_day n + k <= date_key_of_day (n + k).
Proof.
  intros Hk Hn. revert k Hk.
  apply (natlike_ind (fun k => n + k < end_day ->
                        date_key_of_day n + k <= date_key_of_day (n + k))).
  - intros _. rewrite !Z.add_0_r. lia.
  - intros k Hk IH Hlt.
    replace (n + Z.succ k) with (n + k + 1) by lia.
    pose proof (date_key_step (n + k) ltac:(lia)). lia.
Qed.

Lemma reg_valid t :
  valid_date_time t = true ->
  reg t = dt_second t + 2 ^ 6 * dt_minute t + 2 ^ 12 * dt_hour t
          + 2 ^ 17 * date_key_of_day
              (days_from_civil (dt_year t + WATCH_RTC_REFERENCE_YEAR)
                               (dt_month t) (dt_day t)).
Proof.
  intro Hv. destruct (valid_date_civil t Hv) as [_ Hc]. cbv zeta in Hc.
  unfold date_key_of_day. rewrite Hc. unfold reg.
  change (2 ^ 5) with 32. change (2 ^ 6) with 64. change (2 ^ 9) with 512.
  change (2 ^ 12) with 4096. change (2 ^ 17) with 131072.
  change (2 ^ 22) with 4194304. change (2 ^ 26) with 67108864. lia.
Qed.

(** For two date-times the RTC holds, comparing the registers is
    comparing the instants. *)
Lemma reg_le_iff_unix_le a b :
  valid_date_time a = true -> valid_date_time b = true ->
  (reg a <= reg b <-> _unix a <= _unix b).
Proof.
  intros Ha Hb.
  rewrite (reg_valid a Ha), (reg_valid b Hb).
  destruct (unix_valid a Ha) as [-> _]. destruct (unix_valid b Hb) as [-> _].
  destruct (valid_date_civil a Ha) as [Hna _].
  destruct (valid_date_civil b Hb) as [Hnb _]. cbv zeta in Hna, Hnb.
  pose proof (valid_date_time_inv a Ha) as (_ & _ & _ & Hha & Hma & Hsa).
  pose proof (valid_date_time_inv b Hb) as (_ & _ & _ & Hhb & Hmb & Hsb).
  set (na := days_from_civil _ _ _) in *.
  set (nb := days_from_civil (dt_year b + _) _ _) in *.
  change (2 ^ 6) with 64. change (2 ^ 12) with 4096.
  change (2 ^ 17) with 131072.
  destruct (Z.lt_trichotomy na nb) as [Hlt|[Heq|Hgt]].
  - pose proof (date_key_mono na (nb - na) ltac:(lia) ltac:(lia)
                  ltac:(replace (na + (nb - na)) with nb by lia; lia)) as Hm.
    replace (na + (nb - na)) with nb in Hm by lia. lia.
  - rewrite Heq. lia.
  - pose proof (date_key_mono nb (na - nb) ltac:(lia) ltac:(lia)
                  ltac:(replace (nb + (na - nb)) with na by lia; lia)) as Hm.
    replace (nb + (na - nb)) with na in Hm by lia. lia.
Qed.

(** ** Expiry and the tick *)

Lemma set_expiration_exact state hour_end :
  valid_date_time hour_end = true ->
  _unix hour_end + 60 < end_day * 86400 ->
  valid_date_time
    (hour_offset_expires (_planetary_hour_set_expiration state hour_end)) = true /\
  _unix (hour_offset_expires (_planetary_hour_set_expiration state hour_end))
  = _unix hour_end + 60.
Proof.
  intros Hv Hlast. destruct (unix_valid hour_end Hv) as [_ Hr].
  unfold _planetary_hour_set_expiration, with_expires.
  cbn [hour_offset_expires].
  unfold first_day, end_day in *.
  rewrite u32_small by (change (2 ^ 32) with 4294967296; lia).
  apply unix_from_unix. unfold first_day, end_day. lia.
Qed.

Section Tick.

Variable sun_rise_set : Z -> Z -> Z -> double -> double -> Z * double * double.
Variable longLatPresets : list (Z * Z).
Variable indeterminate : watch_date_time_t.

Local Abbreviation loop :=
  (planetary_hour_face_loop sun_rise_set longLatPresets indeterminate).
Local Abbreviation update := (call_update sun_rise_set longLatPresets indeterminate).

Lemma tick_on_page_0 host state :
  page (location_state state) = 0 ->
  valid_date_time (movement_get_local_date_time host) = true ->
  valid_date_time (hour_offset_expires state) = true ->
  (_unix (hour_offset_expires state) <= _unix (movement_get_local_date_time host) ->
   loop host EVENT_TICK state = update host state []) /\
  (_unix (movement_get_local_date_time host) < _unix (hour_offset_expires state) ->
   loop host EVENT_TICK state = Some (host, state, [])).
Proof.
  intros Hp Hnow Hexp.
  pose proof (reg_le_iff_unix_le _ _ Hexp Hnow) as Hle.
  unfold planetary_hour_face_loop. rewrite Hp. cbn [Z.eqb].
  split; intro H.
  - replace (reg (movement_get_local_date_time host)
             >=? reg (hour_offset_expires state)) with true; [reflexivity|].
    symmetry. apply Z.geb_le. apply Hle. exact H.
  - replace (reg (movement_get_local_date_time host)
             >=? reg (hour_offset_expires state)) with false; [reflexivity|].
    symmetry. rewrite Z.geb_leb. apply Z.leb_gt.
    destruct (Z.le_gt_cases (reg (hour_offset_expires state))
                            (reg (movement_get_local_date_time host))) as [C|C];
      [apply Hle in C; lia | lia].
Qed.

Lemma tick_on_editing_page host state :
  page (location_state state) <> 0 ->
  loop host EVENT_TICK state = Some (host, state, [Location_settings_display]).
Proof.
  intro Hp. unfold planetary_hour_face_loop.
  destruct (Z.eqb_spec (page (location_state state)) 0); [contradiction|].
  reflexivity.
Qed.

Lemma alarm_button_on_page_0 host state :
  page (location_state state) = 0 ->
  loop host EVENT_ALARM_BUTTON_UP state
  = update host (with_hour_offset state (hour_offset state + 1)) [].
Proof.
  intro Hp. unfold planetary_hour_face_loop. rewrite Hp. reflexivity.
Qed.

Lemma light_button_on_page_0 host state :
  page (location_state state) = 0 ->
  loop host EVENT_LIGHT_BUTTON_UP state
  = if _location_count longLatPresets >? 1
    then update host
           (with_preset state
              (cmod (longLatToUse state + 1) (_location_count longLatPresets)))
           []
    else update host (with_hour_offset state (hour_offset state - 1))
                [Request_tick_frequency 1].
Proof.
  intro Hp. unfold planetary_hour_face_loop. rewrite Hp.
  cbn [Z.eqb andb negb].
  destruct (_location_count longLatPresets >? 1); [reflexivity|].
  rewrite Hp. cbn [Z.eqb app]. destruct state; reflexivity.
Qed.

End Tick.

(** C9, as the code has it.  For every sub-hour end the RTC holds together
    with the instant one minute later, the scheduler records exactly that
    instant plus 60 seconds.  On a tick received while no location page is
    open (page 0) the update runs exactly when the local time has reached
    the recorded expiration; while a location page is open a tick only
    refreshes the editor display, whatever the time.  A button that changes
    the hour offset or cycles the preset location on page 0 runs the update
    at once. *)
Theorem expiration_and_recomputation
    (sun_rise_set : Z -> Z -> Z -> double -> double -> Z * double * double)
    (longLatPresets : list (Z * Z)) (indeterminate : watch_date_time_t) :
  let loop := planetary_hour_face_loop sun_rise_set longLatPresets indeterminate in
  let update := call_update sun_rise_set longLatPresets indeterminate in
  (forall state hour_end,
     valid_date_time hour_end = true ->
     _unix hour_end + 60 < end_day * 86400 ->
     valid_date_time
       (hour_offset_expires (_planetary_hour_set_expiration state hour_end)) = true /\
     _unix (hour_offset_expires (_planetary_hour_set_expiration state hour_end))
     = _unix hour_end + 60) /\
  (forall host state,
     page (location_state state) = 0 ->
     valid_date_time (movement_get_local_date_time host) = true ->
     valid_date_time (hour_offset_expires state) = true ->
     (_unix (hour_offset_expires state) <= _unix (movement_get_local_date_time host) ->
      loop host EVENT_TICK state = update host state []) /\
     (_unix (movement_get_local_date_time host) < _unix (hour_offset_expires state) ->
      loop host EVENT_TICK state = Some (host, state, []))) /\
  (forall host state,
     page (location_state state) <> 0 ->
     loop host EVENT_TICK state = Some (host, state, [Location_settings_display])) /\
  (forall host state,
     page (location_state state) = 0 ->
     loop host EVENT_ALARM_BUTTON_UP state
     = update host (with_hour_offset state (hour_offset state + 1)) [] /\
     loop host EVENT_LIGHT_BUTTON_UP state
     = if _location_count longLatPresets >? 1
       then update host
              (with_preset state
                 (cmod (longLatToUse state + 1) (_location_count longLatPresets)))
              []
       else update host (with_hour_offset state (hour_offset state - 1))
                   [Request_tick_frequency 1]).
Proof.
  cbv zeta. split; [|split; [|split]].
  - exact set_expiration_exact.
  - apply tick_on_page_0.
  - apply tick_on_editing_page.
  - intros host state Hp. split.
    + now apply alarm_button_on_page_0.
    + now apply light_button_on_page_0.
Qed.

Lemma expiration_and_recomputation_witness :
  let hour_end := mk_date_time 4 5 17 14 2 30 in
  valid_date_time hour_end = true /\
  _unix hour_end + 60 < end_day * 86400 /\
  _unix (hour_offset_expires
           (_planetary_hour_set_expiration (fresh_state hour_end) hour_end))
  = _unix hour_end + 60.
Proof.
  cbv zeta. split; [reflexivity|]. split; [vm_compute; reflexivity|].
  apply (proj1 (expiration_and_recomputation midnight_sun_onset [] zero_date_time)
           (fresh_state (mk_date_time 4 5 17 14 2 30))
           (mk_date_time 4 5 17 14 2 30)).
  - reflexivity.
  - vm_compute. reflexivity.
Defined.

(** C9 as stated fails on a tick received while a location page is open:
    at 12:00, with an expiration recorded for 11:00 and page 1 open, the
    tick refreshes the editor display and the update does not run. *)
Lemma tick_while_editing_does_not_recompute :
  let now := mk_date_time 4 5 17 12 0 0 in
  let state :=
    mk_state 0 0 (mk_date_time 4 5 17 11 0 0)
             (with_cursor idle_location_state 1 0) in
  let after :=
    planetary_hour_face_loop midnight_sun_onset [] zero_date_time
                             (arctic_host now) EVENT_TICK state in
  _unix (hour_offset_expires state) <= _unix now /\
  reg (hour_offset_expires state) <= reg now /\
  after = Some (arctic_host now, state, [Location_settings_display]) /\
  recomputed after = false.
Proof.
  cbv zeta. repeat split; vm_compute; try reflexivity; discriminate.
Qed.

(** ** Period selection *)

(** C4.  With the sunrise of the target day before its sunset, a target
    instant equal to the sunset falls in the night that follows (from
    today's sunset to tomorrow's sunrise, night, anchored to today); a
    target equal to the sunrise falls in daytime (from sunrise to sunset,
    anchored to today); a target before the sunrise falls in the previous
    night (from yesterday's sunset to today's sunrise, night, anchored to
    yesterday). *)
Theorem period_selection_is_half_open
    (sun_rise_set : Z -> Z -> Z -> double -> double -> Z * double * double)
    (indeterminate target_time target0 sr_target_day ss_target_day
       : watch_date_time_t)
    (lon lat hours_from_utc : double) :
  let select :=
    select_period sun_rise_set indeterminate target_time target0
                  sr_target_day ss_target_day lon lat hours_from_utc in
  let sun_times day :=
    _compute_local_sun_times sun_rise_set day lon lat hours_from_utc
                             indeterminate indeterminate in
  _unix sr_target_day < _unix ss_target_day ->
  (_unix target_time = _unix ss_target_day ->
   forall sr_next_day ss_next_day,
     sun_times (_add_days target0 1) = Some (true, sr_next_day, ss_next_day) ->
     select = Some (mk_period ss_target_day sr_next_day true target0)) /\
  (_unix target_time = _unix sr_target_day ->
   select = Some (mk_period sr_target_day ss_target_day false target0)) /\
  (_unix target_time < _unix sr_target_day ->
   forall sr_prev_day ss_prev_day,
     sun_times (_add_days target0 (-1)) = Some (true, sr_prev_day, ss_prev_day) ->
     select = Some (mk_period ss_prev_day sr_target_day true
                              (_add_days target0 (-1)))).
Proof.
  intros select sun_times Hday. unfold select, sun_times, select_period.
  split; [|split].
  - intros Htt sr_n ss_n Hn.
    destruct (Z.ltb_spec (_unix target_time) (_unix sr_target_day)); [lia|].
    destruct (Z.geb_spec (_unix target_time) (_unix ss_target_day)); [|lia].
    rewrite Hn. reflexivity.
  - intros Htt.
    destruct (Z.ltb_spec (_unix target_time) (_unix sr_target_day)); [lia|].
    destruct (Z.geb_spec (_unix target_time) (_unix ss_target_day)); [lia|].
    reflexivity.
  - intros Htt sr_p ss_p Hp.
    destruct (Z.ltb_spec (_unix target_time) (_unix sr_target_day)); [|lia].
    rewrite Hp. reflexivity.
Qed.

Lemma period_selection_is_half_open_witness :
  let today := mk_date_time 4 5 16 0 0 0 in
  let sunrise := mk_date_time 4 5 16 1 30 0 in
  let sunset := mk_date_time 4 5 16 23 0 0 in
  _unix sunrise < _unix sunset /\
  select_period midnight_sun_onset zero_date_time sunset today sunrise sunset
                (of_Z 19) (of_Z 70) (of_Z 0)
  = Some (mk_period sunset (mk_date_time 4 5 17 1 30 0) true today).
Proof.
  cbv zeta. split; [vm_compute; reflexivity|].
  refine (proj1 (period_selection_is_half_open midnight_sun_onset zero_date_time
                   (mk_date_time 4 5 16 23 0 0) (mk_date_time 4 5 16 0 0 0)
                   (mk_date_time 4 5 16 1 30 0) (mk_date_time 4 5 16 23 0 0)
                   (of_Z 19) (of_Z 70) (of_Z 0) _) _
                (mk_date_time 4 5 17 1 30 0) (mk_date_time 4 5 17 23 0 0) _).
  - vm_compute. reflexivity.
  - reflexivity.
  - vm_compute. reflexivity.
Defined.

(** ** Polar anomalies *)

Section Anomaly.

Variable sun_rise_set : Z -> Z -> Z -> double -> double -> Z * double * double.
Variable longLatPresets : list (Z * Z).
Variable indeterminate : watch_date_time_t.

(** A non-zero status leaves the out-parameters as they were. *)
Lemma compute_local_sun_times_anomaly day lon lat off sr0 ss0 :
  u8 (fst (fst (sun_rise_set (dt_year day + WATCH_RTC_REFERENCE_YEAR)
                             (dt_month day) (dt_day day) lon lat))) <> 0 ->
  _compute_local_sun_times sun_rise_set day lon lat off sr0 ss0
  = Some (false, sr0, ss0).
Proof.
  intro H. unfold _compute_local_sun_times.
  destruct (sun_rise_set _ _ _ lon lat) as [[status rise] set]. cbn in H.
  destruct (Z.eqb_spec (u8 status) 0); [contradiction | reflexivity].
Qed.

(** Once the sun times of the target day are there, the selection never
    fails on an anomaly of the day before or the day after: it goes on
    with what the out-parameters held. *)
Lemma select_period_ignores_anomaly
    target_time target0 sr ss lon lat off :
  (_unix target_time < _unix sr ->
   u8 (fst (fst (sun_rise_set
                   (dt_year (_add_days target0 (-1)) + WATCH_RTC_REFERENCE_YEAR)
                   (dt_month (_add_days target0 (-1)))
                   (dt_day (_add_days target0 (-1))) lon lat))) <> 0 ->
   select_period sun_rise_set indeterminate target_time target0 sr ss
                 lon lat off
   = Some (mk_period indeterminate sr true (_add_days target0 (-1)))) /\
  (_unix sr <= _unix target_time -> _unix ss <= _unix target_time ->
   u8 (fst (fst (sun_rise_set
                   (dt_year (_add_days target0 1) + WATCH_RTC_REFERENCE_YEAR)
                   (dt_month (_add_days target0 1))
                   (dt_day (_add_days target0 1)) lon lat))) <> 0 ->
   select_period sun_rise_set indeterminate target_time target0 sr ss
                 lon lat off
   = Some (mk_period ss indeterminate true target0)).
Proof.
  unfold select_period. split.
  - intros Htt Hst.
    destruct (Z.ltb_spec (_unix target_time) (_unix sr)); [|lia].
    rewrite (compute_local_sun_times_anomaly _ _ _ _ _ _ Hst). reflexivity.
  - intros Hsr Hss Hst.
    destruct (Z.ltb_spec (_unix target_time) (_unix sr)); [lia|].
    destruct (Z.geb_spec (_unix target_time) (_unix ss)); [|lia].
    rewrite (compute_local_sun_times_anomaly _ _ _ _ _ _ Hst). reflexivity.
Qed.

End Anomaly.

Section Update.

Variable sun_rise_set : Z -> Z -> Z -> double -> double -> Z * double * double.
Variable longLatPresets : list (Z * Z).
Variable indeterminate : watch_date_time_t.

Local Abbreviation update :=
  (_planetary_hour_face_update sun_rise_set longLatPresets indeterminate).
Local Abbreviation sun_times_of_target_day :=
  (target_day_sun_times sun_rise_set longLatPresets indeterminate).

(** An anomaly on the target day itself yields the no-data display. *)
Lemma update_target_day_anomaly host state sr ss :
  location_in_use longLatPresets host state <> (0, 0) ->
  sun_times_of_target_day host state = Some (false, sr, ss) ->
  update host state = Some (state, Display_None).
Proof.
  unfold target_day_sun_times, _planetary_hour_face_update,
    location_in_use, target_time_of, degrees, hours_from_utc_of.
  destruct (if (longLatToUse state =? 0) || (_location_count longLatPresets <=? 1)
            then load_location_from_filesystem host
            else nth (Z.to_nat (longLatToUse state)) longLatPresets (0, 0))
    as [lat_centi lon_centi].
  intros Hloc Hsun. cbn [fst snd] in Hsun.
  destruct (Z.eqb_spec lat_centi 0) as [->|Hlat];
    [destruct (Z.eqb_spec lon_centi 0) as [->|Hlon]; [congruence|]|];
    cbn [andb]; rewrite Hsun; reflexivity.
Qed.

(** Once the sun times of the target day are there, the update never
    shows the no-data display, whatever the status of the days before
    and after. *)
Lemma update_no_data_only_from_target_day host state sr ss :
  sun_times_of_target_day host state = Some (true, sr, ss) ->
  match update host state with
  | Some (_, Display_None) => False
  | _ => True
  end.
Proof.
  unfold target_day_sun_times, _planetary_hour_face_update,
    location_in_use, target_time_of, degrees, hours_from_utc_of.
  destruct (if (longLatToUse state =? 0) || (_location_count longLatPresets <=? 1)
            then load_location_from_filesystem host
            else nth (Z.to_nat (longLatToUse state)) longLatPresets (0, 0))
    as [lat_centi lon_centi].
  intros Hsun. cbn [fst snd] in Hsun.
  destruct ((lat_centi =? 0) && (lon_centi =? 0)); [exact I|].
  rewrite Hsun. cbn [bind negb].
  destruct (select_period _ _ _ _ _ _ _ _ _) as [p|]; [|exact I].
  cbn [bind].
  destruct (_find_planetary_hour_in_period _ _ _) as [[[i hs] he]|];
    exact I.
Qed.

End Update.

(** C1, where the code departs from it.  At 70 N on 2024-05-17 at 23:30,
    after the sunset of 23:00, the sun-event function reports status +1
    for the 18th.  Whatever the out-parameter of the inner call held, the
    update does not show the no-data display; with the all-zero register
    in it, it shows the first night hour, ruled by Mars, of a period that
    ends at the all-zero register. *)
Theorem next_day_anomaly_is_not_reported :
  let now := mk_date_time 4 5 17 23 30 0 in
  let update indeterminate :=
    _planetary_hour_face_update midnight_sun_onset [] indeterminate
                                (arctic_host now) (fresh_state now) in
  fst (fst (midnight_sun_onset 2024 5 18 (degrees 1900) (degrees 7000))) = 1 /\
  (forall indeterminate,
     match update indeterminate with
     | Some (_, Display_None) => False
     | _ => True
     end) /\
  (exists state r,
     update zero_date_time = Some (state, Display_Hour r) /\
     period_start (ph_period r) = mk_date_time 4 5 17 23 0 0 /\
     period_end (ph_period r) = zero_date_time /\
     hour_index r = 0 /\ ruler r = Mars).
Proof.
  cbv zeta. split; [reflexivity|]. split.
  - intro indeterminate.
    apply (update_no_data_only_from_target_day midnight_sun_onset []
             indeterminate _ _ (mk_date_time 4 5 17 1 30 0)
             (mk_date_time 4 5 17 23 0 0)).
    vm_compute. reflexivity.
  - eexists. eexists. split; [vm_compute; reflexivity|].
    repeat split.
Qed.

(** ** Decimal hours to a calendar time *)

(** The day number and the second of the day of a valid date-time. *)
Lemma unix_split t :
  valid_date_time t = true ->
  exists n, first_day <= n < end_day /\
    _unix (_midnight_of t) = n * 86400 /\
    valid_date_time (_midnight_of t) = true /\
    _unix t = n * 86400 + dt_hour t * 3600 + dt_minute t * 60 + dt_second t.
Proof.
  intro Hv. destruct (valid_date_civil t Hv) as [Hn _]. cbv zeta in Hn.
  pose proof (valid_date_time_inv t Hv) as (Hy & Hm & Hd & Hh & Hmi & Hs).
  assert (Hv0 : valid_date_time (_midnight_of t) = true).
  { unfold valid_date_time in *. cbn [_midnight_of dt_year dt_month dt_day dt_hour
      dt_minute dt_second]. rewrite !andb_true_iff in *.
    repeat split; try tauto; reflexivity. }
  exists (days_from_civil (dt_year t + WATCH_RTC_REFERENCE_YEAR)
                          (dt_month t) (dt_day t)).
  split; [exact Hn|]. split; [|split; [exact Hv0|]].
  - destruct (unix_valid _ Hv0) as [-> _]. cbn [_midnight_of dt_year dt_month
      dt_day dt_hour dt_minute dt_second]. lia.
  - destruct (unix_valid _ Hv) as [-> _]. reflexivity.
Qed.

(** Overwriting hour and minute of a valid date-time. *)
Lemma unix_set_hour_minute t H M :
  valid_date_time t = true -> 0 <= H < 24 -> 0 <= M < 60 ->
  let t' := set_minute (set_hour t H) M in
  t' = mk_date_time (dt_year t) (dt_month t) (dt_day t) H M (dt_second t) /\
  valid_date_time t' = true /\
  _unix t' = _unix (_midnight_of t) + H * 3600 + M * 60 + dt_second t.
Proof.
  intros Hv HH HM t'.
  assert (E : t' = mk_date_time (dt_year t) (dt_month t) (dt_day t) H M
                                (dt_second t)).
  { unfold t', set_minute, set_hour.
    cbn [dt_year dt_month dt_day dt_hour dt_minute dt_second].
    rewrite !bitfield_small; [reflexivity | change (2 ^ 6) with 64; lia
                             | change (2 ^ 5) with 32; lia]. }
  pose proof (valid_date_time_inv t Hv) as (Hy & Hm & Hd & Hh & Hmi & Hs).
  assert (Hv' : valid_date_time t' = true).
  { rewrite E. unfold valid_date_time in *.
    cbn [dt_year dt_month dt_day dt_hour dt_minute dt_second].
    rewrite !andb_true_iff in *. rewrite !Z.leb_le, !Z.ltb_lt in *. lia. }
  split; [exact E|]. split; [exact Hv'|].
  destruct (unix_valid _ Hv') as [-> _].
  destruct (unix_split t Hv) as (_ & _ & _ & Hv0 & _).
  destruct (unix_valid _ Hv0) as [-> _].
  rewrite E.
  cbn [_midnight_of dt_year dt_month dt_day dt_hour dt_minute dt_second].
  lia.
Qed.

(** Moving a valid date-time by whole days keeps its second of the day. *)
Lemma from_unix_shift_days t k :
  valid_date_time t = true ->
  first_day * 86400 <= _unix (_midnight_of t) + k * 86400 ->
  _unix (_midnight_of t) + k * 86400 + 86400 <= end_day * 86400 ->
  let t' := _from_unix (_unix t + k * 86400) in
  valid_date_time t' = true /\
  _unix (_midnight_of t') = _unix (_midnight_of t) + k * 86400 /\
  dt_second t' = dt_second t.
Proof.
  intros Hv Hlo Hhi t'.
  pose proof (valid_date_time_inv t Hv) as (_ & _ & _ & Hh & Hmi & Hs).
  destruct (unix_split t Hv) as (n & Hn & Hmid & _ & Hu).
  rewrite Hmid in *.
  destruct (unix_from_unix (_unix t + k * 86400)) as [Hv' Hu'].
  { unfold first_day, end_day in *. lia. }
  fold t' in Hv', Hu'.
  pose proof (valid_date_time_inv t' Hv') as (_ & _ & _ & Hh' & Hmi' & Hs').
  destruct (unix_split t' Hv') as (n' & Hn' & Hmid' & _ & Hu2).
  split; [exact Hv'|]. rewrite Hmid'. lia.
Qed.

(** When the seconds are not below 30 the minutes are not whole, and
    [ceil] is one more than [floor]. *)
Lemma ceil_when_seconds_not_below_30 minutes whole :
  floor_Z minutes = Some whole ->
  ltb (mul (of_Z 60) (fmod1 minutes)) (of_Z 30) = false ->
  ceil_Z minutes = Some (whole + 1).
Proof.
  assert (Hzero : forall s, ltb (mul (of_Z 60) (S754_zero s)) (of_Z 30) = true)
    by (intros []; reflexivity).
  destruct minutes as [s|s| |s m e]; cbn [floor_Z ceil_Z fmod1];
    try discriminate.
  destruct (Z.leb_spec 0 e) as [He|He]; cbv iota.
  - intros _ H. rewrite Hzero in H. discriminate.
  - intros Hfl H. injection Hfl as <-.
    assert (Hp : 0 < 2 ^ (- e)) by (apply Z.pow_pos_nonneg; lia).
    destruct (Z.eq_dec (Z.rem (signed s m) (2 ^ (- e))) 0) as [Hr|Hr].
    + rewrite Hr in H. cbn [binary_normalize] in H.
      rewrite Hzero in H. discriminate.
    + f_equal.
      assert (Hm : signed s m mod 2 ^ (- e) <> 0).
      { intro C. apply Hr. apply Z.rem_mod_eq_0; [lia | exact C]. }
      rewrite (Z_div_nz_opp_full (signed s m) (2 ^ (- e)) ltac:(lia) Hm). lia.
Qed.

Lemma floor_when_seconds_below_30 minutes whole :
  floor_Z minutes = Some whole -> 0 <= whole <= 255 ->
  u8_of_floor minutes = Some whole.
Proof.
  unfold u8_of_floor, in_range. intros -> H.
  destruct (Z.leb_spec 0 whole); [|lia].
  destruct (Z.leb_spec whole 255); [reflexivity | lia].
Qed.

(** The minute carry, after the day rollover. *)
Lemma minute_carry base H minute :
  valid_date_time base = true ->
  _unix (_midnight_of base) + 2 * 86400 <= end_day * 86400 ->
  0 <= H < 24 -> 0 <= minute <= 60 ->
  let carry := if minute =? 60 then 1 else 0 in
  let t := set_minute (set_hour base (u8 H)) minute in
  exists t' day,
    (if dt_minute t =? 60
     then
       let t := set_minute t 0 in
       let t := set_hour t (u8 (cmod (dt_hour t + 1) 24)) in
       if dt_hour t =? 0
       then Some (_from_unix (u32 (_unix t + 86400)))
       else Some t
     else Some t) = Some t' /\
    valid_date_time t' = true /\
    valid_date_time day = true /\
    _unix (_midnight_of day)
    = _unix (_midnight_of base) + 86400 * ((H + carry) / 24) /\
    t' = mk_date_time (dt_year day) (dt_month day) (dt_day day)
                      ((H + carry) mod 24)
                      (if minute =? 60 then 0 else minute)
                      (dt_second base) /\
    _unix t' = _unix (_midnight_of base) + H * 3600 + minute * 60
               + dt_second base.
Proof.
  intros Hv Hhi HH HM carry t.
  pose proof (valid_date_time_inv base Hv) as (_ & _ & _ & _ & _ & Hs).
  destruct (unix_split base Hv) as (n & Hn & Hmid & Hv0 & _).
  assert (Hu8 : u8 H = H)
    by (unfold u8; apply Z.mod_small; change (2 ^ 8) with 256; lia).
  assert (Ht : t = mk_date_time (dt_year base) (dt_month base) (dt_day base)
                                H minute (dt_second base)).
  { unfold t, set_minute, set_hour. rewrite Hu8.
    cbn [dt_year dt_month dt_day dt_hour dt_minute dt_second].
    rewrite !bitfield_small; [reflexivity | change (2 ^ 6) with 64; lia
                             | change (2 ^ 5) with 32; lia]. }
  rewrite Ht. cbn [dt_minute]. unfold carry.
  destruct (Z.eqb_spec minute 60) as [->|Hne].
  - (* the minute is 60 *)
    cbv zeta. unfold set_minute, set_hour.
    cbn [dt_year dt_month dt_day dt_hour dt_minute dt_second].
    change (bitfield 6 0) with 0.
    assert (Hc : u8 (cmod (H + 1) 24) = (H + 1) mod 24).
    { rewrite cmod_nonneg by lia. unfold u8. apply Z.mod_small.
      pose proof (Z.mod_pos_bound (H + 1) 24 ltac:(lia)).
      change (2 ^ 8) with 256. lia. }
    rewrite Hc.
    pose proof (Z.mod_pos_bound (H + 1) 24 ltac:(lia)) as Hb.
    rewrite bitfield_small by (change (2 ^ 5) with 32; lia).
    destruct (unix_set_hour_minute base ((H + 1) mod 24) 0 Hv Hb ltac:(lia))
      as (E4 & Hv4 & Hu4). cbv zeta in E4, Hv4, Hu4. rewrite E4 in Hv4, Hu4.
    destruct (Z.eqb_spec ((H + 1) mod 24) 0) as [Hz|Hnz].
    + (* the hour wraps past 23 *)
      assert (H23 : H = 23) by (Z.div_mod_to_equations; lia). subst H.
      change ((23 + 1) mod 24) with 0 in *. change ((23 + 1) / 24) with 1.
      set (t4 := mk_date_time (dt_year base) (dt_month base) (dt_day base)
                              0 0 (dt_second base)) in *.
      assert (Hm4 : _unix (_midnight_of t4) = _unix (_midnight_of base))
        by reflexivity.
      destruct (from_unix_shift_days t4 1 Hv4) as (Hv5 & Hmid5 & Hs5).
      { rewrite Hm4, Hmid. unfold first_day in *. lia. }
      { rewrite Hm4. lia. }
      cbv zeta in Hv5, Hmid5, Hs5.
      assert (Hu32 : u32 (_unix t4 + 86400) = _unix t4 + 1 * 86400).
      { apply u32_small. rewrite Hu4, Hmid. unfold first_day, end_day in *.
        change (2 ^ 32) with 4294967296. lia. }
      rewrite Hu32.
      set (t5 := _from_unix (_unix t4 + 1 * 86400)) in *.
      destruct (unix_from_unix (_unix t4 + 1 * 86400)) as [_ Hu5].
      { rewrite Hu4, Hmid. unfold first_day, end_day in *. lia. }
      fold t5 in Hu5.
      destruct (unix_split t5 Hv5) as (n5 & Hn5 & Hmid5' & _ & Hu5').
      pose proof (valid_date_time_inv t5 Hv5) as (_ & _ & _ & Hh5 & Hmi5 & Hsec5).
      exists t5, t5. split; [reflexivity|]. split; [exact Hv5|].
      split; [exact Hv5|]. rewrite Hm4 in Hmid5.
      split; [lia|]. split; [|lia].
      assert (dt_hour t5 = 0 /\ dt_minute t5 = 0 /\ dt_second t5 = dt_second base)
        as (E1 & E2 & E3) by (cbn [dt_second t4] in *; unfold t4 in Hs5;
                               cbn [dt_second] in Hs5; lia).
      destruct t5 as [y5 m5 d5 h5 mi5 s5].
      cbn [dt_year dt_month dt_day dt_hour dt_minute dt_second] in *.
      subst. reflexivity.
    + (* no wrap *)
      assert (Hlt : H + 1 < 24) by (Z.div_mod_to_equations; lia).
      rewrite (Z.mod_small (H + 1) 24) in * by lia.
      rewrite (Z.div_small (H + 1) 24) by lia.
      exists (mk_date_time (dt_year base) (dt_month base) (dt_day base)
                           (H + 1) 0 (dt_second base)), base.
      split; [reflexivity|]. split; [exact Hv4|]. split; [exact Hv|].
      split; [lia|]. split; [reflexivity|]. lia.
  - (* no carry *)
    destruct (unix_set_hour_minute base H minute Hv HH ltac:(lia))
      as (E & Hv' & Hu'). cbv zeta in E, Hv', Hu'. rewrite E in Hv', Hu'.
    rewrite Z.add_0_r, (Z.mod_small H 24), (Z.div_small H 24) by lia.
    exists (mk_date_time (dt_year base) (dt_month base) (dt_day base)
                         H minute (dt_second base)), base.
    split; [reflexivity|]. split; [exact Hv'|]. split; [exact Hv|].
    split; [lia|]. split; [reflexivity|]. lia.
Qed.

(** C6.  For a valid day, a [double] whose integer part [hour] lies in
    [-24, 48) and whose fractional part, in minutes, rounds to a minute of
    at most 60 (down when the seconds are below 30, up from exactly 30
    seconds on), the conversion yields the valid calendar time at
    [hour]:[minute] after the midnight of the day: an hour outside [0, 24)
    moves the date by one day, a minute of 60 carries into the hour, and an
    hour carried past 23 moves the date by one more day. *)
Theorem decimal_hours_round_and_carry
    (day_local : watch_date_time_t) (local_hours_dec : double)
    (hour whole : Z) :
  let minutes := mul (of_Z 60) (sub local_hours_dec (of_Z hour)) in
  let seconds := mul (of_Z 60) (fmod1 minutes) in
  let minute := if ltb seconds (of_Z 30) then whole else whole + 1 in
  let rollover := if hour <? 0 then -1 else if hour >=? 24 then 1 else 0 in
  let carry := if minute =? 60 then 1 else 0 in
  valid_date_time day_local = true ->
  (first_day + 1) * 86400 <= _unix day_local < (end_day - 2) * 86400 ->
  int_of_floor local_hours_dec = Some hour ->
  -24 <= hour < 48 ->
  floor_Z minutes = Some whole ->
  0 <= whole -> minute <= 60 ->
  exists t day,
    _local_decimal_hours_to_dt day_local local_hours_dec = Some t /\
    valid_date_time t = true /\
    valid_date_time day = true /\
    _unix (_midnight_of day)
    = _unix (_midnight_of day_local)
      + 86400 * (rollover + (hour - 24 * rollover + carry) / 24) /\
    t = mk_date_time (dt_year day) (dt_month day) (dt_day day)
                     ((hour - 24 * rollover + carry) mod 24)
                     (if minute =? 60 then 0 else minute)
                     (dt_second day_local) /\
    _unix t = _unix (_midnight_of day_local) + hour * 3600 + minute * 60
              + dt_second day_local.
Proof.
  intros minutes seconds minute rollover carry Hv Hr Hfl Hh Hfm Hw Hm60.
  assert (Hsel : (if ltb seconds (of_Z 30)
                  then u8_of_floor minutes else u8_of_ceil minutes)
                 = Some minute).
  { unfold minute in *. destruct (ltb seconds (of_Z 30)) eqn:Hlt.
    - apply floor_when_seconds_below_30; [exact Hfm | lia].
    - unfold u8_of_ceil.
      rewrite (ceil_when_seconds_not_below_30 minutes whole Hfm Hlt).
      unfold in_range.
      destruct (Z.leb_spec 0 (whole + 1)); [|lia].
      destruct (Z.leb_spec (whole + 1) 255); [reflexivity | lia]. }
  assert (Hmin : 0 <= minute <= 60)
    by (unfold minute in *; destruct (ltb seconds (of_Z 30)); lia).
  unfold _local_decimal_hours_to_dt. rewrite Hfl. cbn [bind].
  fold minutes. fold seconds.
  destruct (unix_split day_local Hv) as (n & Hn & Hmid & Hv0 & Hu).
  pose proof (valid_date_time_inv day_local Hv) as (_ & _ & _ & Hdh & Hdm & Hds).
  unfold first_day, end_day in Hr, Hn.
  assert (Hfinish : forall base H delta,
    valid_date_time base = true ->
    _unix (_midnight_of base) = _unix (_midnight_of day_local) + delta * 86400 ->
    dt_second base = dt_second day_local ->
    -1 <= delta <= 1 -> H = hour - 24 * delta -> 0 <= H < 24 ->
    rollover = delta ->
    exists t day,
      (let '(hour0, t0) := (H, base) in
       minute0 <- (if ltb seconds (of_Z 30)
                   then u8_of_floor minutes else u8_of_ceil minutes) ;;
       (if dt_minute (set_minute (set_hour t0 (u8 hour0)) minute0) =? 60
        then
          let t := set_minute (set_minute (set_hour t0 (u8 hour0)) minute0) 0 in
          let t := set_hour t (u8 (cmod (dt_hour t + 1) 24)) in
          if dt_hour t =? 0
          then Some (_from_unix (u32 (_unix t + 86400)))
          else Some t
        else Some (set_minute (set_hour t0 (u8 hour0)) minute0))) = Some t /\
      valid_date_time t = true /\
      valid_date_time day = true /\
      _unix (_midnight_of day)
      = _unix (_midnight_of day_local)
        + 86400 * (rollover + (hour - 24 * rollover + carry) / 24) /\
      t = mk_date_time (dt_year day) (dt_month day) (dt_day day)
                       ((hour - 24 * rollover + carry) mod 24)
                       (if minute =? 60 then 0 else minute)
                       (dt_second day_local) /\
      _unix t = _unix (_midnight_of day_local) + hour * 3600 + minute * 60
                + dt_second day_local).
  { intros base H delta Hvb Hmb Hsb Hdelta HH HHr Hroll.
    rewrite Hroll. cbv beta iota zeta. rewrite Hsel. cbn [bind].
    destruct (minute_carry base H minute Hvb
                ltac:(rewrite Hmb, Hmid; unfold end_day; lia) HHr Hmin)
      as (t' & day & E & Hvt & Hvd & Hmd & Et & Hut).
    cbv zeta in E. exists t', day. split; [exact E|].
    fold carry in Hmd, Et. rewrite <- HH.
    split; [exact Hvt|]. split; [exact Hvd|].
    split; [lia|]. split; [rewrite <- Hsb; exact Et | lia]. }
  destruct (Z.ltb_spec hour 0) as [Hneg|Hnonneg].
  - (* the hour is negative: the day before *)
    destruct (from_unix_shift_days day_local (-1) Hv) as (Hvb & Hmb & Hsb).
    { rewrite Hmid. unfold first_day. lia. }
    { rewrite Hmid. unfold end_day. lia. }
    cbv zeta in Hvb, Hmb, Hsb.
    replace (u32 (_unix day_local - 86400)) with (_unix day_local + -1 * 86400)
      by (symmetry; rewrite u32_small;
          [lia | change (2 ^ 32) with 4294967296; lia]).
    apply (Hfinish _ (hour + 24) (-1) Hvb Hmb Hsb); lia.
  - destruct (Z.geb_spec hour 24) as [Hbig|Hsmall].
    + (* the hour is 24 or more: the day after *)
      destruct (from_unix_shift_days day_local 1 Hv) as (Hvb & Hmb & Hsb).
      { rewrite Hmid. unfold first_day. lia. }
      { rewrite Hmid. unfold end_day. lia. }
      cbv zeta in Hvb, Hmb, Hsb.
      replace (u32 (_unix day_local + 86400)) with (_unix day_local + 1 * 86400)
        by (symmetry; rewrite u32_small;
            [lia | change (2 ^ 32) with 4294967296; lia]).
      apply (Hfinish _ (hour - 24) 1 Hvb Hmb Hsb); lia.
    + apply (Hfinish day_local hour 0 Hv); lia.
Qed.

Lemma decimal_hours_round_and_carry_witness :
  exists t day,
    _local_decimal_hours_to_dt (mk_date_time 4 1 1 0 0 0)
                               (div (of_Z (-1)) (of_Z 120)) = Some t /\
    valid_date_time t = true /\ valid_date_time day = true /\
    _unix (_midnight_of day)
    = _unix (_midnight_of (mk_date_time 4 1 1 0 0 0))
      + 86400 * (-1 + (-1 - 24 * -1 + 1) / 24) /\
    t = mk_date_time (dt_year day) (dt_month day) (dt_day day)
                     ((-1 - 24 * -1 + 1) mod 24) 0 0 /\
    _unix t = _unix (_midnight_of (mk_date_time 4 1 1 0 0 0))
              + -1 * 3600 + 60 * 60 + 0.
Proof.
  apply (decimal_hours_round_and_carry (mk_date_time 4 1 1 0 0 0)
           (div (of_Z (-1)) (of_Z 120)) (-1) 59).
  - reflexivity.
  - vm_compute. split; [discriminate | reflexivity].
  - vm_compute. reflexivity.
  - lia.
  - vm_compute. reflexivity.
  - lia.
  - vm_compute. discriminate.
Defined.

(** ** Binary64: digits, shifts and rounding *)

Lemma digits2_pos_bounds p :
  2 ^ (Z.pos (digits2_pos p) - 1) <= Z.pos p < 2 ^ Z.pos (digits2_pos p).
Proof.
  induction p as [p IH|p IH|]; cbn [digits2_pos].
  - rewrite Pos2Z.inj_succ.
    replace (Z.succ (Z.pos (digits2_pos p)) - 1)
      with (Z.succ (Z.pos (digits2_pos p) - 1)) by lia.
    rewrite !Z.pow_succ_r by lia. lia.
  - rewrite Pos2Z.inj_succ.
    replace (Z.succ (Z.pos (digits2_pos p)) - 1)
      with (Z.succ (Z.pos (digits2_pos p) - 1)) by lia.
    rewrite !Z.pow_succ_r by lia. lia.
  - cbn. lia.
Qed.

Lemma Zdigits2_unique z d :
  0 < d -> 2 ^ (d - 1) <= z < 2 ^ d -> Zdigits2 z = d.
Proof.
  intros Hd Hz.
  assert (Hpos : 0 < z).
  { pose proof (Z.pow_pos_nonneg 2 (d - 1) ltac:(lia) ltac:(lia)). lia. }
  destruct z as [|p|p]; try lia. cbn [Zdigits2].
  pose proof (digits2_pos_bounds p) as Hb.
  set (d' := Z.pos (digits2_pos p)) in *.
  destruct (Z.lt_trichotomy d' d) as [C|[C|C]]; [exfalso|exact C|exfalso].
  - assert (2 ^ d' <= 2 ^ (d - 1)) by (apply Z.pow_le_mono_r; lia). lia.
  - assert (2 ^ d <= 2 ^ (d' - 1)) by (apply Z.pow_le_mono_r; lia). lia.
Qed.

Lemma iter_pos_nat {A : Type} (f : A -> A) p : forall x,
  iter_pos f p x = Nat.iter (Pos.to_nat p) f x.
Proof.
  induction p as [p IH|p IH|]; intro x; cbn [iter_pos].
  - rewrite !IH, Pos2Nat.inj_xI.
    replace (S (2 * Pos.to_nat p))%nat
      with (Pos.to_nat p + (Pos.to_nat p + 1))%nat by lia.
    rewrite !Nat.iter_add. reflexivity.
  - rewrite !IH, Pos2Nat.inj_xO.
    replace (2 * Pos.to_nat p)%nat with (Pos.to_nat p + Pos.to_nat p)%nat by lia.
    rewrite Nat.iter_add. reflexivity.
  - reflexivity.
Qed.

Lemma shr_1_nonneg m r s :
  0 <= m ->
  shr_1 (Build_shr_record m r s) = Build_shr_record (m / 2) (Z.odd m) (r || s).
Proof.
  intro H. destruct m as [|[p|p|]|p]; try lia; cbn [shr_1].
  - reflexivity.
  - replace (Z.pos p~1 / 2) with (Z.pos p)
      by (apply (Z.div_unique _ 2 _ 1); lia). reflexivity.
  - replace (Z.pos p~0 / 2) with (Z.pos p)
      by (apply (Z.div_unique _ 2 _ 0); lia). reflexivity.
  - reflexivity.
Qed.

(** [k] one-bit shifts keep the quotient by [2 ^ k], the last bit shifted
    out and whether anything below it was set. *)
Lemma shr_iter_nonneg (k : nat) m r s :
  0 <= m ->
  Nat.iter (S k) shr_1 (Build_shr_record m r s)
  = Build_shr_record (m / 2 ^ Z.of_nat (S k))
      (Z.odd (m / 2 ^ Z.of_nat k))
      (negb (m mod 2 ^ Z.of_nat k =? 0) || r || s).
Proof.
  intro Hm. induction k as [|k IH].
  - cbn [Nat.iter]. rewrite shr_1_nonneg by exact Hm.
    change (2 ^ Z.of_nat 1) with 2. change (2 ^ Z.of_nat 0) with 1.
    rewrite Z.div_1_r, Z.mod_1_r. reflexivity.
  - rewrite Nat.iter_succ, IH.
    assert (Hq : 0 <= m / 2 ^ Z.of_nat (S k))
      by (apply Z.div_pos; [lia | apply Z.pow_pos_nonneg; lia]).
    rewrite shr_1_nonneg by exact Hq.
    assert (Hp : 0 < 2 ^ Z.of_nat k) by (apply Z.pow_pos_nonneg; lia).
    assert (E1 : 2 ^ Z.of_nat (S k) = 2 ^ Z.of_nat k * 2)
      by (rewrite Nat2Z.inj_succ, Z.pow_succ_r by lia; lia).
    assert (E2 : 2 ^ Z.of_nat (S (S k)) = 2 ^ Z.of_nat (S k) * 2)
      by (rewrite (Nat2Z.inj_succ (S k)), Z.pow_succ_r by lia; lia).
    f_equal.
    + rewrite E2, Z.div_div by lia. reflexivity.
    + (* the sticky bit *)
      assert (K : negb (m mod 2 ^ Z.of_nat (S k) =? 0)
                  = Z.odd (m / 2 ^ Z.of_nat k)
                    || negb (m mod 2 ^ Z.of_nat k =? 0)).
      { rewrite E1, Z.rem_mul_r by lia.
        pose proof (Z.mod_pos_bound m (2 ^ Z.of_nat k) Hp) as Hb.
        rewrite (Zmod_odd (m / 2 ^ Z.of_nat k)).
        destruct (Z.odd (m / 2 ^ Z.of_nat k)).
        - cbn [orb]. apply negb_true_iff, Z.eqb_neq. lia.
        - cbn [orb]. rewrite Z.mul_0_r, Z.add_0_r. reflexivity. }
      rewrite K.
      destruct (Z.odd (m / 2 ^ Z.of_nat k)),
        (negb (m mod 2 ^ Z.of_nat k =? 0)), r, s; reflexivity.
Qed.

Lemma new_location_spec B r :
  0 < B -> 0 <= r < B -> new_location B r = location_of r B.
Proof.
  intros HB Hr. unfold new_location, location_of, new_location_even,
    new_location_odd.
  destruct (Z.even B) eqn:Hev; destruct (Z.eqb_spec r 0) as [->|Hne];
    try reflexivity.
  f_equal.
  assert (Hodd : Z.odd B = true) by (rewrite <- Z.negb_even, Hev; reflexivity).
  apply Z.odd_spec in Hodd. destruct Hodd as [c Hc].
  destruct (Z.compare_spec (2 * r + 1) B), (Z.compare_spec (2 * r) B);
    try reflexivity; lia.
Qed.

Lemma fexp_normal e :
  -1074 <= e - 53 -> fexp prec emax e = e - 53.
Proof. intro H. unfold fexp, emin, prec, emax. lia. Qed.

(** The second normalisation of [binary_round_aux]. *)
Lemma round_aux_finish m2 e :
  2 ^ 52 <= m2 <= 2 ^ 53 -> -1074 <= e -> e + 1 <= 971 ->
  (let '(mrs, e') := shr_fexp prec emax m2 e loc_Exact in
   match shr_m mrs with
   | Z0 => S754_zero false
   | Zpos m => if e' <=? emax - prec
               then S754_finite false m e' else S754_infinity false
   | _ => S754_nan
   end) = normal53 m2 e.
Proof.
  intros Hm He1 He2. unfold shr_fexp, normal53.
  destruct (Z.ltb_spec m2 (2 ^ 53)) as [Hlt|Hge].
  - rewrite (Zdigits2_unique m2 53) by (change (53 - 1) with 52; lia).
    rewrite fexp_normal by lia.
    replace (53 + e - 53 - e) with 0 by lia. cbn [shr shr_record_of_loc shr_m].
    destruct m2 as [|p|p]; try lia.
    cbn [Z.to_pos]. unfold emax, prec.
    destruct (Z.leb_spec e (1024 - 53)); [reflexivity | lia].
  - assert (m2 = 2 ^ 53) by lia. subst m2.
    rewrite (Zdigits2_unique (2 ^ 53) 54) by (cbn; lia).
    rewrite fexp_normal by lia.
    replace (54 + e - 53 - e) with 1 by lia.
    cbn [shr shr_record_of_loc iter_pos].
    change (shr_m (shr_1 {| shr_m := 2 ^ 53; shr_r := false; shr_s := false |}))
      with (2 ^ 52).
    change (2 ^ 52) with (Z.pos (Z.to_pos (2 ^ 52))) at 1. cbv iota beta.
    unfold emax, prec.
    destruct (Z.leb_spec (e + 1) (1024 - 53)); [reflexivity | lia].
Qed.

Lemma loc_of_record_of_loc m l :
  shr_m (shr_record_of_loc m l) = m /\
  loc_of_shr_record (shr_record_of_loc m l) = l.
Proof. destruct l as [|[| |]]; split; reflexivity. Qed.

Lemma record_of_location_of m r B :
  0 <= r < B ->
  shr_record_of_loc m (location_of r B)
  = Build_shr_record m (B <=? 2 * r) (negb (r =? 0) && negb (2 * r =? B)).
Proof.
  intro Hr. unfold location_of.
  destruct (Z.eqb_spec r 0) as [->|Hne]; cbn [shr_record_of_loc negb andb].
  - destruct (Z.leb_spec B (2 * 0)); [lia | reflexivity].
  - destruct (Z.compare_spec (2 * r) B); cbn [shr_record_of_loc];
      destruct (Z.leb_spec B (2 * r)); destruct (Z.eqb_spec (2 * r) B);
      try lia; reflexivity.
Qed.

(** What [round_nearest_even] adds, from the round and sticky bits. *)
Lemma round_nearest_even_bits m rb sb :
  round_nearest_even m
    (loc_of_shr_record (Build_shr_record m rb sb))
  = m + (if rb && (sb || Z.odd m) then 1 else 0).
Proof.
  destruct rb, sb; cbn [loc_of_shr_record round_nearest_even andb orb];
    try lia.
  rewrite <- Z.negb_odd. destruct (Z.odd m); cbn [negb]; lia.
Qed.

Lemma round_aux_near mx ex A B r :
  0 < mx -> 0 < B -> A = mx * B + r -> 0 <= r < B ->
  53 <= Zdigits2 mx ->
  -1074 <= Zdigits2 mx + ex - 53 -> Zdigits2 mx + ex - 53 + 1 <= 971 ->
  exists m2,
    binary_round_aux prec emax false mx ex (location_of r B)
    = normal53 m2 (ex + (Zdigits2 mx - 53)) /\
    nearest_even A B (2 ^ (Zdigits2 mx - 53)) m2 /\
    2 ^ 52 <= m2 <= 2 ^ 53.
Proof.
  intros Hmx HB HA Hr Hd He1 He2.
  assert (Hbounds : 2 ^ (Zdigits2 mx - 1) <= mx < 2 ^ Zdigits2 mx).
  { destruct mx as [|p|p]; try lia. apply digits2_pos_bounds. }
  set (d := Zdigits2 mx) in *.
  unfold binary_round_aux. unfold shr_fexp at 1. fold d.
  rewrite fexp_normal by lia.
  replace (d + ex - 53 - ex) with (d - 53) by lia.
  rewrite record_of_location_of by exact Hr.
  set (rb0 := B <=? 2 * r). set (sb0 := negb (r =? 0) && negb (2 * r =? B)).
  assert (Hrb0 : rb0 = true <-> B <= 2 * r) by (unfold rb0; apply Z.leb_le).
  assert (Hsb0 : sb0 = true <-> r <> 0 /\ 2 * r <> B).
  { unfold sb0. rewrite andb_true_iff, !negb_true_iff, !Z.eqb_neq. tauto. }
  clearbody rb0 sb0.
  destruct (d - 53) as [|p|p] eqn:Hn; try lia.
  - (* no shift *)
    cbn [shr]. cbv beta iota. cbn [shr_m].
    rewrite round_nearest_even_bits.
    set (m2 := mx + (if rb0 && (sb0 || Z.odd mx) then 1 else 0)).
    assert (Hd53 : d = 53) by lia. rewrite Hd53 in Hbounds.
    change (53 - 1) with 52 in Hbounds.
    assert (Hm2 : 2 ^ 52 <= m2 <= 2 ^ 53)
      by (unfold m2; destruct (rb0 && (sb0 || Z.odd mx)); lia).
    exists m2. rewrite Z.add_0_r. split; [|split; [|exact Hm2]].
    + apply round_aux_finish; lia.
    + unfold nearest_even. change (2 ^ 0) with 1. rewrite !Z.mul_1_r, Z.mul_1_l.
      unfold m2. subst A.
      destruct rb0, sb0; cbn [andb orb].
      * assert (B <= 2 * r) by tauto. assert (r <> 0 /\ 2 * r <> B) by tauto.
        split; [lia | intro; lia].
      * assert (B <= 2 * r) by tauto.
        assert (~ (r <> 0 /\ 2 * r <> B)) by (rewrite <- Hsb0; discriminate).
        assert (2 * r = B) by lia.
        destruct (Z.odd mx) eqn:Hodd.
        -- split; [lia | intros _].
           rewrite Z.even_add, <- Z.negb_odd, Hodd. reflexivity.
        -- split; [lia | intros _]. rewrite Z.add_0_r, <- Z.negb_odd, Hodd.
           reflexivity.
      * assert (~ B <= 2 * r) by (rewrite <- Hrb0; discriminate).
        split; [lia | intro; lia].
      * assert (~ B <= 2 * r) by (rewrite <- Hrb0; discriminate).
        split; [lia | intro; lia].
  - (* a shift by [p] bits *)
    cbn [shr]. rewrite iter_pos_nat.
    destruct (Pos2Nat.is_succ p) as [k Hk]. rewrite Hk.
    rewrite shr_iter_nonneg by lia. cbv beta iota. cbn [shr_m].
    assert (HSk : Z.of_nat (S k) = Z.pos p) by (rewrite <- Hk; apply positive_nat_Z).
    rewrite HSk.
    rewrite round_nearest_even_bits.
    set (half := 2 ^ Z.of_nat k).
    assert (Hhalf : 0 < half) by (apply Z.pow_pos_nonneg; lia).
    assert (HU : 2 ^ Z.pos p = 2 * half).
    { rewrite <- HSk, Nat2Z.inj_succ, Z.pow_succ_r by lia. reflexivity. }
    rewrite HU.
    set (m1 := mx / (2 * half)).
    set (bit := Z.odd (mx / half)).
    set (low := mx mod half).
    assert (Hlow : 0 <= low < half) by (apply Z.mod_pos_bound; exact Hhalf).
    assert (Hmx_eq : mx = m1 * (2 * half) + (if bit then half else 0) + low).
    { unfold m1, bit, low.
      pose proof (Z.div_mod mx half ltac:(lia)) as E1.
      pose proof (Z.div_mod (mx / half) 2 ltac:(lia)) as E2.
      rewrite (Zmod_odd (mx / half)) in E2.
      rewrite Z.div_div in E2 by lia.
      rewrite (Z.mul_comm half 2) in E2.
      destruct (Z.odd (mx / half)); nia. }
    assert (Hm1 : 2 ^ 52 <= m1 < 2 ^ 53).
    { assert (Hpow : 2 ^ (d - 1) = 2 ^ 52 * (2 * half) /\ 2 ^ d = 2 ^ 53 * (2 * half)).
      { rewrite <- HU, <- !Z.pow_add_r by lia. split; f_equal; lia. }
      destruct Hpow as [P1 P2]. rewrite P1, P2 in Hbounds. unfold m1.
      split.
      - apply Z.div_le_lower_bound; lia.
      - apply Z.div_lt_upper_bound; lia. }
    set (sticky := negb (low =? 0) || rb0 || sb0).
    assert (Hsticky : sticky = false <-> low = 0 /\ r = 0).
    { unfold sticky. rewrite !orb_false_iff, negb_false_iff, Z.eqb_eq.
      split.
      - intros [[H1 H2] H3]. split; [exact H1|].
        destruct (Z.eq_dec r 0) as [|Hne]; [assumption|exfalso].
        assert (~ B <= 2 * r) by (rewrite <- Hrb0, H2; discriminate).
        assert (~ (r <> 0 /\ 2 * r <> B)) by (rewrite <- Hsb0, H3; discriminate).
        lia.
      - intros [H1 H2]. repeat split; [exact H1| |].
        + destruct rb0; [|reflexivity]. assert (B <= 2 * r) by tauto. lia.
        + destruct sb0; [|reflexivity].
          assert (r <> 0 /\ 2 * r <> B) by tauto. lia. }
    clearbody sticky.
    set (m2 := m1 + (if bit && (sticky || Z.odd m1) then 1 else 0)).
    assert (Hm2 : 2 ^ 52 <= m2 <= 2 ^ 53)
      by (unfold m2; destruct (bit && (sticky || Z.odd m1)); lia).
    exists m2. split; [|split; [|exact Hm2]].
    + replace (ex + Z.pos p) with (ex + Z.pos p) by reflexivity.
      apply round_aux_finish; lia.
    + unfold nearest_even. subst A. rewrite Hmx_eq.
      assert (HlowB : 0 <= low * B <= half * B - B) by nia.
      assert (HhB : 0 < half * B) by nia.
      unfold m2.
      destruct bit, sticky eqn:Hst; cbn [andb orb].
      * (* above the middle: up *)
        assert (~ (low = 0 /\ r = 0)) by (rewrite <- Hsticky; discriminate).
        assert (0 < low * B + r) by nia.
        split; [nia | intro; nia].
      * (* the middle: to even *)
        assert (low = 0 /\ r = 0) as [-> ->] by (apply Hsticky; reflexivity).
        destruct (Z.odd m1) eqn:Hodd.
        -- split; [nia | intros _].
           rewrite Z.even_add, <- Z.negb_odd, Hodd. reflexivity.
        -- split; [nia | intros _].
           rewrite Z.add_0_r, <- Z.negb_odd, Hodd. reflexivity.
      * (* below the middle: down *)
        split; [nia | intro; nia].
      * assert (low = 0 /\ r = 0) as [-> ->] by (apply Hsticky; reflexivity).
        split; [nia | intro; nia].
Qed.

Lemma nearest_even_unique A B U m m' :
  0 < B -> 0 < U ->
  nearest_even A B U m -> nearest_even A B U m' -> m = m'.
Proof.
  intros HB HU [H1 T1] [H2 T2].
  assert (HUB : 0 < U * B) by nia.
  destruct (Z.lt_trichotomy m m') as [C|[C|C]]; [exfalso|exact C|exfalso].
  - assert (Hstep : m' * U * B - m * U * B >= U * B) by nia.
    assert (E1 : 2 * Z.abs (A - m * U * B) = U * B) by lia.
    assert (E2 : 2 * Z.abs (A - m' * U * B) = U * B) by lia.
    assert (m' = m + 1) by nia. subst m'.
    specialize (T1 E1). specialize (T2 E2).
    rewrite Z.even_add, T1 in T2. discriminate.
  - assert (Hstep : m * U * B - m' * U * B >= U * B) by nia.
    assert (E1 : 2 * Z.abs (A - m * U * B) = U * B) by lia.
    assert (E2 : 2 * Z.abs (A - m' * U * B) = U * B) by lia.
    assert (m = m' + 1) by nia. subst m.
    specialize (T1 E1). specialize (T2 E2).
    rewrite Z.even_add, T2 in T1. discriminate.
Qed.

Lemma pos_iter_xO p k : Z.pos (Pos.iter xO p k) = Z.pos p * 2 ^ Z.pos k.
Proof.
  induction k as [|k IH] using Pos.peano_ind.
  - cbn. lia.
  - rewrite Pos.iter_succ, Pos2Z.inj_xO, IH, Pos2Z.inj_succ, Z.pow_succ_r by lia.
    lia.
Qed.

(** The conversion of a positive integer below 2^53 is exact. *)
Lemma of_Z_pos z :
  1 <= z < 2 ^ 53 ->
  exists p d,
    1 <= d <= 53 /\ 2 ^ (d - 1) <= z < 2 ^ d /\
    of_Z z = S754_finite false p (d - 53) /\
    Z.pos p = z * 2 ^ (53 - d) /\ 2 ^ 52 <= Z.pos p < 2 ^ 53.
Proof.
  intros Hz. destruct z as [|q|q]; try lia.
  pose proof (digits2_pos_bounds q) as Hb.
  set (d := Z.pos (digits2_pos q)) in *.
  assert (Hd : 1 <= d <= 53).
  { split; [unfold d; lia|].
    destruct (Z.le_gt_cases d 53) as [C|C]; [exact C|exfalso].
    assert (2 ^ 53 <= 2 ^ (d - 1)) by (apply Z.pow_le_mono_r; lia). lia. }
  assert (Hscale : 2 ^ (d - 1) * 2 ^ (53 - d) = 2 ^ 52 /\
                   2 ^ d * 2 ^ (53 - d) = 2 ^ 53).
  { rewrite <- !Z.pow_add_r by lia. split; f_equal; lia. }
  assert (Hp2 : 0 < 2 ^ (53 - d)) by (apply Z.pow_pos_nonneg; lia).
  set (mz := Z.pos q * 2 ^ (53 - d)).
  assert (Hmz : 2 ^ 52 <= mz < 2 ^ 53) by (unfold mz; nia).
  exists (Z.to_pos mz), d.
  assert (Hpos : Z.pos (Z.to_pos mz) = mz) by (apply Z2Pos.id; lia).
  split; [exact Hd|]. split; [exact Hb|]. split; [|split; [exact Hpos | lia]].
  unfold of_Z. cbn [binary_normalize]. unfold binary_round.
  fold d. rewrite Z.add_0_r, fexp_normal by lia.
  assert (Hal : shl_align q 0 (d - 53) = (Z.to_pos mz, d - 53)).
  { unfold shl_align. rewrite Z.sub_0_r.
    destruct (d - 53) as [|k|k] eqn:Hk; try lia.
    - f_equal. unfold mz. replace (53 - d) with 0 by lia.
      rewrite Z.mul_1_r. reflexivity.
    - f_equal. apply Pos2Z.inj. rewrite Hpos, pos_iter_xO. unfold mz.
      f_equal. f_equal. lia. }
  rewrite Hal.
  destruct (round_aux_near mz (d - 53) mz 1 0) as (m2 & E & Hn & Hm2);
    try lia.
  { rewrite (Zdigits2_unique mz 53) by (change (53 - 1) with 52; lia). lia. }
  { rewrite (Zdigits2_unique mz 53) by (change (53 - 1) with 52; lia). lia. }
  { rewrite (Zdigits2_unique mz 53) by (change (53 - 1) with 52; lia). lia. }
  rewrite (Zdigits2_unique mz 53) in E, Hn by (change (53 - 1) with 52; lia).
  change (location_of 0 1) with loc_Exact in E.
  rewrite Hpos, E. change (2 ^ (53 - 53)) with 1 in Hn.
  destruct Hn as [Hn _].
  assert (m2 = mz) by lia. subst m2.
  unfold normal53. destruct (Z.ltb_spec mz (2 ^ 53)); [|lia].
  f_equal. lia.
Qed.

Lemma mul_spec pa ea pb eb :
  2 ^ 52 <= Z.pos pa < 2 ^ 53 -> 2 ^ 52 <= Z.pos pb < 2 ^ 53 ->
  -1074 <= ea + eb + 52 -> ea + eb + 54 <= 971 ->
  exists m2 n,
    (n = 52 \/ n = 53) /\
    2 ^ (n + 52) <= Z.pos pa * Z.pos pb < 2 ^ (n + 53) /\
    mul (S754_finite false pa ea) (S754_finite false pb eb)
    = normal53 m2 (ea + eb + n) /\
    nearest_even (Z.pos pa * Z.pos pb) 1 (2 ^ n) m2 /\
    2 ^ 52 <= m2 <= 2 ^ 53.
Proof.
  intros Ha Hb He1 He2.
  set (P := Z.pos pa * Z.pos pb).
  assert (HP : 2 ^ 104 <= P < 2 ^ 106).
  { unfold P. change (2 ^ 104) with (2 ^ 52 * 2 ^ 52).
    change (2 ^ 106) with (2 ^ 53 * 2 ^ 53). nia. }
  assert (Hd : exists d, (d = 105 \/ d = 106) /\ 2 ^ (d - 1) <= P < 2 ^ d).
  { destruct (Z.lt_ge_cases P (2 ^ 105)).
    - exists 105. change (105 - 1) with 104. lia.
    - exists 106. change (106 - 1) with 105. lia. }
  destruct Hd as (d & Hd & Hdb).
  assert (Hdig : Zdigits2 P = d) by (apply Zdigits2_unique; lia).
  destruct (round_aux_near P (ea + eb) P 1 0) as (m2 & E & Hn & Hm2);
    try rewrite Hdig; try lia.
  rewrite Hdig in E, Hn.
  exists m2, (d - 53). split; [lia|]. split.
  { replace (d - 53 + 52) with (d - 1) by lia.
    replace (d - 53 + 53) with d by lia. exact Hdb. }
  split; [|split; [exact Hn | exact Hm2]].
  unfold mul. cbn [SFmul xorb]. rewrite <- E. reflexivity.
Qed.

Lemma div_spec pa ea pb eb :
  2 ^ 52 <= Z.pos pa < 2 ^ 53 -> 2 ^ 52 <= Z.pos pb < 2 ^ 53 ->
  -1074 <= ea - eb - 53 -> ea - eb - 52 <= 970 ->
  exists m2 n,
    (n = 0 \/ n = 1) /\ (n = 0 <-> Z.pos pa < Z.pos pb) /\
    div (S754_finite false pa ea) (S754_finite false pb eb)
    = normal53 m2 (ea - eb - 53 + n) /\
    nearest_even (Z.pos pa * 2 ^ 53) (Z.pos pb) (2 ^ n) m2 /\
    2 ^ 52 <= m2 <= 2 ^ 53.
Proof.
  intros Ha Hb He1 He2.
  set (A := Z.pos pa * 2 ^ 53).
  set (q := A / Z.pos pb). set (r := A mod Z.pos pb).
  assert (Hr : 0 <= r < Z.pos pb) by (apply Z.mod_pos_bound; lia).
  assert (HA : A = q * Z.pos pb + r).
  { unfold q, r. pose proof (Z.div_mod A (Z.pos pb) ltac:(lia)). lia. }
  assert (Hqn : (Z.pos pa < Z.pos pb -> q < 2 ^ 53) /\
                (Z.pos pb <= Z.pos pa -> 2 ^ 53 <= q)).
  { unfold A in HA. split; intro C.
    - destruct (Z.lt_ge_cases q (2 ^ 53)) as [|G]; [assumption|exfalso].
      assert (2 ^ 53 * Z.pos pb <= q * Z.pos pb)
        by (apply Z.mul_le_mono_nonneg_r; lia).
      assert (Z.pos pa * 2 ^ 53 < Z.pos pb * 2 ^ 53)
        by (apply Z.mul_lt_mono_pos_r; lia).
      lia.
    - destruct (Z.lt_ge_cases q (2 ^ 53)) as [G|]; [exfalso|assumption].
      assert (q * Z.pos pb <= (2 ^ 53 - 1) * Z.pos pb)
        by (apply Z.mul_le_mono_nonneg_r; lia).
      assert (Z.pos pb * 2 ^ 53 <= Z.pos pa * 2 ^ 53)
        by (apply Z.mul_le_mono_nonneg_r; lia).
      lia. }
  assert (Hq : 2 ^ 52 <= q < 2 ^ 54).
  { unfold A in HA. split.
    - destruct (Z.lt_ge_cases q (2 ^ 52)) as [G|]; [exfalso|assumption].
      assert (q * Z.pos pb <= (2 ^ 52 - 1) * Z.pos pb)
        by (apply Z.mul_le_mono_nonneg_r; lia).
      assert (2 ^ 52 * 2 ^ 53 <= Z.pos pa * 2 ^ 53)
        by (apply Z.mul_le_mono_nonneg_r; lia).
      assert ((2 ^ 52 - 1) * Z.pos pb + Z.pos pb = 2 ^ 52 * Z.pos pb) by ring.
      assert (2 ^ 52 * Z.pos pb < 2 ^ 52 * 2 ^ 53)
        by (apply Z.mul_lt_mono_pos_l; lia).
      lia.
    - destruct (Z.lt_ge_cases q (2 ^ 54)) as [|G]; [assumption|exfalso].
      assert (2 ^ 54 * Z.pos pb <= q * Z.pos pb)
        by (apply Z.mul_le_mono_nonneg_r; lia).
      assert (2 ^ 54 * 2 ^ 52 <= 2 ^ 54 * Z.pos pb)
        by (apply Z.mul_le_mono_nonneg_l; lia).
      assert (Z.pos pa * 2 ^ 53 < 2 ^ 53 * 2 ^ 53)
        by (apply Z.mul_lt_mono_pos_r; lia).
      change (2 ^ 54 * 2 ^ 52) with (2 ^ 53 * 2 ^ 53) in *. lia. }
  assert (Hd : exists d, (d = 53 \/ d = 54) /\ 2 ^ (d - 1) <= q < 2 ^ d /\
                         (d = 53 <-> Z.pos pa < Z.pos pb)).
  { destruct (Z.lt_ge_cases (Z.pos pa) (Z.pos pb)).
    - exists 53. change (53 - 1) with 52. lia.
    - exists 54. change (54 - 1) with 53. lia. }
  destruct Hd as (d & Hd & Hdb & Hdn).
  assert (Hdig : Zdigits2 q = d) by (apply Zdigits2_unique; lia).
  destruct (round_aux_near q (ea - eb - 53) A (Z.pos pb) r)
    as (m2 & E & Hn & Hm2); try rewrite Hdig; try lia.
  rewrite Hdig in E, Hn.
  exists m2, (d - 53). split; [lia|]. split; [lia|].
  split; [|split; [exact Hn | exact Hm2]].
  unfold div. cbn [SFdiv xorb]. unfold SFdiv_core_binary.
  assert (Hpa : Zdigits2 (Z.pos pa) = 53)
    by (apply Zdigits2_unique; change (53 - 1) with 52; lia).
  assert (Hpb : Zdigits2 (Z.pos pb) = 53)
    by (apply Zdigits2_unique; change (53 - 1) with 52; lia).
  rewrite Hpa, Hpb.
  replace (53 + ea - (53 + eb)) with (ea - eb) by lia.
  rewrite fexp_normal by lia.
  rewrite Z.min_l by lia.
  replace (ea - eb - (ea - eb - 53)) with 53 by lia.
  cbv beta iota zeta.
  change (Z.shiftl (Z.pos pa) 53) with (Z.shiftl (Z.pos pa) 53).
  rewrite Z.shiftl_mul_pow2 by lia. fold A.
  assert (Hde : Z.div_eucl A (Z.pos pb) = (q, r)).
  { unfold q, r, Z.div, Z.modulo. destruct (Z.div_eucl A (Z.pos pb)). reflexivity. }
  rewrite Hde. rewrite new_location_spec by lia.
  rewrite <- E. reflexivity.
Qed.

(** ** The hour duration: a twelfth of the period, rounded *)

Lemma of_Z_12 : of_Z 12 = S754_finite false (Z.to_pos (3 * 2 ^ 51)) (-49).
Proof. reflexivity. Qed.

Lemma normal53_finite m e :
  2 ^ 52 <= m < 2 ^ 53 -> normal53 m e = S754_finite false (Z.to_pos m) e.
Proof.
  intro H. unfold normal53. destruct (Z.ltb_spec m (2 ^ 53)); [reflexivity|lia].
Qed.

(** The mantissa of a positive integer below 2^32 is a multiple of 2^21. *)
Lemma hour_duration_spec D :
  1 <= D < 2 ^ 32 ->
  exists MD dD mh n delta,
    1 <= dD <= 32 /\ MD = D * 2 ^ (53 - dD) /\ 2 ^ 52 <= MD < 2 ^ 53 /\
    of_Z D = S754_finite false (Z.to_pos MD) (dD - 53) /\
    (n = 0 \/ n = 1) /\ 2 ^ 52 <= mh < 2 ^ 53 /\
    div (of_Z D) (of_Z 12) = S754_finite false (Z.to_pos mh) (dD - 57 + n) /\
    3 * mh * 2 ^ n = 4 * MD + delta /\ -2 <= delta <= 2 /\
    (n = 0 -> -1 <= delta <= 1) /\
    (D mod 3 = 0 -> delta = 0).
Proof.
  intro HD.
  destruct (of_Z_pos D) as (pD & dD & Hd & Hb & EofZ & HpD & HMD).
  { change (2 ^ 53) with 9007199254740992. change (2 ^ 32) with 4294967296 in HD.
    lia. }
  assert (HdD : dD <= 32).
  { destruct (Z.le_gt_cases dD 32) as [C|C]; [exact C|exfalso].
    assert (2 ^ 32 <= 2 ^ (dD - 1)) by (apply Z.pow_le_mono_r; lia). lia. }
  set (MD := D * 2 ^ (53 - dD)) in *.
  assert (Hto : Z.to_pos MD = pD) by (rewrite <- HpD; apply Pos2Z.id).
  assert (Hp3 : Z.pos (Z.to_pos (3 * 2 ^ 51)) = 3 * 2 ^ 51) by reflexivity.
  assert (H12 : 2 ^ 52 <= Z.pos (Z.to_pos (3 * 2 ^ 51)) < 2 ^ 53)
    by (rewrite Hp3; split; [discriminate|reflexivity]).
  destruct (div_spec pD (dD - 53) (Z.to_pos (3 * 2 ^ 51)) (-49))
    as (mh & n & Hn & Hn0 & Ediv & Hnear & Hmh); [lia|exact H12|lia|lia|].
  rewrite Hp3, HpD in *.
  (* the mantissa is even, so is four times it *)
  assert (Heven : exists c, MD = 2 ^ 21 * c).
  { exists (D * 2 ^ (32 - dD)). unfold MD.
    replace (53 - dD) with (21 + (32 - dD)) by lia.
    rewrite Z.pow_add_r by lia. ring. }
  destruct Heven as [c Hc].
  destruct Hnear as [Hle Htie].
  assert (Hle' : 2 * Z.abs (4 * MD - 3 * mh * 2 ^ n) <= 3 * 2 ^ n).
  { change (2 ^ 53) with (4 * 2 ^ 51) in Hle.
    assert (E : MD * (4 * 2 ^ 51) - mh * 2 ^ n * (3 * 2 ^ 51)
                = 2 ^ 51 * (4 * MD - 3 * mh * 2 ^ n)) by ring.
    rewrite E, Z.abs_mul in Hle.
    change (Z.abs (2 ^ 51)) with (2 ^ 51) in Hle.
    assert (0 < 2 ^ 51) by reflexivity.
    assert (E2 : 2 ^ n * (3 * 2 ^ 51) = 2 ^ 51 * (3 * 2 ^ n)) by ring.
    rewrite E2 in Hle. nia. }
  set (delta := 3 * mh * 2 ^ n - 4 * MD).
  assert (Hdelta : -2 <= delta <= 2 /\ (n = 0 -> -1 <= delta <= 1)).
  { unfold delta. destruct Hn as [-> | ->].
    - change (2 ^ 0) with 1 in *. lia.
    - change (2 ^ 1) with 2 in *. change (2 ^ 21) with 2097152 in Hc. lia. }
  assert (Hmh53 : mh < 2 ^ 53).
  { destruct Hn as [-> | ->].
    - assert (MD < 3 * 2 ^ 51) by (apply Hn0; reflexivity).
      change (2 ^ 0) with 1 in *. unfold delta in Hdelta.
      change (2 ^ 53) with 9007199254740992.
      change (2 ^ 51) with 2251799813685248 in *. lia.
    - change (2 ^ 1) with 2 in *. unfold delta in Hdelta.
      change (2 ^ 53) with 9007199254740992 in *. lia. }
  exists MD, dD, mh, n, delta.
  split; [lia|]. split; [reflexivity|]. split; [exact HMD|].
  split; [rewrite Hto; exact EofZ|]. split; [exact Hn|]. split; [lia|].
  split.
  { rewrite EofZ, of_Z_12, Ediv.
    rewrite normal53_finite by lia. f_equal. lia. }
  split; [unfold delta; lia|]. split; [lia|]. split; [tauto|].
  intro H3.
  assert (HMD3 : MD mod 3 = 0).
  { unfold MD. rewrite <- Z.mul_mod_idemp_l, H3 by lia. reflexivity. }
  unfold delta in *. destruct Hn as [-> | ->].
  - change (2 ^ 0) with 1 in *. Z.div_mod_to_equations. lia.
  - change (2 ^ 1) with 2 in *. change (2 ^ 21) with 2097152 in Hc.
    Z.div_mod_to_equations. lia.
Qed.

Lemma nearest_even_scale A B U m c :
  0 < c -> nearest_even (A * c) B (U * c) m -> nearest_even A B U m.
Proof.
  intros Hc [H T].
  assert (E : A * c - m * (U * c) * B = c * (A - m * U * B)) by ring.
  rewrite E, Z.abs_mul, (Z.abs_eq c) in * by lia.
  split.
  - nia.
  - intro H2. apply T. nia.
Qed.

(** Truncation of a rounded value, in units of [2^-c]. *)
Lemma trunc_normal53 m e k c :
  2 ^ 52 <= m <= 2 ^ 53 -> 0 <= k -> e = k - c -> k < c ->
  trunc_Z (normal53 m e) = Some ((m * 2 ^ k) / 2 ^ c).
Proof.
  intros Hm Hk -> Hkc. unfold normal53.
  assert (Hc : 2 ^ c = 2 ^ (c - k) * 2 ^ k)
    by (rewrite <- Z.pow_add_r by lia; f_equal; lia).
  assert (0 < 2 ^ k) by (apply Z.pow_pos_nonneg; lia).
  assert (0 < 2 ^ (c - k)) by (apply Z.pow_pos_nonneg; lia).
  destruct (Z.ltb_spec m (2 ^ 53)) as [L|L]; cbn [trunc_Z signed].
  - destruct (Z.leb_spec 0 (k - c)); [lia|].
    rewrite Z2Pos.id by lia.
    replace (- (k - c)) with (c - k) by lia.
    rewrite Z.quot_div_nonneg by lia.
    rewrite Hc, Z.div_mul_cancel_r by lia. reflexivity.
  - assert (m = 2 ^ 53) by lia. subst m.
    destruct (Z.leb_spec 0 (k - c + 1)).
    + assert (c = k + 1) by lia. subst c.
      replace (k - (k + 1) + 1) with 0 by lia.
      replace (k + 1 - k) with 1 in * by lia.
      rewrite Hc, Z.div_mul_cancel_r by lia. reflexivity.
    + replace (- (k - c + 1)) with (c - k - 1) by lia.
      rewrite Z.quot_div_nonneg;
        [|discriminate|apply Z.pow_pos_nonneg; lia].
      rewrite Hc, Z.div_mul_cancel_r by lia.
      assert (E : 2 ^ (c - k) = 2 ^ (c - k - 1) * 2).
      { change 2 with (2 ^ 1) at 3. rewrite <- Z.pow_add_r by lia.
        f_equal. lia. }
      rewrite E. change (2 ^ 53) with (2 ^ 52 * 2).
      assert (0 < 2 ^ (c - k - 1)) by (apply Z.pow_pos_nonneg; lia).
      rewrite Z.div_mul_cancel_r by lia. reflexivity.
Qed.

(** The product of a small positive integer with a normal double. *)
Lemma small_product_spec i mh eh :
  1 <= i < 16 -> 2 ^ 52 <= mh < 2 ^ 53 -> -1000 <= eh <= 800 ->
  exists k m,
    0 <= k <= 4 /\
    mul (of_Z i) (S754_finite false (Z.to_pos mh) eh) = normal53 m (eh + k) /\
    nearest_even (i * mh) 1 (2 ^ k) m /\ 2 ^ 52 <= m <= 2 ^ 53.
Proof.
  intros Hi Hmh Heh.
  destruct (of_Z_pos i) as (p & d & Hd & Hb & E & Hp & Hpr).
  { change (2 ^ 53) with 9007199254740992. lia. }
  assert (Hd4 : d <= 4).
  { destruct (Z.le_gt_cases d 4) as [C|C]; [exact C|exfalso].
    assert (2 ^ 4 <= 2 ^ (d - 1)) by (apply Z.pow_le_mono_r; lia).
    change (2 ^ 4) with 16 in *. lia. }
  assert (Hph : Z.pos (Z.to_pos mh) = mh) by (apply Z2Pos.id; lia).
  destruct (mul_spec p (d - 53) (Z.to_pos mh) eh)
    as (m & n & Hn & Hrange & Emul & Hnear & Hm); [lia|lia|lia|lia|].
  rewrite Hph, Hp in *.
  exists (d - 53 + n), m.
  split; [lia|]. split.
  { rewrite E, Emul. f_equal. lia. }
  split; [|exact Hm].
  apply (nearest_even_scale _ _ _ _ (2 ^ (53 - d))).
  { apply Z.pow_pos_nonneg; lia. }
  replace (i * mh * 2 ^ (53 - d)) with (i * 2 ^ (53 - d) * mh) by ring.
  replace (2 ^ (d - 53 + n) * 2 ^ (53 - d)) with (2 ^ n); [exact Hnear|].
  rewrite <- Z.pow_add_r by lia. f_equal. lia.
Qed.

Section HourDuration.

Variables D MD dD mh n delta : Z.
Hypothesis HD : 1 <= D < 2 ^ 32.
Hypothesis HdD : 1 <= dD <= 32.
Hypothesis HMD : MD = D * 2 ^ (53 - dD).
Hypothesis HMDr : 2 ^ 52 <= MD < 2 ^ 53.
Hypothesis Hn : n = 0 \/ n = 1.
Hypothesis Hmh : 2 ^ 52 <= mh < 2 ^ 53.
Hypothesis Hdelta : 3 * mh * 2 ^ n = 4 * MD + delta.
Hypothesis Hdr : -2 <= delta <= 2.
Hypothesis Hd0 : n = 0 -> -1 <= delta <= 1.
Hypothesis Hd3 : D mod 3 = 0 -> delta = 0.

Local Abbreviation hd := (S754_finite false (Z.to_pos mh) (dD - 57 + n)).
Local Abbreviation h := (2 ^ (57 - dD - n)).

Lemma unit_large : 2 ^ 24 <= h.
Proof. apply Z.pow_le_mono_r; lia. Qed.

Lemma period_in_units :
  exists d2, D * h = 12 * mh - d2 /\ -4 <= d2 <= 4 /\
             (D mod 3 = 0 -> d2 = 0).
Proof.
  assert (E : D * h = MD * 2 ^ (4 - n)).
  { rewrite HMD, <- Z.mul_assoc, <- Z.pow_add_r by lia. do 2 f_equal. lia. }
  destruct Hn as [-> | ->].
  - exists (4 * delta). change (2 ^ (4 - 0)) with 16 in E.
    change (2 ^ 0) with 1 in *. specialize (Hd0 eq_refl). lia.
  - exists (2 * delta). change (2 ^ (4 - 1)) with 8 in E.
    change (2 ^ 1) with 2 in *. lia.
Qed.

Lemma period_multiple_of_16 : exists c, D * h = 2 ^ 5 * c.
Proof.
  exists (D * 2 ^ (52 - dD - n)). 
  replace (57 - dD - n) with (5 + (52 - dD - n)) by lia.
  rewrite Z.pow_add_r by lia. ring.
Qed.

(** The products [i * hour_duration], in units of [1/h]. *)
Lemma sub_hour_product i :
  0 <= i <= 12 ->
  exists W, 0 <= W /\ -8 <= i * mh - W <= 8 /\
    (i = 0 -> W = 0) /\ (i = 12 -> W = D * h) /\
    trunc_Z (mul (of_Z i) hd) = Some (W / h).
Proof.
  intro Hi.
  destruct (Z.eq_dec i 0) as [-> | Hi0].
  { exists 0. repeat split; try lia. }
  destruct (small_product_spec i mh (dD - 57 + n))
    as (k & m & Hk & Emul & Hnear & Hm); [lia|lia|lia|].
  assert (Hpk : 1 <= 2 ^ k <= 16).
  { split.
    - change 1 with (2 ^ 0). apply Z.pow_le_mono_r; lia.
    - change 16 with (2 ^ 4). apply Z.pow_le_mono_r; lia. }
  assert (Htr : trunc_Z (mul (of_Z i) hd) = Some ((m * 2 ^ k) / h)).
  { rewrite Emul. apply trunc_normal53; lia. }
  destruct (Z.eq_dec i 12) as [-> | Hi12].
  - (* twelve twelfths give the period back *)
    destruct period_in_units as (d2 & Ed2 & Hd2 & _).
    destruct period_multiple_of_16 as (c & Ec).
    change (2 ^ 5) with 32 in Ec.
    assert (Hk3 : 3 <= k).
    { destruct Hnear as [Hle _]. rewrite !Z.mul_1_r in Hle.
      change (2 ^ 52) with 4503599627370496 in *.
      change (2 ^ 53) with 9007199254740992 in *.
      assert (k = 0 \/ k = 1 \/ k = 2 \/ 3 <= k) as [->|[->|[->|C]]] by lia;
        [change (2 ^ 0) with 1 in *; lia
        |change (2 ^ 1) with 2 in *; lia
        |change (2 ^ 2) with 4 in *; lia
        |exact C]. }
    assert (Hk34 : k = 3 \/ k = 4) by lia.
    assert (Em : m * 2 ^ k = D * h).
    { assert (Hc : exists c', D * h = c' * 2 ^ k /\ Z.even c' = true).
      { destruct Hk34 as [-> | ->].
        - exists (2 * (2 * c)). split; [change (2 ^ 3) with 8; lia|].
          rewrite Z.even_mul. reflexivity.
        - exists (2 * c). split; [change (2 ^ 4) with 16; lia|].
          rewrite Z.even_mul. reflexivity. }
      destruct Hc as (c' & Ec' & Hev).
      rewrite Ec'. f_equal.
      apply (nearest_even_unique (12 * mh) 1 (2 ^ k)); [lia|lia|exact Hnear|].
      split.
      + rewrite Z.mul_1_r, <- Ec'.
        destruct Hk34 as [-> | ->];
          [change (2 ^ 3) with 8|change (2 ^ 4) with 16]; lia.
      + intros _. exact Hev. }
    exists (D * h). split; [pose proof unit_large; nia|].
    split; [lia|]. split; [lia|]. split; [reflexivity|].
    rewrite Htr, Em. reflexivity.
  - exists (m * 2 ^ k). destruct Hnear as [Hle _]. rewrite !Z.mul_1_r in Hle.
    split; [nia|]. split; [lia|]. split; [lia|]. split; [lia|].
    exact Htr.
Qed.

End HourDuration.

(** ** The index of the target *)

Lemma pow2_split t a : 0 <= a -> 0 <= t -> t <= a \/ a + 1 <= t ->
  (t <= a /\ 2 ^ t <= 2 ^ a) \/ (a + 1 <= t /\ 2 * 2 ^ a <= 2 ^ t).
Proof.
  intros Ha Ht [H|H].
  - left. split; [exact H|]. apply Z.pow_le_mono_r; lia.
  - right. split; [exact H|].
    replace (2 * 2 ^ a) with (2 ^ (a + 1)) by (rewrite Z.pow_add_r by lia; ring).
    apply Z.pow_le_mono_r; lia.
Qed.

(** The quotient cannot reach the next index. *)
Lemma index_upper x D j mh hh s G mq d2 :
  1 <= x < 2 ^ 32 -> 0 <= j <= 11 -> 12 * x < (j + 1) * D ->
  2 ^ 52 <= mh < 2 ^ 53 -> 2 ^ 24 <= hh ->
  D * hh = 12 * mh - d2 -> -4 <= d2 <= 4 ->
  0 < s -> 1 <= G <= 2 -> 2 ^ 52 <= mq ->
  2 * Z.abs (x * s * hh - mq * G * mh) <= G * mh ->
  mq * G < (j + 1) * s.
Proof.
  intros Hx Hj Hlt Hmh Hhh HD Hd2 Hs HG Hmq Hle.
  destruct (Z.lt_ge_cases (mq * G) ((j + 1) * s)) as [C|C]; [exact C|exfalso].
  change (2 ^ 52) with 4503599627370496 in *.
  change (2 ^ 53) with 9007199254740992 in *.
  change (2 ^ 32) with 4294967296 in *.
  change (2 ^ 24) with 16777216 in *.
  set (P := G * mh) in *.
  assert (HP : 0 < P) by (unfold P; nia).
  set (Q := s * hh).
  assert (HQ : 0 < Q) by (unfold Q; nia).
  assert (EQ : x * s * hh = x * Q) by (unfold Q; ring).
  assert (EM : mq * G * mh = mq * P) by (unfold P; ring).
  rewrite EQ, EM in Hle.
  assert (H1 : (j + 1) * s * mh <= mq * P).
  { unfold P. replace (mq * (G * mh)) with (mq * G * mh) by ring.
    apply Z.mul_le_mono_nonneg_r; lia. }
  assert (H2 : 12 * ((j + 1) * s * mh - x * Q)
               = s * (hh * ((j + 1) * D - 12 * x) + (j + 1) * d2)).
  { unfold Q.
    replace (12 * ((j + 1) * s * mh - x * (s * hh)))
      with (s * ((j + 1) * (12 * mh) - 12 * x * hh)) by ring.
    replace (12 * mh) with (D * hh + d2) by lia. ring. }
  assert (H3 : hh - 48 <= hh * ((j + 1) * D - 12 * x) + (j + 1) * d2) by nia.
  assert (H4 : s * (hh - 48) <= 12 * ((j + 1) * s * mh - x * Q)).
  { rewrite H2. apply Z.mul_le_mono_nonneg_l; lia. }
  assert (H5 : Q <= 2 * (s * (hh - 48))) by (unfold Q; nia).
  assert (H6 : Q <= 12 * P) by lia.
  assert (H7 : 9007199254740991 * P <= 2 * (x * Q)).
  { assert (4503599627370496 * P <= mq * P)
      by (apply Z.mul_le_mono_nonneg_r; lia). lia. }
  assert (H8 : x * Q <= x * (12 * P))
    by (apply Z.mul_le_mono_nonneg_l; lia).
  assert (H9 : x * (12 * P) <= 4294967296 * (12 * P))
    by (apply Z.mul_le_mono_nonneg_r; lia).
  lia.
Qed.

(** The quotient cannot fall below the index. *)
Lemma index_lower x D j mh hh t nq mq d2 :
  1 <= x < 2 ^ 32 -> 0 <= j <= 11 -> j * D <= 12 * x ->
  2 ^ 52 <= mh < 2 ^ 53 -> 2 ^ 24 <= hh ->
  D * hh = 12 * mh - d2 -> -4 <= d2 <= 4 -> (D mod 3 = 0 -> d2 = 0) ->
  18 <= t <= 200 -> nq = 0 \/ nq = 1 -> 2 ^ 52 <= mq <= 2 ^ 53 ->
  nearest_even (x * 2 ^ t * hh) mh (2 ^ nq) mq ->
  j * 2 ^ t <= mq * 2 ^ nq.
Proof.
  intros Hx Hj Hge Hmh Hhh HD Hd2 Hd3 Ht Hnq Hmq [Hle Htie].
  destruct (Z.le_gt_cases (j * 2 ^ t) (mq * 2 ^ nq)) as [C|C];
    [exact C|exfalso].
  assert (Hs2 : exists s2, 2 ^ t = 2 ^ nq * (2 * s2) /\ 0 < s2).
  { exists (2 ^ (t - nq - 1)). split.
    - replace t with (nq + (1 + (t - nq - 1))) at 1 by lia.
      rewrite !Z.pow_add_r by lia. reflexivity.
    - apply Z.pow_pos_nonneg; lia. }
  destruct Hs2 as (s2 & Es & Hs2).
  assert (HG : 1 <= 2 ^ nq <= 2) by (destruct Hnq as [-> | ->]; cbn; lia).
  set (G := 2 ^ nq) in *.
  set (s := 2 ^ t) in *.
  assert (Hmq1 : mq <= j * (2 * s2) - 1).
  { rewrite Es in C. nia. }
  set (P := G * mh) in *.
  assert (HP : 0 < P) by (unfold P; nia).
  set (Q := s * hh).
  assert (EQ : x * s * hh = x * Q) by (unfold Q; ring).
  assert (EM : mq * G * mh = mq * P) by (unfold P; ring).
  rewrite EQ, EM in Hle, Htie.
  assert (Hj1 : 1 <= j) by nia.
  assert (EjP : j * s * mh = j * (2 * s2) * P) by (unfold P; rewrite Es; ring).
  assert (H1 : mq * P <= j * s * mh - P).
  { rewrite EjP.
    replace (j * (2 * s2) * P - P) with ((j * (2 * s2) - 1) * P) by ring.
    apply Z.mul_le_mono_nonneg_r; lia. }
  assert (H2 : 12 * (x * Q - j * s * mh)
               = s * (hh * (12 * x - j * D) - j * d2)).
  { unfold Q.
    replace (12 * (x * (s * hh) - j * s * mh))
      with (s * (12 * x * hh - j * (12 * mh))) by ring.
    replace (12 * mh) with (D * hh + d2) by lia. ring. }
  assert (Hs : 0 < s) by (apply Z.pow_pos_nonneg; lia).
  assert (H3 : s * (hh * (12 * x - j * D) - j * d2) <= - 6 * P) by lia.
  destruct (Z.eq_dec (12 * x) (j * D)) as [E0|N0].
  2:{ assert (0 < hh * (12 * x - j * D) - j * d2).
      { change (2 ^ 24) with 16777216 in *. nia. }
      nia. }
  rewrite E0, Z.sub_diag, Z.mul_0_r, Z.sub_0_l in H3.
  assert (H4 : 6 * P <= s * (j * d2)) by lia.
  assert (Hd2pos : 1 <= d2) by nia.
  assert (HD3 : D mod 3 <> 0) by (intro A; specialize (Hd3 A); lia).
  assert (Hj3 : j = 3 \/ j = 6 \/ j = 9).
  { assert (j = 1 \/ j = 2 \/ j = 3 \/ j = 4 \/ j = 5 \/ j = 6 \/ j = 7 \/
            j = 8 \/ j = 9 \/ j = 10 \/ j = 11) as J by lia.
    clear - J E0 HD3.
    repeat (destruct J as [J|J]; [subst j; try tauto;
            exfalso; apply HD3; Z.div_mod_to_equations; lia|]).
    subst j. exfalso; apply HD3; Z.div_mod_to_equations; lia. }
  (* an upper estimate of the quotient *)
  assert (H5 : 2 * (x * Q) <= (2 * 2 ^ 53 + 1) * P).
  { assert (mq * P <= 2 ^ 53 * P) by (apply Z.mul_le_mono_nonneg_r; lia).
    lia. }
  assert (H6 : 12 * (x * Q) = s * j * (12 * mh - d2)).
  { unfold Q. rewrite <- HD.
    replace (12 * (x * (s * hh))) with (12 * x * (s * hh)) by ring.
    rewrite E0. ring. }
  assert (H7 : s * j * (12 * mh - d2) <= 6 * (2 * 2 ^ 53 + 1) * P) by lia.
  assert (Hsj : s * j <= 3 * 2 ^ 51 * G).
  { assert (Ha : exists a, 0 <= a <= 51 /\
                   j * 2 ^ a = (if j =? 9 then 9 else 12) * 2 ^ 49).
    { destruct Hj3 as [-> | [-> | ->]];
        [exists 51|exists 50|exists 49]; cbn; lia. }
    destruct Ha as (a & Ha0 & Ea).
    assert (Epow : 2 ^ (a + nq) = 2 ^ a * G)
      by (unfold G; rewrite Z.pow_add_r by lia; ring).
    destruct (pow2_split t (a + nq)) as [[L1 L2]|[L1 L2]]; [lia|lia|lia| |].
    - fold s in L2. rewrite Epow in L2.
      assert (M1 : s * j <= 2 ^ a * G * j)
        by (apply Z.mul_le_mono_nonneg_r; lia).
      replace (2 ^ a * G * j) with (j * 2 ^ a * G) in M1 by ring.
      rewrite Ea in M1.
      change (2 ^ 49) with 562949953421312 in *.
      change (2 ^ 51) with 2251799813685248.
      destruct (j =? 9); lia.
    - exfalso. fold s in L2. rewrite Epow in L2.
      assert (M1 : 2 * (2 ^ a * G) * j <= s * j)
        by (apply Z.mul_le_mono_nonneg_r; lia).
      replace (2 * (2 ^ a * G) * j) with (j * 2 ^ a * (2 * G)) in M1 by ring.
      assert (M2 : 9 * 2 ^ 50 * G <= s * j).
      { rewrite Ea in M1. change (2 ^ 49) with 562949953421312 in *.
        change (2 ^ 50) with 1125899906842624 in *.
        destruct (j =? 9); lia. }
      assert (M3 : 9 * 2 ^ 50 * G * (12 * mh - d2) <= s * j * (12 * mh - d2))
        by (apply Z.mul_le_mono_nonneg_r; lia).
      unfold P in H7.
      change (2 ^ 50) with 1125899906842624 in *.
      change (2 ^ 52) with 4503599627370496 in *.
      change (2 ^ 53) with 9007199254740992 in *.
      clear - M3 H7 Hmh Hd2 HG. nia. }
  assert (H8 : s * (j * d2) <= 6 * P).
  { unfold P. change (2 ^ 51) with 2251799813685248 in *.
    change (2 ^ 52) with 4503599627370496 in *.
    assert (M1 : s * j * d2 <= s * j * 4)
      by (apply Z.mul_le_mono_nonneg_l; [apply Z.mul_nonneg_nonneg|]; lia).
    assert (M2 : 4503599627370496 * G <= mh * G)
      by (apply Z.mul_le_mono_nonneg_r; lia).
    lia. }
  assert (H9 : s * (j * d2) = 6 * P) by lia.
  assert (Htie' : 2 * Z.abs (x * Q - mq * P) = P) by lia.
  assert (Hev : Z.even mq = true).
  { apply Htie. rewrite Htie'. unfold P. ring. }
  assert (Hmq2 : mq * P = (j * (2 * s2) - 1) * P) by lia.
  assert (Hmq3 : mq = 2 * (j * s2) - 1).
  { apply (Z.mul_reg_r _ _ P); [lia|]. rewrite Hmq2. ring. }
  rewrite Hmq3 in Hev.
  replace (2 * (j * s2) - 1) with (1 + 2 * (j * s2 - 1)) in Hev by ring.
  rewrite Z.even_add_mul_2 in Hev. discriminate.
Qed.

Lemma floor_normal53 m e k c :
  2 ^ 52 <= m <= 2 ^ 53 -> 0 <= k -> e = k - c -> k < c ->
  floor_Z (normal53 m e) = Some ((m * 2 ^ k) / 2 ^ c).
Proof.
  intros Hm Hk He Hkc.
  rewrite <- (trunc_normal53 m e k c Hm Hk He Hkc).
  unfold normal53.
  assert (Q : forall p z, 0 < z -> Z.quot (Z.pos p) z = Z.pos p / z)
    by (intros; apply Z.quot_div_nonneg; lia).
  destruct (m <? 2 ^ 53); cbn [floor_Z trunc_Z signed];
    match goal with |- context [0 <=? ?a] => destruct (0 <=? a) end;
    try reflexivity; rewrite Q; try reflexivity; apply Z.pow_pos_nonneg; lia.
Qed.

Lemma index_of_target D x :
  1 <= D < 2 ^ 32 -> 0 <= x < D ->
  floor_Z (div (of_Z x) (div (of_Z D) (of_Z 12))) = Some (12 * x / D).
Proof.
  intros HD Hx.
  destruct (hour_duration_spec D HD)
    as (MD & dD & mh & n & delta & HdD & HMD & HMDr & EofZ & Hn & Hmh & Ediv
        & Hdelta & Hdr & Hd0 & Hd3).
  rewrite Ediv.
  destruct (Z.eq_dec x 0) as [-> | Hx0].
  { reflexivity. }
  destruct (of_Z_pos x) as (px & dx & Hdx & Hbx & Ex & Hpx & Hpxr).
  { change (2 ^ 53) with 9007199254740992. change (2 ^ 32) with 4294967296 in *.
    lia. }
  assert (Hdx32 : dx <= 32).
  { destruct (Z.le_gt_cases dx 32) as [C|C]; [exact C|exfalso].
    assert (2 ^ 32 <= 2 ^ (dx - 1)) by (apply Z.pow_le_mono_r; lia). lia. }
  assert (Hph : Z.pos (Z.to_pos mh) = mh) by (apply Z2Pos.id; lia).
  destruct (div_spec px (dx - 53) (Z.to_pos mh) (dD - 57 + n))
    as (mq & nq & Hnq & _ & Eq & Hnear & Hmq); [lia|lia|lia|lia|].
  rewrite Hph, Hpx in Hnear.
  destruct (period_in_units D MD dD mh n delta HdD HMD Hn Hdelta Hdr Hd0 Hd3)
    as (d2 & Ed2 & Hd2 & Hd23).
  pose proof (unit_large dD n HdD Hn) as Hh.
  set (h := 2 ^ (57 - dD - n)) in *.
  set (t := 49 + dD + n - dx).
  assert (Ht : 18 <= t <= 200) by (unfold t; lia).
  assert (Epow : 2 ^ (53 - dx) * 2 ^ 53 = 2 ^ t * h).
  { unfold h, t. rewrite <- !Z.pow_add_r by lia. f_equal. lia. }
  assert (Hnear' : nearest_even (x * 2 ^ t * h) mh (2 ^ nq) mq).
  { replace (x * 2 ^ t * h) with (x * 2 ^ (53 - dx) * 2 ^ 53);
      [exact Hnear|]. rewrite <- !Z.mul_assoc, Epow. reflexivity. }
  set (j := 12 * x / D).
  assert (Hj : j * D <= 12 * x < (j + 1) * D).
  { unfold j. split.
    - rewrite Z.mul_comm. apply Z.mul_div_le; lia.
    - pose proof (Z.mul_succ_div_gt (12 * x) D ltac:(lia)). lia. }
  assert (Hj11 : 0 <= j <= 11).
  { split.
    - apply Z.div_pos; lia.
    - assert (j < 12); [apply Z.div_lt_upper_bound|]; lia. }
  rewrite Ex, Eq.
  rewrite (floor_normal53 mq _ nq t Hmq); [| lia | unfold t; lia | lia].
  f_equal. fold j.
  assert (Hs : 0 < 2 ^ t) by (apply Z.pow_pos_nonneg; lia).
  assert (HG : 1 <= 2 ^ nq <= 2) by (destruct Hnq as [-> | ->]; cbn; lia).
  pose proof (index_lower x D j mh h t nq mq d2
                ltac:(lia) Hj11 ltac:(lia) Hmh Hh Ed2 Hd2 Hd23 Ht Hnq Hmq
                Hnear') as L.
  destruct Hnear' as [Hle _].
  pose proof (index_upper x D j mh h (2 ^ t) (2 ^ nq) mq d2
                ltac:(lia) Hj11 ltac:(lia) Hmh Hh Ed2 Hd2 Hs HG ltac:(lia)
                Hle) as U.
  symmetry. apply Z.div_unique with (mq * 2 ^ nq - j * 2 ^ t); lia.
Qed.

(** The twelve boundaries: defined, increasing, from 0 to the period. *)
Lemma sub_hour_bounds D :
  1 <= D < 2 ^ 32 ->
  exists W h, 0 < h /\ W 0 = 0 /\ W 12 = D * h /\
    (forall i, 0 <= i < 12 -> W i <= W (i + 1)) /\
    forall i, 0 <= i <= 12 ->
      0 <= W i /\
      u32_of_double (mul (of_Z i) (div (of_Z D) (of_Z 12))) = Some (W i / h).
Proof.
  intro HD.
  destruct (hour_duration_spec D HD)
    as (MD & dD & mh & n & delta & HdD & HMD & HMDr & EofZ & Hn & Hmh & Ediv
        & Hdelta & Hdr & Hd0 & Hd3).
  rewrite Ediv.
  pose proof (unit_large dD n HdD Hn) as Hh.
  pose proof (sub_hour_product D MD dD mh n delta HdD HMD HMDr Hn Hmh Hdelta
                Hdr Hd0 Hd3) as HW.
  set (h := 2 ^ (57 - dD - n)) in *.
  assert (Hh0 : 0 < h) by (change (2 ^ 24) with 16777216 in Hh; lia).
  assert (Hex : exists W : Z -> Z, forall i, 0 <= i <= 12 ->
            0 <= W i /\ -8 <= i * mh - W i <= 8 /\
            (i = 0 -> W i = 0) /\ (i = 12 -> W i = D * h) /\
            trunc_Z (mul (of_Z i)
              (S754_finite false (Z.to_pos mh) (dD - 57 + n)))
            = Some (W i / h)).
  { assert (Hn' : forall k : nat, exists W : Z -> Z,
              forall i, 0 <= i < Z.of_nat k -> i <= 12 ->
                0 <= W i /\ -8 <= i * mh - W i <= 8 /\
                (i = 0 -> W i = 0) /\ (i = 12 -> W i = D * h) /\
                trunc_Z (mul (of_Z i)
                  (S754_finite false (Z.to_pos mh) (dD - 57 + n)))
                = Some (W i / h)).
    { induction k as [|k [W IH]].
      - exists (fun _ => 0). intros i Hi. lia.
      - destruct (Z_le_gt_dec (Z.of_nat k) 12) as [Hk|Hk].
        + destruct (HW (Z.of_nat k) ltac:(lia)) as (w & Hw).
          exists (fun i => if i =? Z.of_nat k then w else W i).
          intros i Hi Hi12.
          destruct (Z.eqb_spec i (Z.of_nat k)) as [-> | Hne].
          * exact Hw.
          * apply IH; lia.
        + exists W. intros i Hi Hi12. apply IH; lia. }
    destruct (Hn' 13%nat) as [W HWW].
    exists W. intros i Hi. apply HWW; lia. }
  destruct Hex as [W HWW].
  exists W, h.
  split; [exact Hh0|].
  split; [apply (HWW 0); lia|].
  split; [apply (HWW 12); lia|].
  assert (Hmono : forall i, 0 <= i < 12 -> W i <= W (i + 1)).
  { intros i Hi.
    destruct (HWW i ltac:(lia)) as (_ & B1 & _).
    destruct (HWW (i + 1) ltac:(lia)) as (_ & B2 & _).
    change (2 ^ 52) with 4503599627370496 in Hmh. lia. }
  split; [exact Hmono|].
  intros i Hi.
  destruct (HWW i Hi) as (P0 & B & _ & _ & Etr).
  split; [exact P0|].
  unfold u32_of_double. rewrite Etr. unfold in_range.
  assert (Hle12 : W i <= D * h).
  { destruct (HWW 12 ltac:(lia)) as (_ & B12 & _ & E12 & _).
    rewrite <- E12 by reflexivity.
    destruct (Z.eq_dec i 12) as [-> | Hne]; [lia|].
    assert (i * mh <= 11 * mh) by (apply Z.mul_le_mono_nonneg_r; lia).
    change (2 ^ 52) with 4503599627370496 in Hmh. lia. }
  assert (0 <= W i / h) by (apply Z.div_pos; lia).
  assert (W i / h <= D).
  { apply Z.div_le_upper_bound; lia. }
  destruct (Z.leb_spec 0 (W i / h)); [|lia].
  destruct (Z.leb_spec (W i / h) (2 ^ 32 - 1)); [reflexivity|lia].
Qed.

Lemma sub_hour_bound_spec D :
  1 <= D < 2 ^ 32 ->
  sub_hour_bound D 0 = 0 /\ sub_hour_bound D 12 = D /\
  (forall i, 0 <= i < 12 -> sub_hour_bound D i <= sub_hour_bound D (i + 1)) /\
  (forall i, 0 <= i <= 12 ->
     0 <= sub_hour_bound D i <= D /\
     u32_of_double (mul (of_Z i) (div (of_Z D) (of_Z 12)))
     = Some (sub_hour_bound D i)).
Proof.
  intro HD.
  destruct (sub_hour_bounds D HD) as (W & h & Hh & W0 & W12 & Wmono & Wall).
  assert (E : forall i, 0 <= i <= 12 -> sub_hour_bound D i = W i / h).
  { intros i Hi. unfold sub_hour_bound.
    destruct (Wall i Hi) as [_ ->]. reflexivity. }
  split; [rewrite E, W0 by lia; reflexivity|].
  split; [rewrite E, W12 by lia; apply Z.div_mul; lia|].
  split.
  { intros i Hi. rewrite !E by lia. apply Z.div_le_mono; [lia|].
    apply Wmono; lia. }
  intros i Hi. rewrite E by lia.
  destruct (Wall i Hi) as [P0 Eu]. split; [|exact Eu].
  split; [apply Z.div_pos; lia|].
  assert (Hle : W i <= W 12).
  { assert (G : forall k : nat, (Z.of_nat k <= 12) ->
              forall i, 0 <= i -> i + Z.of_nat k = 12 -> W i <= W 12).
    { induction k as [|k IH]; intros Hk a Ha Ea.
      - replace a with 12 by lia. lia.
      - transitivity (W (a + 1)); [apply Wmono; lia|].
        apply IH; lia. }
    apply (G (Z.to_nat (12 - i))); lia. }
  rewrite W12 in Hle. apply Z.div_le_upper_bound; lia.
Qed.

Lemma unix_range t : 0 <= _unix t < 2 ^ 32.
Proof.
  unfold _unix, watch_utility_date_time_to_unix_time. apply u32_range.
Qed.

(** The divider on seconds since the epoch. *)
Lemma hour_divider_seconds ps pe tt :
  0 <= ps -> pe < 2 ^ 32 -> ps < pe -> ps <= tt < pe ->
  0 <= 12 * (tt - ps) / (pe - ps) <= 11 /\
  (index <- int_of_floor (div (of_Z (u32 (tt - ps)))
                              (div (of_Z (u32 (pe - ps))) (of_Z 12))) ;;
   let index := if index <? 0 then 0 else index in
   let index := if index >? 11 then 11 else index in
   hs <- u32_of_double
           (mul (of_Z index) (div (of_Z (u32 (pe - ps))) (of_Z 12))) ;;
   he <- u32_of_double
           (mul (of_Z (index + 1)) (div (of_Z (u32 (pe - ps))) (of_Z 12))) ;;
   Some (index, _from_unix (u32 (ps + hs)), _from_unix (u32 (ps + he))))
  = Some (12 * (tt - ps) / (pe - ps),
          _from_unix (ps + sub_hour_bound (pe - ps)
                             (12 * (tt - ps) / (pe - ps))),
          _from_unix (ps + sub_hour_bound (pe - ps)
                             (12 * (tt - ps) / (pe - ps) + 1))).
Proof.
  intros Hps Hpe Hlt Htt.
  set (D := pe - ps). set (x := tt - ps).
  assert (HD : 1 <= D < 2 ^ 32) by (unfold D; lia).
  assert (Hx : 0 <= x < D) by (unfold x, D; lia).
  assert (ED : ps + D = pe) by (unfold D; lia).
  clearbody D x.
  destruct (sub_hour_bound_spec D HD) as (B0 & B12 & Bmono & Ball).
  set (index := 12 * x / D).
  assert (Hidx : 0 <= index <= 11).
  { unfold index. split.
    - apply Z.div_pos; lia.
    - assert (12 * x / D < 12); [apply Z.div_lt_upper_bound|]; lia. }
  split; [exact Hidx|].
  rewrite (u32_small D) by lia.
  rewrite (u32_small x) by lia.
  unfold int_of_floor. rewrite (index_of_target D x HD Hx).
  fold index. clearbody index.
  unfold in_range.
  assert (L1 : (- 2 ^ 31 <=? index) = true)
    by (apply Z.leb_le; change (2 ^ 31) with 2147483648; lia).
  assert (L2 : (index <=? 2 ^ 31 - 1) = true)
    by (apply Z.leb_le; change (2 ^ 31) with 2147483648; lia).
  assert (L3 : (index <? 0) = false) by (apply Z.ltb_ge; lia).
  assert (L4 : (index >? 11) = false)
    by (rewrite Z.gtb_ltb; apply Z.ltb_ge; lia).
  rewrite L1, L2. cbn [andb bind]. rewrite L3, L4.
  destruct (Ball index ltac:(lia)) as [R1 ->].
  destruct (Ball (index + 1) ltac:(lia)) as [R2 ->].
  cbn [bind].
  rewrite !u32_small by lia.
  reflexivity.
Qed.

(** C3: for a period with start < end and a target instant in
    [start, end), the hour divider returns the index
    floor((target - start) / (duration / 12)), that is the integer quotient
    of 12 * (target - start) by the duration, which lies in [0, 11] before
    any clamping; the boundaries it computes from the rounded twelfth of the
    duration, [sub_hour_bound D i] for i = 0..12, are all defined, start at
    0, end at the duration and never decrease, so that the twelve sub-hours
    [start + bound i, start + bound (i + 1)) tile [start, end): sub-hour 0
    starts at the period start, each sub-hour ends where the next one
    starts, and sub-hour 11 ends at the period end. *)
Theorem hour_divider_index_and_partition
    (period_start period_end target_time : watch_date_time_t) :
  _unix period_start < _unix period_end ->
  _unix period_start <= _unix target_time < _unix period_end ->
  let D := _unix period_end - _unix period_start in
  let index := 12 * (_unix target_time - _unix period_start) / D in
  0 <= index <= 11 /\
  _find_planetary_hour_in_period period_start period_end target_time
  = Some (index,
          _from_unix (_unix period_start + sub_hour_bound D index),
          _from_unix (_unix period_start + sub_hour_bound D (index + 1))) /\
  sub_hour_bound D 0 = 0 /\
  sub_hour_bound D 12 = D /\
  (forall i, 0 <= i < 12 -> sub_hour_bound D i <= sub_hour_bound D (i + 1)) /\
  (forall i, 0 <= i <= 12 ->
     u32_of_double (mul (of_Z i) (div (of_Z D) (of_Z 12)))
     = Some (sub_hour_bound D i)).
Proof.
  intros Hlt Htt.
  pose proof (unix_range period_start) as Rs.
  pose proof (unix_range period_end) as Re.
  unfold _find_planetary_hour_in_period.
  generalize dependent (_unix target_time).
  generalize dependent (_unix period_end).
  generalize dependent (_unix period_start).
  intros ps Rs pe Hlt Re tt Htt. cbv zeta.
  pose proof (hour_divider_seconds ps pe tt ltac:(lia) ltac:(lia) Hlt Htt)
    as (Hidx & Hfind).
  assert (HD : 1 <= pe - ps < 2 ^ 32) by lia.
  destruct (sub_hour_bound_spec (pe - ps) HD) as (B0 & B12 & Bmono & Ball).
  split; [exact Hidx|]. split; [exact Hfind|].
  split; [exact B0|]. split; [exact B12|]. split; [exact Bmono|].
  intros i Hi. apply Ball; exact Hi.
Qed.

Lemma hour_divider_index_and_partition_witness :
  let period_start := mk_date_time 4 3 20 6 4 11 in
  let period_end := mk_date_time 4 3 20 18 13 40 in
  let target_time := mk_date_time 4 3 20 11 11 11 in
  let D := _unix period_end - _unix period_start in
  let index := 12 * (_unix target_time - _unix period_start) / D in
  0 <= index <= 11 /\
  _find_planetary_hour_in_period period_start period_end target_time
  = Some (index,
          _from_unix (_unix period_start + sub_hour_bound D index),
          _from_unix (_unix period_start + sub_hour_bound D (index + 1))) /\
  sub_hour_bound D 0 = 0 /\
  sub_hour_bound D 12 = D /\
  (forall i, 0 <= i < 12 -> sub_hour_bound D i <= sub_hour_bound D (i + 1)) /\
  (forall i, 0 <= i <= 12 ->
     u32_of_double (mul (of_Z i) (div (of_Z D) (of_Z 12)))
     = Some (sub_hour_bound D i)).
Proof.
  apply (hour_divider_index_and_partition
           (mk_date_time 4 3 20 6 4 11) (mk_date_time 4 3 20 18 13 40)
           (mk_date_time 4 3 20 11 11 11)).
  - vm_compute. reflexivity.
  - vm_compute. split; [discriminate | reflexivity].
Defined.

(** * Further properties of the code *)

(** ** The boundaries of the sub-hours are whole-second floors *)

(** The rounded product [i * hour_duration], truncated, is the integer
    quotient of [i * D] by 12. *)
Lemma product_floor i D mh c d2 k m :
  1 <= i <= 12 -> 0 < D -> 2 ^ 52 <= mh < 2 ^ 53 -> 24 <= c ->
  D * 2 ^ c = 12 * mh - d2 -> -4 <= d2 <= 4 -> (D mod 3 = 0 -> d2 = 0) ->
  0 <= k <= 4 -> 2 ^ 52 <= m <= 2 ^ 53 ->
  nearest_even (i * mh) 1 (2 ^ k) m ->
  (m * 2 ^ k) / 2 ^ c = i * D / 12.
Proof.
  intros Hi HD Hmh Hc EDh Hd2 Hd3 Hk Hm [Hle Htie].
  rewrite !Z.mul_1_r in Hle, Htie.
  assert (Eh : 2 ^ c = 32 * 2 ^ (c - 5)).
  { replace c with (5 + (c - 5)) at 1 by lia.
    rewrite Z.pow_add_r by lia. reflexivity. }
  assert (Hh' : 2 ^ 19 <= 2 ^ (c - 5)) by (apply Z.pow_le_mono_r; lia).
  set (h' := 2 ^ (c - 5)) in *. rewrite Eh in *. clear Eh.
  set (q := i * D / 12).
  assert (Hq : exists r, i * D = 12 * q + r /\ 0 <= r < 12).
  { exists (i * D mod 12). split.
    - unfold q. apply Z.div_mod. lia.
    - apply Z.mod_pos_bound. lia. }
  destruct Hq as (r & Eq & Hr). clearbody q.
  assert (E1 : 12 * (i * mh) = 32 * (12 * (q * h')) + 32 * (r * h') + i * d2).
  { replace (32 * (12 * (q * h')) + 32 * (r * h'))
      with ((12 * q + r) * (32 * h')) by ring.
    rewrite <- Eq.
    replace (i * D * (32 * h')) with (i * (D * (32 * h'))) by ring.
    rewrite EDh. ring. }
  assert (Tie : 2 * Z.abs (i * mh - m * 2 ^ k) = 2 ^ k ->
                exists m2, m = 2 * m2).
  { intro T. apply Z.even_spec. apply Htie. exact T. }
  assert (Hrh : r = 0 \/ (h' <= r * h' /\ r * h' <= 11 * h')).
  { destruct (Z.eq_dec r 0) as [-> | Hr0]; [left; reflexivity|right].
    split.
    - replace h' with (1 * h') at 1 by ring.
      apply Z.mul_le_mono_nonneg_r; lia.
    - apply Z.mul_le_mono_nonneg_r; lia. }
  symmetry. apply Z.div_unique with (m * 2 ^ k - 32 * (q * h')); [|ring].
  left.
  change (2 ^ 52) with 4503599627370496 in *.
  change (2 ^ 53) with 9007199254740992 in *.
  change (2 ^ 19) with 524288 in *.
  set (P := i * mh) in *. set (Q := q * h') in *.
  assert (HP : P = i * mh) by reflexivity.
  assert (Hid : i = 1 \/ i = 2 \/ i = 3 \/ i = 4 \/ i = 5 \/ i = 6 \/ i = 7 \/
                i = 8 \/ i = 9 \/ i = 10 \/ i = 11 \/ i = 12) by lia.
  assert (Hkd : k = 0 \/ k = 1 \/ k = 2 \/ k = 3 \/ k = 4) by lia.
  clearbody P Q h'. clear Htie.
  destruct Hrh as [-> | HR].
  - (* the exact boundary is a whole second *)
    rewrite Z.mul_0_l, Z.mul_0_r, Z.add_0_r in E1.
    assert (HD3 : d2 = 0 \/ (d2 <> 0 /\ D mod 3 <> 0)).
    { destruct (Z.eq_dec d2 0); [left; assumption|right].
      split; [assumption|]. intro A. apply Hd3 in A. contradiction. }
    clear Hd3.
    destruct Hkd as [-> | [-> | [-> | [-> | ->]]]];
      [change (2 ^ 0) with 1 in *|change (2 ^ 1) with 2 in *
      |change (2 ^ 2) with 4 in *|change (2 ^ 3) with 8 in *
      |change (2 ^ 4) with 16 in *];
      (match type of Tie with
       | (?a = ?b -> _) => destruct (Z.eq_dec a b) as [T|T]
       end;
       [destruct (Tie T) as [m2 ->]|]; clear Tie;
       repeat (destruct Hid as [-> | Hid]; [zlia|]); subst i; zlia).
  - clear Tie Hd3. set (R := r * h') in *. clearbody R.
    destruct Hkd as [-> | [-> | [-> | [-> | ->]]]];
      [change (2 ^ 0) with 1 in *|change (2 ^ 1) with 2 in *
      |change (2 ^ 2) with 4 in *|change (2 ^ 3) with 8 in *
      |change (2 ^ 4) with 16 in *];
      (repeat (destruct Hid as [-> | Hid]; [lia|]); subst i; lia).
Qed.

Lemma sub_hour_trunc_exact D i :
  1 <= D < 2 ^ 32 -> 0 <= i <= 12 ->
  trunc_Z (mul (of_Z i) (div (of_Z D) (of_Z 12))) = Some (i * D / 12).
Proof.
  intros HD Hi.
  destruct (hour_duration_spec D HD)
    as (MD & dD & mh & n & delta & HdD & HMD & HMDr & EofZ & Hn & Hmh & Ediv
        & Hdelta & Hdr & Hd0 & Hd3).
  rewrite Ediv.
  destruct (Z.eq_dec i 0) as [-> | Hi0]; [reflexivity|].
  destruct (period_in_units D MD dD mh n delta HdD HMD Hn Hdelta Hdr Hd0 Hd3)
    as (d2 & Ed2 & Hd2 & Hd23).
  destruct (small_product_spec i mh (dD - 57 + n))
    as (k & m & Hk & Emul & Hnear & Hm); [lia|lia|lia|].
  rewrite Emul.
  rewrite (trunc_normal53 m _ k (57 - dD - n) Hm); [|lia|lia|lia].
  f_equal.
  apply (product_floor i D mh (57 - dD - n) d2 k m); try assumption; lia.
Qed.

Lemma sub_hour_bound_exact D i :
  1 <= D < 2 ^ 32 -> 0 <= i <= 12 ->
  u32_of_double (mul (of_Z i) (div (of_Z D) (of_Z 12))) = Some (i * D / 12) /\
  sub_hour_bound D i = i * D / 12.
Proof.
  intros HD Hi.
  assert (E : u32_of_double (mul (of_Z i) (div (of_Z D) (of_Z 12)))
              = Some (i * D / 12)).
  { unfold u32_of_double. rewrite (sub_hour_trunc_exact D i HD Hi).
    unfold in_range.
    assert (0 <= i * D / 12) by (apply Z.div_pos; nia).
    assert (i * D / 12 <= D).
    { apply Z.div_le_upper_bound; [lia|]. nia. }
    destruct (Z.leb_spec 0 (i * D / 12)); [|lia].
    destruct (Z.leb_spec (i * D / 12) (2 ^ 32 - 1)); [reflexivity|lia]. }
  split; [exact E|]. unfold sub_hour_bound. rewrite E. reflexivity.
Qed.

(** X1: for a period with start < end and a target in [start, end), the
    hour divider returns the index j = 12 * (target - start) / D, where D is
    the length of the period in seconds, together with the date-times of
    start + j * D / 12 and start + (j + 1) * D / 12, the divisions being
    integer divisions: the binary64 products [index * hour_duration] and
    their truncation lose nothing against exact arithmetic. *)
Theorem hour_divider_closed_form
    (period_start period_end target_time : watch_date_time_t) :
  _unix period_start < _unix period_end ->
  _unix period_start <= _unix target_time < _unix period_end ->
  let D := _unix period_end - _unix period_start in
  let j := 12 * (_unix target_time - _unix period_start) / D in
  _find_planetary_hour_in_period period_start period_end target_time
  = Some (j, _from_unix (_unix period_start + j * D / 12),
             _from_unix (_unix period_start + (j + 1) * D / 12)).
Proof.
  intros Hlt Htt.
  pose proof (unix_range period_start) as Rs.
  pose proof (unix_range period_end) as Re.
  unfold _find_planetary_hour_in_period.
  generalize dependent (_unix target_time).
  generalize dependent (_unix period_end).
  generalize dependent (_unix period_start).
  intros ps Rs pe Hlt Re tt Htt. cbv zeta.
  pose proof (hour_divider_seconds ps pe tt ltac:(lia) ltac:(lia) Hlt Htt)
    as (Hidx & Hfind).
  cbv zeta in Hfind.
  assert (HD : 1 <= pe - ps < 2 ^ 32) by lia.
  rewrite Hfind.
  destruct (sub_hour_bound_exact (pe - ps) (12 * (tt - ps) / (pe - ps)) HD
              ltac:(lia)) as [_ ->].
  destruct (sub_hour_bound_exact (pe - ps) (12 * (tt - ps) / (pe - ps) + 1) HD
              ltac:(lia)) as [_ ->].
  reflexivity.
Qed.

Lemma hour_divider_closed_form_witness :
  let period_start := mk_date_time 4 3 20 6 4 11 in
  let period_end := mk_date_time 4 3 20 18 13 40 in
  let target_time := mk_date_time 4 3 20 11 11 11 in
  let D := _unix period_end - _unix period_start in
  let j := 12 * (_unix target_time - _unix period_start) / D in
  _find_planetary_hour_in_period period_start period_end target_time
  = Some (j, _from_unix (_unix period_start + j * D / 12),
             _from_unix (_unix period_start + (j + 1) * D / 12)).
Proof.
  apply (hour_divider_closed_form
           (mk_date_time 4 3 20 6 4 11) (mk_date_time 4 3 20 18 13 40)
           (mk_date_time 4 3 20 11 11 11)).
  - vm_compute. reflexivity.
  - vm_compute. split; [discriminate | reflexivity].
Defined.

(** X2: the target is never before the start of the sub-hour returned for
    it and never after its end; it is at the end only when the exact
    boundary (j + 1) * D / 12 is not a whole number of seconds. *)
Theorem target_within_returned_sub_hour
    (period_start period_end target_time : watch_date_time_t) :
  _unix period_start < _unix period_end ->
  _unix period_start <= _unix target_time < _unix period_end ->
  let D := _unix period_end - _unix period_start in
  exists j s e,
    _find_planetary_hour_in_period period_start period_end target_time
    = Some (j, _from_unix s, _from_unix e) /\
    _unix period_start <= s /\ s <= _unix target_time <= e /\
    e <= _unix period_end /\
    (_unix target_time = e -> ((j + 1) * D) mod 12 <> 0).
Proof.
  intros Hlt Htt.
  pose proof (unix_range period_start) as Rs.
  pose proof (unix_range period_end) as Re.
  unfold _find_planetary_hour_in_period.
  generalize dependent (_unix target_time).
  generalize dependent (_unix period_end).
  generalize dependent (_unix period_start).
  intros ps Rs pe Hlt Re tt Htt. cbv zeta.
  pose proof (hour_divider_seconds ps pe tt ltac:(lia) ltac:(lia) Hlt Htt)
    as (Hidx & Hfind).
  cbv zeta in Hfind.
  assert (HD : 1 <= pe - ps < 2 ^ 32) by lia.
  set (D := pe - ps) in *. set (x := tt - ps) in *.
  assert (Hx : 0 <= x < D) by (unfold x, D; lia).
  set (j := 12 * x / D) in *.
  assert (Hj : j * D <= 12 * x < (j + 1) * D).
  { unfold j. split.
    - rewrite Z.mul_comm. apply Z.mul_div_le; lia.
    - pose proof (Z.mul_succ_div_gt (12 * x) D ltac:(lia)). lia. }
  destruct (sub_hour_bound_exact D j HD ltac:(lia)) as [_ Es].
  destruct (sub_hour_bound_exact D (j + 1) HD ltac:(lia)) as [_ Ee].
  exists j, (ps + j * D / 12), (ps + (j + 1) * D / 12).
  rewrite Hfind, Es, Ee.
  split; [reflexivity|].
  assert (Q1 : 0 <= j * D / 12) by (apply Z.div_pos; nia).
  assert (Q2 : j * D / 12 <= x) by (apply Z.div_le_upper_bound; lia).
  assert (Q3 : x <= (j + 1) * D / 12) by (apply Z.div_le_lower_bound; lia).
  assert (Q4 : (j + 1) * D / 12 <= D).
  { apply Z.div_le_upper_bound; [lia|].
    assert ((j + 1) * D <= 12 * D) by (apply Z.mul_le_mono_nonneg_r; lia).
    lia. }
  split; [lia|]. split; [unfold x in *; lia|]. split; [unfold D in *; lia|].
  intros Ett Hmod.
  assert (x = (j + 1) * D / 12) by (unfold x; lia).
  pose proof (Z.div_mod ((j + 1) * D) 12 ltac:(lia)). lia.
Qed.

Lemma target_within_returned_sub_hour_witness :
  let period_start := mk_date_time 4 3 20 6 0 0 in
  let period_end := mk_date_time 4 3 20 6 2 6 in
  let target_time := mk_date_time 4 3 20 6 0 10 in
  let D := _unix period_end - _unix period_start in
  exists j s e,
    _find_planetary_hour_in_period period_start period_end target_time
    = Some (j, _from_unix s, _from_unix e) /\
    _unix period_start <= s /\ s <= _unix target_time <= e /\
    e <= _unix period_end /\
    (_unix target_time = e -> ((j + 1) * D) mod 12 <> 0).
Proof.
  apply (target_within_returned_sub_hour
           (mk_date_time 4 3 20 6 0 0) (mk_date_time 4 3 20 6 2 6)
           (mk_date_time 4 3 20 6 0 10)).
  - vm_compute. reflexivity.
  - vm_compute. split; [discriminate | reflexivity].
Defined.

(** X3: the twelve sub-hours of a period of D seconds have equal length up
    to one second: each lasts D / 12 seconds rounded down, or one second
    more. *)
Theorem sub_hours_have_equal_length_up_to_a_second D i :
  1 <= D < 2 ^ 32 -> 0 <= i < 12 ->
  D / 12 <= sub_hour_bound D (i + 1) - sub_hour_bound D i <= D / 12 + 1.
Proof.
  intros HD Hi.
  destruct (sub_hour_bound_exact D i HD ltac:(lia)) as [_ ->].
  destruct (sub_hour_bound_exact D (i + 1) HD ltac:(lia)) as [_ ->].
  replace ((i + 1) * D) with (i * D + D) by ring.
  pose proof (Z.div_mod (i * D) 12 ltac:(lia)).
  pose proof (Z.mod_pos_bound (i * D) 12 ltac:(lia)).
  pose proof (Z.div_mod D 12 ltac:(lia)).
  pose proof (Z.mod_pos_bound D 12 ltac:(lia)).
  pose proof (Z.div_mod (i * D + D) 12 ltac:(lia)).
  pose proof (Z.mod_pos_bound (i * D + D) 12 ltac:(lia)).
  lia.
Qed.

Lemma sub_hours_have_equal_length_up_to_a_second_witness :
  43769 / 12 <= sub_hour_bound 43769 8 - sub_hour_bound 43769 7
  <= 43769 / 12 + 1.
Proof.
  apply (sub_hours_have_equal_length_up_to_a_second 43769 7);
    vm_compute; split; discriminate || reflexivity.
Defined.

(** A quotient by zero is a NaN or an infinity: its floor has no value. *)
Lemma floor_of_division_by_zero x :
  0 <= x < 2 ^ 32 -> floor_Z (div (of_Z x) (S754_zero false)) = None.
Proof.
  intro Hx. destruct (Z.eq_dec x 0) as [-> | Hx0]; [reflexivity|].
  destruct (of_Z_pos x) as (p & d & _ & _ & E & _).
  { change (2 ^ 53) with 9007199254740992. change (2 ^ 32) with 4294967296 in Hx.
    lia. }
  rewrite E. reflexivity.
Qed.

(** X4: a period whose start and end are the same instant has no defined
    result: the hour duration is 0.0, the quotient by it is a NaN or an
    infinity, and its conversion to [int] is undefined. *)
Theorem empty_period_has_no_index
    (period_start period_end target_time : watch_date_time_t) :
  _unix period_start = _unix period_end ->
  _find_planetary_hour_in_period period_start period_end target_time = None.
Proof.
  intro H. unfold _find_planetary_hour_in_period.
  generalize dependent (_unix period_start). intros ps <-. cbv zeta.
  rewrite Z.sub_diag.
  change (div (of_Z (u32 0)) (of_Z 12)) with (S754_zero false).
  unfold int_of_floor.
  rewrite (floor_of_division_by_zero _ (u32_range _)).
  reflexivity.
Qed.

Lemma empty_period_has_no_index_witness :
  _find_planetary_hour_in_period (mk_date_time 4 6 21 12 0 0)
    (mk_date_time 4 6 21 12 0 0) (mk_date_time 4 6 21 12 0 0) = None.
Proof.
  apply (empty_period_has_no_index (mk_date_time 4 6 21 12 0 0)
           (mk_date_time 4 6 21 12 0 0) (mk_date_time 4 6 21 12 0 0)).
  reflexivity.
Defined.

(** ** The weekday formula *)

Lemma all_weekdays_checked :
  forall_from 64 0 (fun y =>
    forall_from 12 1 (fun m =>
      forall_from 31 1 (fun d => weekday_check y m d))) = true.
Proof. vm_compute. reflexivity. Qed.

Lemma weekday_check_holds y m d :
  0 <= y < 64 -> 1 <= m <= 12 -> 1 <= d <= 31 -> weekday_check y m d = true.
Proof.
  intros Hy Hm Hd.
  pose proof (forall_from_spec _ _ _ all_weekdays_checked y) as H1.
  cbv beta in H1. specialize (H1 ltac:(simpl; lia)).
  pose proof (forall_from_spec _ _ _ H1 m) as H2.
  cbv beta in H2. specialize (H2 ltac:(simpl; lia)).
  apply (forall_from_spec _ _ _ H2 d). simpl; lia.
Qed.

Lemma day_of_week_is_weekday t :
  valid_date_time t = true ->
  day_of_week t
  = weekday_of_day_number
      (days_from_civil (dt_year t + WATCH_RTC_REFERENCE_YEAR)
                       (dt_month t) (dt_day t)).
Proof.
  intro Hv. apply valid_date_time_inv in Hv.
  destruct Hv as (Hy & Hm & Hd & _).
  pose proof (days_in_month_le (dt_year t + WATCH_RTC_REFERENCE_YEAR) (dt_month t)).
  pose proof (weekday_check_holds (dt_year t) (dt_month t) (dt_day t) Hy Hm
                ltac:(lia)) as Hc.
  unfold weekday_check in Hc.
  destruct (Z.leb_spec (dt_day t)
              (days_in_month (dt_year t + WATCH_RTC_REFERENCE_YEAR) (dt_month t)));
    [|lia].
  apply Z.eqb_eq in Hc. exact Hc.
Qed.

(** X5: for every date the RTC holds, the weekday the ruler resolver
    computes with Zeller's congruence is the weekday of the calendar (the
    day count since 1970-01-01, a Thursday, plus 4, modulo 7, Sunday being
    0), and the ruler of the first hour of the day is the planet the weekday
    is named after: Sun, Moon, Mars, Mercury, Jupiter, Venus, Saturn from
    Sunday to Saturday. *)
Theorem weekday_and_day_ruler (t : watch_date_time_t) :
  valid_date_time t = true ->
  let n := days_from_civil (dt_year t + WATCH_RTC_REFERENCE_YEAR)
                           (dt_month t) (dt_day t) in
  day_of_week t = (n + 4) mod 7 /\
  planetary_ruler_from_base_and_time t 0
  = nth (Z.to_nat ((n + 4) mod 7)) weekday_planets no_planet.
Proof.
  intros Hv n. pose proof (day_of_week_is_weekday t Hv) as Hw.
  fold n in Hw. unfold weekday_of_day_number in Hw.
  split; [exact Hw|].
  unfold planetary_ruler_from_base_and_time, ruler_index, ruler_of_day_index.
  rewrite Hw.
  pose proof (Z.mod_pos_bound (n + 4) 7 ltac:(lia)) as Hb.
  set (w := (n + 4) mod 7) in *. clearbody w.
  assert (Hc : w = 0 \/ w = 1 \/ w = 2 \/ w = 3 \/ w = 4 \/ w = 5 \/ w = 6)
    by lia.
  destruct Hc as [-> | [-> | [-> | [-> | [-> | [-> | ->]]]]]]; reflexivity.
Qed.

Lemma weekday_and_day_ruler_witness :
  let t := mk_date_time 6 10 30 17 45 0 in
  let n := days_from_civil (dt_year t + WATCH_RTC_REFERENCE_YEAR)
                           (dt_month t) (dt_day t) in
  day_of_week t = (n + 4) mod 7 /\
  planetary_ruler_from_base_and_time t 0
  = nth (Z.to_nat ((n + 4) mod 7)) weekday_planets no_planet.
Proof.
  apply (weekday_and_day_ruler (mk_date_time 6 10 30 17 45 0)).
  reflexivity.
Defined.

(** ** Digits of a coordinate and back *)

Ltac latlon_unfold :=
  unfold _planetary_hour_face_struct_from_latlon, _latlon_from_struct,
    settings_wf, decimal_digits, bitfield, cmod, cdiv;
  cbn [sign hundreds tens ones tenths hundredths];
  change (2 ^ SIGN_BITS) with 2; change (2 ^ HUNDREDS_BITS) with 2;
  change (2 ^ DIGIT_BITS) with 16.

Lemma s16_small z : - 2 ^ 15 <= z < 2 ^ 15 -> s16 z = z.
Proof.
  intro H. unfold s16. rewrite Z.mod_small; lia.
Qed.

Lemma struct_from_latlon_decodes val :
  -19999 <= val <= 19999 ->
  let v := _planetary_hour_face_struct_from_latlon val in
  _latlon_from_struct v = val /\ settings_wf v /\ decimal_digits v.
Proof.
  intros H v. subst v. latlon_unfold.
  rewrite (s16_small (Z.abs val))
    by (change (2 ^ 15) with 32768; lia).
  destruct (Z.ltb_spec val 0) as [Hn|Hp].
  - rewrite (Z.abs_neq val) by lia.
    change (1 mod 2 =? 0) with false. change (1 mod 2) with 1.
    cbv iota. zlia.
  - rewrite (Z.abs_eq val) by lia.
    change (0 mod 2 =? 0) with true. change (0 mod 2) with 0.
    cbv iota. zlia.
Qed.

(** X6: for every coordinate of at most 199.99 degrees in absolute value,
    in hundredths of a degree, the digit record built from it has every
    field within its width, decimal digits of at most 9, and is read back
    as the same signed number: the conversion loses nothing on any latitude
    or longitude. *)
Theorem struct_from_latlon_round_trip (val : Z) :
  -19999 <= val <= 19999 ->
  _latlon_from_struct (_planetary_hour_face_struct_from_latlon val) = val /\
  settings_wf (_planetary_hour_face_struct_from_latlon val) /\
  decimal_digits (_planetary_hour_face_struct_from_latlon val).
Proof.
  intro H. exact (struct_from_latlon_decodes val H).
Qed.

Lemma struct_from_latlon_round_trip_witness :
  _latlon_from_struct (_planetary_hour_face_struct_from_latlon (-17999))
  = -17999 /\
  settings_wf (_planetary_hour_face_struct_from_latlon (-17999)) /\
  decimal_digits (_planetary_hour_face_struct_from_latlon (-17999)).
Proof.
  apply (struct_from_latlon_round_trip (-17999)). lia.
Defined.

(** X7: a digit record with every field within its width and decimal
    digits of at most 9 is rebuilt unchanged from the number it stands for,
    except that a record whose digits are all zero comes back with a
    positive sign: minus zero is not kept. *)
Theorem struct_from_latlon_of_record (v : lat_lon_settings_t) :
  settings_wf v -> decimal_digits v ->
  _planetary_hour_face_struct_from_latlon (_latlon_from_struct v)
  = if _latlon_from_struct v =? 0 then mk_latlon 0 0 0 0 0 0 else v.
Proof.
  destruct v as [s h t o te hu]. latlon_unfold.
  intros (Hs & Hh & Ht & Ho & Hte & Hhu) (Dt & Do & Dte & Dhu).
  set (N := h * 10000 + t * 1000 + o * 100 + te * 10 + hu).
  assert (HN : 0 <= N <= 19999) by (unfold N; lia).
  assert (Eabs : Z.abs ((if s =? 0 then 1 else -1) * N) = N)
    by (destruct (s =? 0); lia).
  rewrite Eabs.
  rewrite (s16_small N) by (change (2 ^ 15) with 32768; lia).
  assert (Q : forall a d, 0 <= a -> 0 <= d <= 9 ->
            Z.quot (a * 10 + d) 10 = a /\ Z.rem (a * 10 + d) 10 = d)
    by (intros; zlia).
  assert (S16 : forall d, 0 <= d <= 9 -> d mod 16 = d)
    by (intros; apply Z.mod_small; lia).
  assert (S2 : h mod 2 = h) by (apply Z.mod_small; lia).
  destruct (Q (h * 1000 + t * 100 + o * 10 + te) hu ltac:(lia) ltac:(lia))
    as [Q0 E0].
  destruct (Q (h * 100 + t * 10 + o) te ltac:(lia) ltac:(lia)) as [Q1 E1].
  destruct (Q (h * 10 + t) o ltac:(lia) ltac:(lia)) as [Q2 E2].
  destruct (Q h t ltac:(lia) ltac:(lia)) as [Q3 E3].
  destruct (Q 0 h ltac:(lia) ltac:(lia)) as [_ E4].
  replace N with ((h * 1000 + t * 100 + o * 10 + te) * 10 + hu)
    by (unfold N; ring).
  rewrite Q0, E0.
  replace (h * 1000 + t * 100 + o * 10 + te)
    with ((h * 100 + t * 10 + o) * 10 + te) by ring.
  rewrite Q1, E1.
  replace (h * 100 + t * 10 + o) with ((h * 10 + t) * 10 + o) by ring.
  rewrite Q2, E2, Q3, E3.
  replace (Z.rem h 10) with h by (symmetry; apply Z.rem_small; lia).
  rewrite !S16, S2 by lia.
  fold N.
  replace (((((h * 10 + t) * 10 + o) * 10 + te) * 10 + hu)) with N
    by (unfold N; ring).
  destruct (Z.eqb_spec ((if s =? 0 then 1 else -1) * N) 0) as [Z0|NZ].
  - assert (N = 0) by (destruct (s =? 0); lia).
    assert (h = 0 /\ t = 0 /\ o = 0 /\ te = 0 /\ hu = 0) as (-> & -> & -> & -> & ->)
      by (unfold N in *; lia).
    rewrite Z0. reflexivity.
  - assert (N <> 0) by (intro A; rewrite A in NZ; lia).
    destruct (Z.eqb_spec s 0) as [-> | Hs1].
    + destruct (Z.ltb_spec (1 * N) 0); [lia|]. reflexivity.
    + assert (s = 1) by lia. subst s.
      destruct (Z.ltb_spec (-1 * N) 0); [|lia]. reflexivity.
Qed.

Lemma struct_from_latlon_of_record_witness :
  _planetary_hour_face_struct_from_latlon
    (_latlon_from_struct (mk_latlon 1 0 0 0 0 0))
  = if _latlon_from_struct (mk_latlon 1 0 0 0 0 0) =? 0
    then mk_latlon 0 0 0 0 0 0 else mk_latlon 1 0 0 0 0 0.
Proof.
  apply (struct_from_latlon_of_record (mk_latlon 1 0 0 0 0 0)).
  - unfold settings_wf. cbn. lia.
  - unfold decimal_digits. cbn. lia.
Defined.

(** X8: advancing the sign digit negates the coordinate the record stands
    for and leaves its digits alone; advancing it twice restores the
    record. *)
Theorem advance_sign_negates (v : lat_lon_settings_t) :
  settings_wf v ->
  _latlon_from_struct (advance_sign v) = - _latlon_from_struct v /\
  advance_sign (advance_sign v) = v /\
  settings_wf (advance_sign v).
Proof.
  destruct v as [s h t o te hu].
  unfold advance_sign, with_sign. latlon_unfold.
  intros (Hs & Hh & Ht & Ho & Hte & Hhu).
  assert (Hc : s = 0 \/ s = 1) by lia.
  destruct Hc as [-> | ->];
    change ((0 + 1) mod 2) with 1; change ((1 + 1) mod 2) with 0;
    change (0 =? 0) with true; change (1 =? 0) with false; cbv iota;
    repeat split; first [reflexivity | lia].
Qed.

Lemma advance_sign_negates_witness :
  let v := _planetary_hour_face_struct_from_latlon 4850 in
  _latlon_from_struct (advance_sign v) = - _latlon_from_struct v /\
  advance_sign (advance_sign v) = v /\
  settings_wf (advance_sign v).
Proof.
  apply (advance_sign_negates (_planetary_hour_face_struct_from_latlon 4850)).
  unfold settings_wf. cbn. lia.
Defined.

Lemma advance_digit_frame lcd s :
  let s' := _planetary_hour_face_advance_digit lcd s in
  page s' = page s /\ active_digit s' = active_digit s /\
  location_changed s' = true /\
  (page s <> 1 -> working_latitude s' = working_latitude s) /\
  (page s <> 2 -> working_longitude s' = working_longitude s).
Proof.
  destruct s as [p d ch lat lon].
  unfold _planetary_hour_face_advance_digit.
  cbn [with_latitude with_longitude with_changed
       working_latitude working_longitude page active_digit location_changed].
  destruct lcd; split_cursor p d;
    cbn [with_latitude with_longitude with_changed
      working_latitude working_longitude page active_digit location_changed];
    repeat split; intros; try reflexivity; congruence.
Qed.

(** X9: a digit advance never moves the cursor and always marks the
    location as changed; on the latitude page it leaves the longitude
    alone, on the longitude page the latitude, and on any other page both. *)
Theorem advance_digit_touches_one_coordinate
    (lcd : lcd_type) (s : location_state_t) :
  let s' := _planetary_hour_face_advance_digit lcd s in
  page s' = page s /\ active_digit s' = active_digit s /\
  location_changed s' = true /\
  (page s <> 1 -> working_latitude s' = working_latitude s) /\
  (page s <> 2 -> working_longitude s' = working_longitude s).
Proof.
  exact (advance_digit_frame lcd s).
Qed.

Lemma advance_digit_touches_one_coordinate_witness :
  let s := mk_location_state 2 3 false
             (_planetary_hour_face_struct_from_latlon 7000)
             (_planetary_hour_face_struct_from_latlon 1900) in
  working_latitude
    (_planetary_hour_face_advance_digit WATCH_LCD_TYPE_CLASSIC s)
  = working_latitude s.
Proof.
  cbv zeta.
  apply (advance_digit_touches_one_coordinate WATCH_LCD_TYPE_CLASSIC
           (mk_location_state 2 3 false
              (_planetary_hour_face_struct_from_latlon 7000)
              (_planetary_hour_face_struct_from_latlon 1900))).
  discriminate.
Defined.

(** ** What an update can do *)

Lemma find_planetary_hour_index a b c i s e :
  _find_planetary_hour_in_period a b c = Some (i, s, e) -> 0 <= i <= 11.
Proof.
  unfold _find_planetary_hour_in_period. cbv zeta.
  destruct (int_of_floor _) as [index|]; [|discriminate]. cbn [bind].
  set (j := if (if index <? 0 then 0 else index) >? 11 then 11
            else if index <? 0 then 0 else index).
  assert (Hj : 0 <= j <= 11).
  { unfold j. destruct (Z.ltb_spec index 0).
    - cbn. lia.
    - destruct (Z.gtb_spec index 11); lia. }
  clearbody j.
  destruct (u32_of_double _) as [hs|]; [|discriminate]. cbn [bind].
  destruct (u32_of_double _) as [he|]; [|discriminate]. cbn [bind].
  intro H. inversion H. subst. exact Hj.
Qed.

Lemma all_civil_fields_checked :
  forall_from (Z.to_nat 49711) 0 civil_fields_check = true.
Proof. vm_compute. reflexivity. Qed.

(** The date fields of a converted instant are those of a date, or all
    zero. *)
Lemma from_unix_date_fields n :
  let t := _from_unix n in
  0 <= dt_year t <= 63 /\ 0 <= dt_month t <= 12 /\ 0 <= dt_day t <= 31.
Proof.
  unfold _from_unix, watch_utility_date_time_from_unix_time.
  rewrite Z.add_0_r.
  pose proof (u32_range n) as Hr.
  set (ts := u32 n) in *. clearbody ts.
  assert (Hd : 0 <= ts / 86400 < 0 + Z.of_nat (Z.to_nat 49711)).
  { rewrite Z2Nat.id by lia. change (2 ^ 32) with 4294967296 in Hr. split.
    - apply Z.div_pos; lia.
    - apply Z.div_lt_upper_bound; lia. }
  pose proof (forall_from_spec (Z.to_nat 49711) 0 civil_fields_check
                all_civil_fields_checked (ts / 86400) Hd) as Hc.
  unfold civil_fields_check in Hc.
  destruct (civil_from_days (ts / 86400)) as [[y m] d].
  rewrite !andb_true_iff in Hc.
  destruct Hc as [[[H1 H2] H3] H4].
  apply Z.leb_le in H1, H2, H3, H4.
  unfold WATCH_RTC_REFERENCE_YEAR.
  destruct (Z.ltb_spec y 2020); cbn [orb]; [cbn; lia|].
  destruct (Z.ltb_spec (2020 + 63) y); cbn; lia.
Qed.

Lemma day_of_week_range t :
  0 <= dt_year t -> 0 <= dt_month t -> 0 <= dt_day t ->
  0 <= day_of_week t <= 6.
Proof.
  intros Hy Hm Hd. unfold day_of_week, u8, cmod, cdiv.
  unfold WATCH_RTC_REFERENCE_YEAR.
  destruct (Z.ltb_spec (dt_month t) 3); change (2 ^ 8) with 256; zlia.
Qed.

Lemma add_days_is_from_unix t d : exists n, _add_days t d = _from_unix n.
Proof. unfold _add_days. eexists. reflexivity. Qed.

Lemma ruler_in_table base off :
  0 <= day_of_week base <= 6 -> 0 <= off ->
  0 <= ruler_index base off <= 6 /\
  In (planetary_ruler_from_base_and_time base off) planet_names.
Proof.
  intros Hw Hoff.
  pose proof (ruler_of_day_index_range base) as Hr.
  assert (Hi : 0 <= ruler_index base off <= 6).
  { unfold ruler_index, cmod. zlia. }
  split; [exact Hi|].
  unfold planetary_ruler_from_base_and_time.
  apply nth_In. change (List.length planet_names) with 7%nat. lia.
Qed.

Section UpdateShape.

Variable sun_rise_set : Z -> Z -> Z -> double -> double -> Z * double * double.
Variable longLatPresets : list (Z * Z).
Variable indeterminate : watch_date_time_t.

Local Abbreviation update :=
  (_planetary_hour_face_update sun_rise_set longLatPresets indeterminate).

Lemma select_period_base_day tt t0 sr ss lon lat off p :
  select_period sun_rise_set indeterminate tt t0 sr ss lon lat off = Some p ->
  base_day p = t0 \/ base_day p = _add_days t0 (-1).
Proof.
  unfold select_period. cbv zeta.
  destruct (_unix tt <? _unix sr).
  - destruct (_compute_local_sun_times _ _ _ _ _ _ _) as [[[ok a] b]|];
      [|discriminate].
    cbn [bind]. intro H. inversion H. right. reflexivity.
  - destruct (_unix tt >=? _unix ss).
    + destruct (_compute_local_sun_times _ _ _ _ _ _ _) as [[[ok a] b]|];
        [|discriminate].
      cbn [bind]. intro H. inversion H. left. reflexivity.
    + intro H. inversion H. left. reflexivity.
Qed.

(** The three outcomes of [_planetary_hour_face_update]. *)
Lemma update_outcomes host state st' shown :
  update host state = Some (st', shown) ->
  (st' = state /\ (shown = Display_No_Loc \/ shown = Display_None)) \/
  exists p index h_start h_end,
    _find_planetary_hour_in_period (period_start p) (period_end p)
      (target_time_of host state) = Some (index, h_start, h_end) /\
    (base_day p = _midnight_of (target_time_of host state) \/
     base_day p = _add_days (_midnight_of (target_time_of host state)) (-1)) /\
    st' = _planetary_hour_set_expiration state h_end /\
    shown = Display_Hour
              (mk_planetary_hour p index h_start h_end
                 (planetary_ruler_from_base_and_time (base_day p)
                    (index + (if is_night p then 12 else 0)))).
Proof.
  unfold _planetary_hour_face_update, target_time_of.
  destruct (if (longLatToUse state =? 0) || (_location_count longLatPresets <=? 1)
            then load_location_from_filesystem host
            else nth (Z.to_nat (longLatToUse state)) longLatPresets (0, 0))
    as [lat_centi lon_centi].
  destruct ((lat_centi =? 0) && (lon_centi =? 0)).
  { intro H. inversion H. left. split; [reflexivity|]. left. reflexivity. }
  cbv zeta.
  destruct (_compute_local_sun_times _ _ _ _ _ _ _) as [[[ok sr] ss]|];
    [|discriminate].
  cbn [bind]. destruct ok; cbn [negb].
  2:{ intro H. inversion H. left. split; [reflexivity|]. right. reflexivity. }
  destruct (select_period _ _ _ _ _ _ _ _ _) as [p|] eqn:Hsel; [|discriminate].
  cbn [bind].
  destruct (_find_planetary_hour_in_period _ _ _) as [[[i hs] he]|] eqn:Hfind;
    [|discriminate].
  cbn [bind]. intro H. inversion H. right.
  exists p, i, hs, he.
  split; [exact Hfind|]. split; [|split; reflexivity].
  apply (select_period_base_day _ _ _ _ _ _ _ _ Hsel).
Qed.

End UpdateShape.

(** X10: whatever the sun-event function returns, an update leaves the hour
    offset, the selected preset and the editor state as they are; when it
    shows "No LOC" or "None" it leaves the whole state unchanged, and when
    it shows an hour the only change is the expiration, set to the
    date-time 60 seconds after the end of the sub-hour shown. *)
Theorem update_changes_only_the_expiry
    (sun_rise_set : Z -> Z -> Z -> double -> double -> Z * double * double)
    (longLatPresets : list (Z * Z)) (indeterminate : watch_date_time_t)
    (host : host_t) (state st' : planetary_hour_state_t) (shown : display_t) :
  _planetary_hour_face_update sun_rise_set longLatPresets indeterminate
    host state = Some (st', shown) ->
  hour_offset st' = hour_offset state /\
  longLatToUse st' = longLatToUse state /\
  location_state st' = location_state state /\
  match shown with
  | Display_Hour r =>
      hour_offset_expires st' = _from_unix (u32 (_unix (hour_end r) + 60))
  | _ => st' = state
  end.
Proof.
  intro H. apply update_outcomes in H.
  destruct H as [[-> [-> | ->]] | (p & i & hs & he & _ & _ & -> & ->)];
    repeat split; reflexivity.
Qed.

Lemma update_changes_only_the_expiry_witness :
  let host := arctic_host (mk_date_time 4 5 10 12 0 0) in
  let state := fresh_state (mk_date_time 4 5 10 12 0 0) in
  exists st' r,
    _planetary_hour_face_update midnight_sun_onset [] zero_date_time
      host state = Some (st', Display_Hour r) /\
    hour_offset st' = hour_offset state /\
    longLatToUse st' = longLatToUse state /\
    location_state st' = location_state state /\
    hour_offset_expires st' = _from_unix (u32 (_unix (hour_end r) + 60)).
Proof.
  cbv zeta.
  destruct (_planetary_hour_face_update midnight_sun_onset [] zero_date_time
              (arctic_host (mk_date_time 4 5 10 12 0 0))
              (fresh_state (mk_date_time 4 5 10 12 0 0)))
    as [[st' [| |r]]|] eqn:E; try (vm_compute in E; discriminate E).
  exists st', r. split; [reflexivity|].
  exact (update_changes_only_the_expiry midnight_sun_onset [] zero_date_time
           _ _ st' (Display_Hour r) E).
Defined.

(** X11: whenever an update shows an hour, its index is between 0 and 11,
    the weekday computed for the base day is between 0 and 6 and the ruler
    index between 0 and 6, so that the ruler shown is an entry of the table
    of the seven planets: neither table is read out of bounds, whatever
    the clock, the location and the sun-event function. *)
Theorem update_reads_its_tables_in_bounds
    (sun_rise_set : Z -> Z -> Z -> double -> double -> Z * double * double)
    (longLatPresets : list (Z * Z)) (indeterminate : watch_date_time_t)
    (host : host_t) (state st' : planetary_hour_state_t)
    (r : planetary_hour_t) :
  _planetary_hour_face_update sun_rise_set longLatPresets indeterminate
    host state = Some (st', Display_Hour r) ->
  let offset := hour_index r + (if is_night (ph_period r) then 12 else 0) in
  0 <= hour_index r <= 11 /\
  0 <= day_of_week (base_day (ph_period r)) <= 6 /\
  0 <= ruler_index (base_day (ph_period r)) offset <= 6 /\
  ruler r = planetary_ruler_from_base_and_time (base_day (ph_period r)) offset /\
  In (ruler r) planet_names.
Proof.
  intros H offset. apply update_outcomes in H.
  destruct H as [[_ [H | H]] | (p & i & hs & he & Hfind & Hbase & _ & H)];
    try discriminate.
  inversion H. subst r. subst offset.
  cbn [hour_index ph_period ruler].
  pose proof (find_planetary_hour_index _ _ _ _ _ _ Hfind) as Hi.
  assert (Hw : 0 <= day_of_week (base_day p) <= 6).
  { destruct Hbase as [-> | ->].
    - rewrite day_of_week_midnight. unfold target_time_of.
      pose proof (from_unix_date_fields
                    (u32 (_unix (movement_get_local_date_time host)
                          + hour_offset state * 3600))) as F.
      cbv zeta in F. apply day_of_week_range; lia.
    - destruct (add_days_is_from_unix
                  (_midnight_of (target_time_of host state)) (-1)) as [n ->].
      pose proof (from_unix_date_fields n) as F. cbv zeta in F.
      apply day_of_week_range; lia. }
  assert (Hoff : 0 <= i + (if is_night p then 12 else 0))
    by (destruct (is_night p); lia).
  destruct (ruler_in_table (base_day p) _ Hw Hoff) as [Hr Hin].
  repeat split; try lia; assumption.
Qed.

Lemma update_reads_its_tables_in_bounds_witness :
  let host := arctic_host (mk_date_time 4 5 10 12 0 0) in
  let state := fresh_state (mk_date_time 4 5 10 12 0 0) in
  exists st' r,
    _planetary_hour_face_update midnight_sun_onset [] zero_date_time
      host state = Some (st', Display_Hour r) /\
    0 <= hour_index r <= 11 /\
    In (ruler r) planet_names.
Proof.
  cbv zeta.
  destruct (_planetary_hour_face_update midnight_sun_onset [] zero_date_time
              (arctic_host (mk_date_time 4 5 10 12 0 0))
              (fresh_state (mk_date_time 4 5 10 12 0 0)))
    as [[st' [| |r]]|] eqn:E; try (vm_compute in E; discriminate E).
  exists st', r. split; [reflexivity|].
  pose proof (update_reads_its_tables_in_bounds midnight_sun_onset []
                zero_date_time _ _ st' r E) as H.
  cbv zeta in H. split; [apply H|apply H].
Defined.

(** ** The event loop: what it keeps *)

Lemma update_register_frame host ls h' ls' :
  _update_location_register host ls = (h', ls') ->
  watch_get_lcd_type h' = watch_get_lcd_type host /\
  movement_get_local_date_time h' = movement_get_local_date_time host /\
  page ls' = page ls /\ active_digit ls' = active_digit ls /\
  working_latitude ls' = working_latitude ls /\
  working_longitude ls' = working_longitude ls /\
  (load_location_from_filesystem h' <> load_location_from_filesystem host ->
   location_changed ls = true /\
   load_location_from_filesystem h'
   = (_latlon_from_struct (working_latitude ls),
      _latlon_from_struct (working_longitude ls))).
Proof.
  unfold _update_location_register.
  destruct (location_changed ls) eqn:E; intro H; inversion H; subst;
    refine (conj _ (conj _ (conj _ (conj _ (conj _ (conj _ _))))));
    try reflexivity.
  - intros _. split; reflexivity.
  - intro C. congruence.
Qed.

Lemma advance_cursor_ok host ls h' ls' :
  cursor_ok (watch_get_lcd_type host) ls -> page ls <> 0 ->
  advance_cursor host ls = (h', ls') ->
  cursor_ok (watch_get_lcd_type host) ls'.
Proof.
  destruct ls as [p d ch lat lon].
  unfold cursor_ok, advance_cursor, last_digit, _update_location_register.
  cbn [page active_digit with_cursor location_changed with_changed].
  intros [[Hp _] | (Hp & Hd & Hskip)] Hp0; [contradiction|].
  destruct (watch_get_lcd_type host) eqn:Hlcd.
  - assert (Hc : d = 0 \/ d = 2 \/ d = 3 \/ d = 4 \/ d = 5 \/ (p = 2 /\ d = 1)).
    { destruct Hp as [-> | ->]; [|lia].
      destruct (Z.eq_dec d 1) as [-> | N]; [|lia].
      exfalso. apply Hskip. repeat split. }
    destruct Hp as [-> | ->];
      destruct Hc as [-> | [-> | [-> | [-> | [-> | [Hp2 ->]]]]]];
      try discriminate Hp2;
      cbn; destruct ch; intro H; inversion H; subst; cbn;
      first [ left; split; reflexivity
            | right; split; [first [left; reflexivity | right; reflexivity]|];
              split; [lia|]; intros (_ & A & B); discriminate ].
  - assert (Hc : d = 0 \/ d = 1 \/ d = 2 \/ d = 3 \/ d = 4) by lia.
    destruct Hp as [-> | ->];
      destruct Hc as [-> | [-> | [-> | [-> | ->]]]];
      cbn; destruct ch; intro H; inversion H; subst; cbn;
      first [ left; split; reflexivity
            | right; split; [first [left; reflexivity | right; reflexivity]|];
              split; [lia|]; intros (A & _); discriminate ].
Qed.

Lemma advance_cursor_host host ls h' ls' :
  advance_cursor host ls = (h', ls') ->
  watch_get_lcd_type h' = watch_get_lcd_type host /\
  movement_get_local_date_time h' = movement_get_local_date_time host /\
  working_latitude ls' = working_latitude ls /\
  working_longitude ls' = working_longitude ls /\
  (load_location_from_filesystem h' <> load_location_from_filesystem host ->
   location_changed ls = true /\
   load_location_from_filesystem h'
   = (_latlon_from_struct (working_latitude ls),
      _latlon_from_struct (working_longitude ls))).
Proof.
  unfold advance_cursor. cbv zeta.
  destruct (watch_get_lcd_type host) eqn:Hlcd;
    repeat match goal with
    | |- context [if ?c then _ else _] => destruct c
    end;
    intro H;
    first
      [ apply update_register_frame in H;
        cbn [with_cursor working_latitude working_longitude location_changed]
          in H;
        rewrite Hlcd in H;
        destruct H as (A & B & _ & _ & C & D & E);
        refine (conj A (conj B (conj C (conj D E))))
      | inversion H; subst;
        refine (conj _ (conj _ (conj _ (conj _ _))));
        [assumption | reflexivity | reflexivity | reflexivity
        | intro C; congruence] ].
Qed.

(** The cursor step writes the stored location only when it wraps. *)
Lemma advance_cursor_commit host ls h' ls' :
  advance_cursor host ls = (h', ls') ->
  load_location_from_filesystem h' <> load_location_from_filesystem host ->
  last_digit (watch_get_lcd_type host) <= active_digit ls /\
  page ls' = cmod (page ls + 1) 3 /\ active_digit ls' = 0.
Proof.
  unfold advance_cursor, last_digit. cbv zeta.
  destruct (watch_get_lcd_type host);
    repeat match goal with
    | |- context [if ?c then _ else _] => destruct c eqn:?
    end;
    intros H N;
    try (inversion H; subst; contradiction);
    apply update_register_frame in H;
    destruct H as (_ & _ & Hp & Hd & _);
    cbn [with_cursor page active_digit] in Hp, Hd;
    (split; [|split; assumption]);
    repeat match goal with
    | E : (_ >? _) = true |- _ => apply Z.gtb_lt in E
    | E : context [if ?c then _ else _] |- _ => destruct c eqn:?
    | E : (_ && _) = true |- _ => apply andb_true_iff in E; destruct E
    | E : (_ =? _) = true |- _ => apply Z.eqb_eq in E
    end; lia.
Qed.

Section LoopFrame.

Variable sun_rise_set : Z -> Z -> Z -> double -> double -> Z * double * double.
Variable longLatPresets : list (Z * Z).
Variable indeterminate : watch_date_time_t.

Local Abbreviation loop :=
  (planetary_hour_face_loop sun_rise_set longLatPresets indeterminate).
Local Abbreviation update :=
  (call_update sun_rise_set longLatPresets indeterminate).

Lemma call_update_frame host state before h' s' eff :
  update host state before = Some (h', s', eff) ->
  h' = host /\ hour_offset s' = hour_offset state /\
  longLatToUse s' = longLatToUse state /\
  location_state s' = location_state state.
Proof.
  unfold call_update.
  destruct (_planetary_hour_face_update _ _ _ _ _) as [[st shown]|] eqn:E;
    [|discriminate].
  cbn [bind]. intro H. inversion H. subst.
  apply update_outcomes in E.
  destruct E as [[-> _] | (p & i & hs & he & _ & _ & -> & _)];
    repeat split; reflexivity.
Qed.

End LoopFrame.

Ltac loop_cases H :=
  repeat match type of H with
  | context [if ?c then _ else _] => destruct c eqn:?
  | context [let '(_, _) := ?x in _] => destruct x as [? ?] eqn:?
  end.

Lemma light_button_on_editing_page
    (sun_rise_set : Z -> Z -> Z -> double -> double -> Z * double * double)
    (longLatPresets : list (Z * Z)) (indeterminate : watch_date_time_t)
    host state :
  page (location_state state) <> 0 ->
  planetary_hour_face_loop sun_rise_set longLatPresets indeterminate
    host EVENT_LIGHT_BUTTON_UP state
  = let '(h, l) := advance_cursor host (location_state state) in
    if page l =? 0
    then call_update sun_rise_set longLatPresets indeterminate h
           (with_hour_offset (with_location_state state l)
                             (hour_offset state - 1))
           [Location_settings_display; Request_tick_frequency 1]
    else Some (h, with_location_state state l, [Location_settings_display]).
Proof.
  intro Hp. unfold planetary_hour_face_loop.
  destruct (Z.eqb_spec (page (location_state state)) 0) as [C|_];
    [contradiction|].
  cbn [andb negb].
  destruct (advance_cursor host (location_state state)) as [h l].
  destruct (page l =? 0); reflexivity.
Qed.

Lemma cursor_ok_same_position lcd a b :
  page a = page b -> active_digit a = active_digit b ->
  cursor_ok lcd b -> cursor_ok lcd a.
Proof. unfold cursor_ok. intros -> ->. tauto. Qed.

(** X12: the loop keeps the cursor of the editor on the layout: after any
    event the cursor is at rest (page 0, digit 0) or on a digit of page 1
    or 2 that the display has, and on the six-position layout never on
    the second position of the latitude page, the one the digit advance
    skips; the display type is not changed. *)
Theorem loop_keeps_the_cursor_on_the_layout
    (sun_rise_set : Z -> Z -> Z -> double -> double -> Z * double * double)
    (longLatPresets : list (Z * Z)) (indeterminate : watch_date_time_t)
    (host : host_t) (event : movement_event_type_t)
    (state : planetary_hour_state_t)
    (h' : host_t) (s' : planetary_hour_state_t) (eff : list effect_t) :
  cursor_ok (watch_get_lcd_type host) (location_state state) ->
  planetary_hour_face_loop sun_rise_set longLatPresets indeterminate
    host event state = Some (h', s', eff) ->
  watch_get_lcd_type h' = watch_get_lcd_type host /\
  cursor_ok (watch_get_lcd_type host) (location_state s').
Proof.
  intros Hok H.
  destruct (Z.eq_dec (page (location_state state)) 0) as [Hp|Hp].
  - (* at rest *)
    unfold planetary_hour_face_loop in H. rewrite Hp in H.
    cbn [Z.eqb negb andb] in H.
    destruct event; loop_cases H;
      try (apply call_update_frame in H; destruct H as (-> & _ & _ & ->));
      try (inversion H; subst; clear H);
      cbn [location_state with_location_state with_hour_offset with_preset];
      try (split; [reflexivity | exact Hok]).
    split; [reflexivity|]. right.
    cbn [with_cursor page active_digit].
    split; [left; reflexivity|]. split.
    + destruct (watch_get_lcd_type h'); cbn; lia.
    + intros (_ & _ & A). discriminate.
  - pose proof (light_button_on_editing_page sun_rise_set longLatPresets
                  indeterminate host state Hp) as HL.
    destruct event;
      [ | | | | | | | | | rewrite HL in H; clear HL | ];
      try (clear HL; unfold planetary_hour_face_loop in H;
           destruct (Z.eqb_spec (page (location_state state)) 0) as [C|_];
           [contradiction|]; cbn [negb andb] in H).
    + apply call_update_frame in H. destruct H as (-> & _ & _ & ->).
      split; [reflexivity | exact Hok].
    + inversion H; subst. split; [reflexivity | exact Hok].
    + inversion H; subst. split; [reflexivity | exact Hok].
    + destruct (_update_location_register host
                  (with_cursor (location_state state) 0 0)) as [h l] eqn:E.
      apply call_update_frame in H. destruct H as (-> & _ & _ & ->).
      apply update_register_frame in E.
      destruct E as (E1 & _ & E2 & E3 & _).
      cbn [location_state with_location_state].
      split; [exact E1|]. left. rewrite E2, E3. split; reflexivity.
    + inversion H; subst. split; [reflexivity|].
      cbn [location_state with_location_state].
      destruct (advance_digit_frame (watch_get_lcd_type h')
                  (location_state state)) as (E1 & E2 & _).
      exact (cursor_ok_same_position _ _ _ E1 E2 Hok).
    + inversion H; subst. split; [reflexivity | exact Hok].
    + inversion H; subst. split; [reflexivity | exact Hok].
    + inversion H; subst. split; [reflexivity | exact Hok].
    + inversion H; subst. split; [reflexivity | exact Hok].
    + destruct (advance_cursor host (location_state state)) as [h l] eqn:E.
      pose proof (advance_cursor_ok _ _ _ _ Hok Hp E) as Hc.
      apply advance_cursor_host in E. destruct E as (E1 & _).
      destruct (page l =? 0).
      * apply call_update_frame in H. destruct H as (-> & _ & _ & ->).
        split; [exact E1 | exact Hc].
      * inversion H; subst. split; [exact E1 | exact Hc].
    + inversion H; subst. split; [reflexivity | exact Hok].
Qed.

Lemma loop_keeps_the_cursor_on_the_layout_witness :
  let now := mk_date_time 4 5 10 12 0 0 in
  exists s' eff,
    planetary_hour_face_loop midnight_sun_onset [] zero_date_time
      (arctic_host now) EVENT_ALARM_LONG_PRESS (fresh_state now)
    = Some (arctic_host now, s', eff) /\
    page (location_state s') = 1 /\
    cursor_ok WATCH_LCD_TYPE_CLASSIC (location_state s').
Proof.
  cbv zeta. eexists. eexists.
  split; [reflexivity|]. split; [reflexivity|].
  refine (proj2 (loop_keeps_the_cursor_on_the_layout midnight_sun_onset []
            zero_date_time (arctic_host (mk_date_time 4 5 10 12 0 0))
            EVENT_ALARM_LONG_PRESS (fresh_state (mk_date_time 4 5 10 12 0 0))
            _ _ _ _ eq_refl)).
  left. split; reflexivity.
Defined.

(** X13: the loop writes the stored location only when an editing page is
    left after a digit was advanced: by a long press of the alarm button,
    which takes the cursor to page 0, or by a press of the light button with
    the cursor on or past the last digit of the page, which takes it to the
    first digit of the next page (page 0 after page 2).  What it writes is
    the coordinate pair the working digits stand for.  Every other event,
    a light-button press that keeps the cursor on the page, and every event
    on page 0 leave the stored location as it is.  The clock and the
    display type are never changed. *)
Theorem stored_location_is_written_on_leaving_a_page
    (sun_rise_set : Z -> Z -> Z -> double -> double -> Z * double * double)
    (longLatPresets : list (Z * Z)) (indeterminate : watch_date_time_t)
    (host : host_t) (event : movement_event_type_t)
    (state : planetary_hour_state_t)
    (h' : host_t) (s' : planetary_hour_state_t) (eff : list effect_t) :
  planetary_hour_face_loop sun_rise_set longLatPresets indeterminate
    host event state = Some (h', s', eff) ->
  watch_get_lcd_type h' = watch_get_lcd_type host /\
  movement_get_local_date_time h' = movement_get_local_date_time host /\
  (load_location_from_filesystem h' <> load_location_from_filesystem host ->
   page (location_state state) <> 0 /\
   ((event = EVENT_ALARM_LONG_PRESS /\ page (location_state s') = 0) \/
    (event = EVENT_LIGHT_BUTTON_UP /\
     last_digit (watch_get_lcd_type host)
     <= active_digit (location_state state) /\
     page (location_state s') = cmod (page (location_state state) + 1) 3)) /\
   page (location_state s') <> page (location_state state) /\
   active_digit (location_state s') = 0 /\
   location_changed (location_state state) = true /\
   load_location_from_filesystem h'
   = (_latlon_from_struct (working_latitude (location_state state)),
      _latlon_from_struct (working_longitude (location_state state)))).
Proof.
  intro H.
  destruct (Z.eq_dec (page (location_state state)) 0) as [Hp|Hp].
  - unfold planetary_hour_face_loop in H. rewrite Hp in H.
    cbn [Z.eqb negb andb] in H.
    destruct event; loop_cases H;
      try (apply call_update_frame in H; destruct H as (-> & _));
      try (inversion H; subst; clear H);
      (split; [reflexivity|]; split; [reflexivity|]; intro C; congruence).
  - pose proof (light_button_on_editing_page sun_rise_set longLatPresets
                  indeterminate host state Hp) as HL.
    destruct event;
      [ | | | | | | | | | rewrite HL in H; clear HL | ];
      try (clear HL; unfold planetary_hour_face_loop in H;
           destruct (Z.eqb_spec (page (location_state state)) 0) as [C|_];
           [contradiction|]; cbn [negb andb] in H).
    1-3,5-9,11:
      try (apply call_update_frame in H; destruct H as (-> & _));
      try (inversion H; subst; clear H);
      (split; [reflexivity|]; split; [reflexivity|]; intro C; congruence).
    + destruct (_update_location_register host
                  (with_cursor (location_state state) 0 0)) as [h l] eqn:E.
      apply call_update_frame in H. destruct H as (-> & _ & _ & ->).
      apply update_register_frame in E.
      cbn [with_cursor working_latitude working_longitude location_changed
           page active_digit] in E.
      destruct E as (E1 & E2 & E6 & E7 & _ & _ & E3).
      cbn [location_state with_location_state].
      split; [exact E1|]. split; [exact E2|]. intro C.
      destruct (E3 C) as [E4 E5].
      split; [exact Hp|].
      split; [left; split; [reflexivity | exact E6]|].
      split; [rewrite E6; intro A; apply Hp; symmetry; exact A|].
      split; [exact E7|].
      split; [exact E4 | exact E5].
    + destruct (advance_cursor host (location_state state)) as [h l] eqn:E.
      pose proof (advance_cursor_commit _ _ _ _ E) as Hwrap.
      apply advance_cursor_host in E.
      destruct E as (E1 & E2 & _ & _ & E3).
      assert (h' = h /\ location_state s' = l) as [-> Hl].
      { destruct (page l =? 0).
        - apply call_update_frame in H. destruct H as (-> & _ & _ & ->).
          split; reflexivity.
        - inversion H. split; reflexivity. }
      split; [exact E1|]. split; [exact E2|]. intro C.
      destruct (E3 C) as [E4 E5].
      destruct (Hwrap C) as (W1 & W2 & W3).
      rewrite Hl.
      split; [exact Hp|].
      split; [right; split; [reflexivity|]; split; [exact W1 | exact W2]|].
      split; [rewrite W2; unfold cmod; zlia|].
      split; [exact W3|].
      split; [exact E4 | exact E5].
Qed.

Lemma stored_location_is_written_on_leaving_a_page_witness :
  let now := mk_date_time 4 5 10 12 0 0 in
  let host := arctic_host now in
  let state :=
    mk_state 0 0 now
      (mk_location_state 2 5 true
         (_planetary_hour_face_struct_from_latlon 6950)
         (_planetary_hour_face_struct_from_latlon 1890)) in
  exists h' s' eff,
    planetary_hour_face_loop midnight_sun_onset [] zero_date_time
      host EVENT_LIGHT_BUTTON_UP state = Some (h', s', eff) /\
    load_location_from_filesystem h' = (6950, 1890) /\
    page (location_state s') = 0 /\
    active_digit (location_state s') = 0 /\
    watch_get_lcd_type h' = watch_get_lcd_type host /\
    movement_get_local_date_time h' = movement_get_local_date_time host.
Proof.
  cbv zeta.
  destruct (planetary_hour_face_loop midnight_sun_onset [] zero_date_time
              (arctic_host (mk_date_time 4 5 10 12 0 0)) EVENT_LIGHT_BUTTON_UP
              (mk_state 0 0 (mk_date_time 4 5 10 12 0 0)
                 (mk_location_state 2 5 true
                    (_planetary_hour_face_struct_from_latlon 6950)
                    (_planetary_hour_face_struct_from_latlon 1890))))
    as [[[h' s'] eff]|] eqn:E; [|vm_compute in E; discriminate E].
  exists h', s', eff. split; [reflexivity|].
  pose proof (stored_location_is_written_on_leaving_a_page midnight_sun_onset
                [] zero_date_time _ _ _ h' s' eff E) as (W1 & W2 & W3).
  assert (N : load_location_from_filesystem h' <> (7000, 1900)).
  { vm_compute in E. inversion E. subst. discriminate. }
  destruct (W3 N) as (_ & [[A _] | (_ & _ & W5)] & _ & W6 & _ & W4);
    [discriminate A|].
  split; [exact W4|]. split; [exact W5|]. split; [exact W6|].
  split; [exact W1 | exact W2].
Defined.

(** X14: the loop keeps the preset index inside the preset table: if the
    index is 0 or a position of the table below [_location_count] before
    an event, it is so after the event, so that the table lookup of the
    update never reads past the end of the presets. *)
Theorem loop_keeps_the_preset_in_the_table
    (sun_rise_set : Z -> Z -> Z -> double -> double -> Z * double * double)
    (longLatPresets : list (Z * Z)) (indeterminate : watch_date_time_t)
    (host : host_t) (event : movement_event_type_t)
    (state : planetary_hour_state_t)
    (h' : host_t) (s' : planetary_hour_state_t) (eff : list effect_t) :
  preset_ok longLatPresets state ->
  planetary_hour_face_loop sun_rise_set longLatPresets indeterminate
    host event state = Some (h', s', eff) ->
  preset_ok longLatPresets s'.
Proof.
  intros Hok H.
  assert (Hcount : _location_count longLatPresets
                   <= Z.of_nat (List.length longLatPresets)).
  { unfold _location_count, u8.
    apply Z.mod_le; [lia | reflexivity]. }
  assert (Hcycle : 1 < _location_count longLatPresets ->
            preset_ok longLatPresets
              (with_preset state
                 (cmod (longLatToUse state + 1)
                       (_location_count longLatPresets)))).
  { intro Hc. unfold preset_ok in *. cbn [with_preset longLatToUse].
    assert (Hl : 0 <= longLatToUse state) by lia.
    rewrite cmod_nonneg by lia.
    pose proof (Z.mod_pos_bound (longLatToUse state + 1)
                  (_location_count longLatPresets) ltac:(lia)) as Hb.
    destruct (Z.eq_dec ((longLatToUse state + 1)
                        mod _location_count longLatPresets) 0) as [E|N];
      [left; exact E|right].
    split; [lia|]. lia. }
  assert (Hkeep : forall s0, longLatToUse s0 = longLatToUse state ->
                             preset_ok longLatPresets s0).
  { intros s0 E. unfold preset_ok in *. rewrite E. exact Hok. }
  assert (Hzero : forall s0, longLatToUse s0 = 0 ->
                             preset_ok longLatPresets s0).
  { intros s0 E. left. exact E. }
  destruct (Z.eq_dec (page (location_state state)) 0) as [Hp|Hp].
  - unfold planetary_hour_face_loop in H. rewrite Hp in H.
    cbn [Z.eqb negb andb] in H.
    destruct event; loop_cases H;
      try (apply call_update_frame in H; destruct H as (_ & _ & E & _));
      try (inversion H; subst; clear H);
      try (apply Hkeep; first [exact E | reflexivity]);
      try (apply Hzero; exact E).
    unfold preset_ok. rewrite E. cbn [with_preset longLatToUse].
    apply Z.gtb_lt in Heqb. apply (Hcycle ltac:(lia)).
  - pose proof (light_button_on_editing_page sun_rise_set longLatPresets
                  indeterminate host state Hp) as HL.
    destruct event;
      [ | | | | | | | | | rewrite HL in H; clear HL | ];
      try (clear HL; unfold planetary_hour_face_loop in H;
           destruct (Z.eqb_spec (page (location_state state)) 0) as [C|_];
           [contradiction|]; cbn [negb andb] in H).
    1-3,5-9,11:
      try (apply call_update_frame in H; destruct H as (_ & _ & E & _));
      try (inversion H; subst; clear H);
      apply Hkeep; first [exact E | reflexivity].
    + destruct (_update_location_register host
                  (with_cursor (location_state state) 0 0)) as [h l].
      apply call_update_frame in H. destruct H as (_ & _ & E & _).
      apply Hkeep. exact E.
    + destruct (advance_cursor host (location_state state)) as [h l].
      destruct (page l =? 0).
      * apply call_update_frame in H. destruct H as (_ & _ & E & _).
        apply Hkeep. exact E.
      * inversion H; subst. apply Hkeep. reflexivity.
Qed.

Lemma loop_keeps_the_preset_in_the_table_witness :
  let now := mk_date_time 4 5 10 12 0 0 in
  let presets := [(0, 0); (7000, 1900); (4850, 230)] in
  exists h' s' eff,
    planetary_hour_face_loop midnight_sun_onset presets zero_date_time
      (arctic_host now) EVENT_LIGHT_BUTTON_UP (fresh_state now)
    = Some (h', s', eff) /\
    preset_ok presets s'.
Proof.
  cbv zeta.
  destruct (planetary_hour_face_loop midnight_sun_onset
              [(0, 0); (7000, 1900); (4850, 230)] zero_date_time
              (arctic_host (mk_date_time 4 5 10 12 0 0)) EVENT_LIGHT_BUTTON_UP
              (fresh_state (mk_date_time 4 5 10 12 0 0)))
    as [[[h' s'] eff]|] eqn:E; [|vm_compute in E; discriminate E].
  exists h', s', eff. split; [reflexivity|].
  refine (loop_keeps_the_preset_in_the_table midnight_sun_onset
            [(0, 0); (7000, 1900); (4850, 230)] zero_date_time
            (arctic_host (mk_date_time 4 5 10 12 0 0)) EVENT_LIGHT_BUTTON_UP
            (fresh_state (mk_date_time 4 5 10 12 0 0)) h' s' eff _ E).
  left. reflexivity.
Defined.

(** ** The way through the editor *)

(** X15: from the first digit of the latitude page, the light button walks
    the cursor through the digits of the latitude page and of the longitude
    page and back to page 0: in ten presses over five positions a page on
    the custom display, in eleven presses on the classic display, where the
    latitude page has no second position. *)
Theorem light_button_tour_of_the_editor
    (host : host_t) (ls : location_state_t) :
  page ls = 1 -> active_digit ls = 0 ->
  match watch_get_lcd_type host with
  | WATCH_LCD_TYPE_CUSTOM =>
      cursor_trace 10 host ls
      = [(1, 0); (1, 1); (1, 2); (1, 3); (1, 4);
         (2, 0); (2, 1); (2, 2); (2, 3); (2, 4); (0, 0)]
  | WATCH_LCD_TYPE_CLASSIC =>
      cursor_trace 11 host ls
      = [(1, 0); (1, 2); (1, 3); (1, 4); (1, 5);
         (2, 0); (2, 1); (2, 2); (2, 3); (2, 4); (2, 5); (0, 0)]
  end.
Proof.
  destruct ls as [p d ch lat lon]. cbn [page active_digit].
  intros -> ->.
  destruct host as [now tz loc lcd mode anim]. cbn [watch_get_lcd_type].
  destruct lcd; destruct ch; reflexivity.
Qed.

Lemma light_button_tour_of_the_editor_witness :
  cursor_trace 11 (arctic_host (mk_date_time 4 5 10 12 0 0))
    (mk_location_state 1 0 false
       (_planetary_hour_face_struct_from_latlon 7000)
       (_planetary_hour_face_struct_from_latlon 1900))
  = [(1, 0); (1, 2); (1, 3); (1, 4); (1, 5);
     (2, 0); (2, 1); (2, 2); (2, 3); (2, 4); (2, 5); (0, 0)].
Proof.
  exact (light_button_tour_of_the_editor
           (arctic_host (mk_date_time 4 5 10 12 0 0))
           (mk_location_state 1 0 false
              (_planetary_hour_face_struct_from_latlon 7000)
              (_planetary_hour_face_struct_from_latlon 1900))
           eq_refl eq_refl).
Defined.

(** X16: the press of the light button that moves the cursor past the last
    digit of the longitude page leaves the editor, commits the location,
    and then also takes the hour offset one step back before the update
    runs; leaving the editor with a long press of the alarm button commits
    the location and runs the update with the hour offset as it was. *)
Theorem leaving_the_editor_by_the_light_button_steps_back
    (sun_rise_set : Z -> Z -> Z -> double -> double -> Z * double * double)
    (longLatPresets : list (Z * Z)) (indeterminate : watch_date_time_t)
    (host : host_t) (state : planetary_hour_state_t) :
  let loop := planetary_hour_face_loop sun_rise_set longLatPresets
                indeterminate host in
  let update := call_update sun_rise_set longLatPresets indeterminate in
  let committed :=
    _update_location_register host
      (with_cursor (location_state state) 0 0) in
  page (location_state state) = 2 ->
  active_digit (location_state state) = last_digit (watch_get_lcd_type host) ->
  loop EVENT_LIGHT_BUTTON_UP state
  = update (fst committed)
      (with_hour_offset (with_location_state state (snd committed))
                        (hour_offset state - 1))
      [Location_settings_display; Request_tick_frequency 1] /\
  loop EVENT_ALARM_LONG_PRESS state
  = update (fst committed) (with_location_state state (snd committed)) [].
Proof.
  intros loop update committed Hp Hd. subst loop update committed. split.
  - rewrite light_button_on_editing_page by (rewrite Hp; discriminate).
    unfold advance_cursor. rewrite Hp, Hd.
    destruct (watch_get_lcd_type host); cbn [last_digit];
      change (cmod (2 + 1) 3) with 0;
      try change ((2 =? 1) && (5 + 1 =? 1)) with false; cbv iota;
      try change (5 + 1 >? 5) with true;
      try change (4 + 1 >? 4) with true; cbv iota;
      destruct (_update_location_register host
                  (with_cursor (location_state state) 0 0)) as [h l] eqn:E;
      cbn [fst snd];
      apply update_register_frame in E; destruct E as (_ & _ & E & _);
      cbn [with_cursor page] in E; rewrite E; reflexivity.
  - unfold planetary_hour_face_loop. rewrite Hp. cbn [Z.eqb].
    destruct (_update_location_register host
                (with_cursor (location_state state) 0 0)) as [h l].
    reflexivity.
Qed.

Lemma leaving_the_editor_by_the_light_button_steps_back_witness :
  let now := mk_date_time 4 5 10 12 0 0 in
  let state :=
    mk_state 3 0 now
      (mk_location_state 2 5 true
         (_planetary_hour_face_struct_from_latlon 6950)
         (_planetary_hour_face_struct_from_latlon 1890)) in
  let committed :=
    _update_location_register (arctic_host now)
      (with_cursor (location_state state) 0 0) in
  planetary_hour_face_loop midnight_sun_onset [] zero_date_time
    (arctic_host now) EVENT_LIGHT_BUTTON_UP state
  = call_update midnight_sun_onset [] zero_date_time (fst committed)
      (with_hour_offset (with_location_state state (snd committed)) (3 - 1))
      [Location_settings_display; Request_tick_frequency 1].
Proof.
  cbv zeta.
  apply (leaving_the_editor_by_the_light_button_steps_back midnight_sun_onset
           [] zero_date_time (arctic_host (mk_date_time 4 5 10 12 0 0))
           (mk_state 3 0 (mk_date_time 4 5 10 12 0 0)
              (mk_location_state 2 5 true
                 (_planetary_hour_face_struct_from_latlon 6950)
                 (_planetary_hour_face_struct_from_latlon 1890))));
    reflexivity.
Defined.

(** ** Activation and resignation *)

Lemma settings_of_coordinate val bound :
  -19999 <= val <= 19999 -> Z.abs val <= bound ->
  settings_wf (_planetary_hour_face_struct_from_latlon val) /\
  decimal_digits (_planetary_hour_face_struct_from_latlon val) /\
  _latlon_from_struct (_planetary_hour_face_struct_from_latlon val) = val /\
  Z.abs (_latlon_from_struct (_planetary_hour_face_struct_from_latlon val))
  <= bound.
Proof.
  intros Hr Hb.
  destruct (struct_from_latlon_decodes val Hr) as (E & W & D).
  rewrite E. split; [exact W|]. split; [exact D|].
  split; [reflexivity | exact Hb].
Qed.

(** X17: setup gives every context a state (a zeroed one when there was
    none, the existing one otherwise), and activation, whatever that state,
    resets the hour offset and the preset, sets the expiration to the
    current time, puts the cursor at rest with nothing marked as changed,
    and loads the working digits from the stored location: for a stored
    latitude within 90.00 and longitude within 180.00 degrees the digits are
    well formed, within range, and stand for the stored values. *)
Theorem activation_sets_up_the_editor
    (longLatPresets : list (Z * Z)) (host : host_t)
    (context : option planetary_hour_state_t) :
  Z.abs (fst (load_location_from_filesystem host)) <= 9000 ->
  Z.abs (snd (load_location_from_filesystem host)) <= 18000 ->
  exists state,
    planetary_hour_face_setup context = Some state /\
    (context = None -> state = zeroed_state) /\
    (forall s0, context = Some s0 -> state = s0) /\
    let s := planetary_hour_face_activate host state in
    hour_offset s = 0 /\ longLatToUse s = 0 /\
    hour_offset_expires s = movement_get_local_date_time host /\
    page (location_state s) = 0 /\ active_digit (location_state s) = 0 /\
    location_changed (location_state s) = false /\
    editor_ok (location_state s) /\
    _latlon_from_struct (working_latitude (location_state s))
    = fst (load_location_from_filesystem host) /\
    _latlon_from_struct (working_longitude (location_state s))
    = snd (load_location_from_filesystem host) /\
    cursor_ok (watch_get_lcd_type host) (location_state s) /\
    preset_ok longLatPresets s.
Proof.
  intros Hlat Hlon.
  exists (match context with Some s0 => s0 | None => zeroed_state end).
  split; [destruct context; reflexivity|].
  split; [intros ->; reflexivity|].
  split; [intros s0 ->; reflexivity|].
  set (state := match context with Some s0 => s0 | None => zeroed_state end).
  clearbody state. cbv zeta.
  unfold planetary_hour_face_activate.
  destruct (load_location_from_filesystem host) as [lat lon].
  cbn [fst snd] in *.
  cbn [hour_offset longLatToUse hour_offset_expires location_state
       with_location_state with_expires with_preset with_hour_offset
       with_changed with_cursor with_latitude with_longitude page active_digit
       location_changed working_latitude working_longitude].
  destruct (settings_of_coordinate lat 9000 ltac:(lia) Hlat)
    as (W1 & _ & E1 & R1).
  destruct (settings_of_coordinate lon 18000 ltac:(lia) Hlon)
    as (W2 & _ & E2 & R2).
  refine (conj eq_refl (conj eq_refl (conj eq_refl (conj eq_refl
            (conj eq_refl (conj eq_refl (conj _ (conj E1 (conj E2
            (conj _ _)))))))))).
  - unfold editor_ok, lat_in_range, lon_in_range.
    cbn [working_latitude working_longitude].
    split; [exact W1|]. split; [exact R1|]. split; [exact W2 | exact R2].
  - left. split; reflexivity.
  - left. reflexivity.
Qed.

Lemma activation_sets_up_the_editor_witness :
  let host := arctic_host (mk_date_time 4 5 10 12 0 0) in
  exists state,
    planetary_hour_face_setup None = Some state /\
    let s := planetary_hour_face_activate host state in
    hour_offset_expires s = movement_get_local_date_time host /\
    editor_ok (location_state s) /\
    _latlon_from_struct (working_latitude (location_state s)) = 7000 /\
    _latlon_from_struct (working_longitude (location_state s)) = 1900.
Proof.
  cbv zeta.
  destruct (activation_sets_up_the_editor []
              (arctic_host (mk_date_time 4 5 10 12 0 0)) None)
    as (state & E & _ & _ & H).
  - cbn. lia.
  - cbn. lia.
  - exists state. split; [exact E|]. cbv zeta in H.
    destruct H as (_ & _ & H1 & _ & _ & _ & H2 & H3 & H4 & _).
    split; [exact H1|]. split; [exact H2|]. split; [exact H3 | exact H4].
Defined.


(** ** Registers and instants *)

(** X19: for two date-times the RTC can hold, the comparison of the packed
    registers, which the tick uses to decide whether the display has
    expired, gives the same answer as the comparison of the instants. *)
Theorem register_order_is_time_order (a b : watch_date_time_t) :
  valid_date_time a = true -> valid_date_time b = true ->
  (reg a >=? reg b) = (_unix a >=? _unix b).
Proof.
  intros Ha Hb.
  pose proof (reg_le_iff_unix_le b a Hb Ha) as H.
  destruct (Z.geb_spec (reg a) (reg b));
    destruct (Z.geb_spec (_unix a) (_unix b)); try reflexivity; lia.
Qed.

Lemma register_order_is_time_order_witness :
  (reg (mk_date_time 4 3 1 0 0 5) >=? reg (mk_date_time 4 2 29 23 59 58))
  = (_unix (mk_date_time 4 3 1 0 0 5)
     >=? _unix (mk_date_time 4 2 29 23 59 58)).
Proof.
  apply (register_order_is_time_order (mk_date_time 4 3 1 0 0 5)
           (mk_date_time 4 2 29 23 59 58)); reflexivity.
Defined.

(** ** Days *)

Lemma add_days_plus_then_minus t :
  valid_date_time t = true -> _unix t + 86400 < end_day * 86400 ->
  _add_days (_add_days t 1) (-1) = t.
Proof.
  intros Hv Hlast.
  destruct (unix_add_days_plus_one t Hv Hlast) as [Hv1 Hu1].
  destruct (unix_valid t Hv) as [_ Hr]. unfold first_day in Hr.
  rewrite add_days_minus_one by lia.
  rewrite Hu1. replace (_unix t + 86400 - 86400) with (_unix t) by lia.
  apply from_unix_unix. exact Hv.
Qed.

Lemma add_days_minus_then_plus t :
  valid_date_time t = true -> first_day * 86400 <= _unix t - 86400 ->
  _add_days (_add_days t (-1)) 1 = t.
Proof.
  intros Hv Hfirst.
  destruct (unix_add_days_minus_one t Hv Hfirst) as [Hv1 Hu1].
  destruct (unix_valid t Hv) as [_ Hr]. unfold end_day in Hr.
  rewrite add_days_plus_one
    by (rewrite Hu1; change (2 ^ 32) with 4294967296; lia).
  rewrite Hu1. replace (_unix t - 86400 + 86400) with (_unix t) by lia.
  apply from_unix_unix. exact Hv.
Qed.

(** X20: adding a day and taking it away again, in either order, gives
    back the date-time, for every date-time the RTC holds whose neighbour
    day it holds too; the day added keeps the time of day. *)
Theorem add_days_there_and_back (t : watch_date_time_t) :
  valid_date_time t = true ->
  (_unix t + 86400 < end_day * 86400 ->
   _add_days (_add_days t 1) (-1) = t /\
   dt_hour (_add_days t 1) = dt_hour t /\
   dt_minute (_add_days t 1) = dt_minute t /\
   dt_second (_add_days t 1) = dt_second t) /\
  (first_day * 86400 <= _unix t - 86400 ->
   _add_days (_add_days t (-1)) 1 = t /\
   dt_hour (_add_days t (-1)) = dt_hour t /\
   dt_minute (_add_days t (-1)) = dt_minute t /\
   dt_second (_add_days t (-1)) = dt_second t).
Proof.
  intro Hv.
  assert (Htod : forall t', valid_date_time t' = true ->
            _unix t' mod 86400 = _unix t mod 86400 ->
            dt_hour t' = dt_hour t /\ dt_minute t' = dt_minute t /\
            dt_second t' = dt_second t).
  { intros t' Hv' E.
    destruct (unix_valid t Hv) as [U _]. destruct (unix_valid t' Hv') as [U' _].
    pose proof (valid_date_time_inv t Hv) as (_ & _ & _ & Hh & Hm & Hs).
    pose proof (valid_date_time_inv t' Hv') as (_ & _ & _ & Hh' & Hm' & Hs').
    rewrite U, U' in E.
    rewrite <- !Z.add_assoc in E.
    rewrite (Z.add_comm (_ * 86400)), (Z.add_comm (_ * 86400)) in E.
    rewrite !Z.mod_add in E by lia.
    rewrite !Z.mod_small in E by lia. lia. }
  split; intro H.
  - split; [apply add_days_plus_then_minus; assumption|].
    destruct (unix_add_days_plus_one t Hv H) as [Hv1 Hu1].
    apply Htod; [exact Hv1|]. rewrite Hu1.
    replace (_unix t + 86400) with (_unix t + 1 * 86400) by lia.
    apply Z.mod_add. lia.
  - split; [apply add_days_minus_then_plus; assumption|].
    destruct (unix_add_days_minus_one t Hv H) as [Hv1 Hu1].
    apply Htod; [exact Hv1|]. rewrite Hu1.
    replace (_unix t - 86400) with (_unix t + (-1) * 86400) by lia.
    apply Z.mod_add. lia.
Qed.

Lemma add_days_there_and_back_witness :
  let t := mk_date_time 4 2 29 21 30 15 in
  _add_days (_add_days t 1) (-1) = t /\
  _add_days t 1 = mk_date_time 4 3 1 21 30 15.
Proof.
  cbv zeta. split.
  - destruct (add_days_there_and_back (mk_date_time 4 2 29 21 30 15)
                eq_refl) as [H _].
    apply H. vm_compute. reflexivity.
  - vm_compute. reflexivity.
Defined.

(** X21: for every date-time the RTC holds, its midnight is a date-time the
    RTC holds, is a fixed point of [_midnight_of], and is the last instant
    with a time of day of 00:00:00 that is not after it: the instant lies
    less than a day after its midnight, by just its time of day. *)
Theorem midnight_starts_the_day (t : watch_date_time_t) :
  valid_date_time t = true ->
  valid_date_time (_midnight_of t) = true /\
  _midnight_of (_midnight_of t) = _midnight_of t /\
  _unix t = _unix (_midnight_of t)
            + dt_hour t * 3600 + dt_minute t * 60 + dt_second t /\
  _unix (_midnight_of t) <= _unix t < _unix (_midnight_of t) + 86400 /\
  _unix (_midnight_of t) mod 86400 = 0.
Proof.
  intro Hv.
  pose proof (valid_date_time_inv t Hv) as (Hy & Hm & Hd & Hh & Hmi & Hs).
  destruct (unix_split t Hv) as (n & Hn & U0 & Hv0 & U).
  split; [exact Hv0|]. split; [reflexivity|].
  rewrite U, U0. split; [lia|]. split; [lia|].
  apply Z.mod_mul. lia.
Qed.

Lemma midnight_starts_the_day_witness :
  let t := mk_date_time 4 2 29 21 30 15 in
  _unix (_midnight_of t) <= _unix t < _unix (_midnight_of t) + 86400.
Proof.
  cbv zeta.
  apply (midnight_starts_the_day (mk_date_time 4 2 29 21 30 15)).
  reflexivity.
Defined.

(** ** One night, two calendar days *)

(** X22: the night between two days is one period whichever side of
    midnight the target is on: with the sun times of both days computed, a
    target at or after the sunset of the first day and a target before the
    sunrise of the second day are given the same period, from the sunset of
    the first day to the sunrise of the second, marked as night and anchored
    to the first day. *)
Theorem night_is_one_period_across_midnight
    (sun_rise_set : Z -> Z -> Z -> double -> double -> Z * double * double)
    (indeterminate day sr0 ss0 sr1 ss1 evening morning : watch_date_time_t)
    (lon lat hours_from_utc : double) :
  let sun_times d :=
    _compute_local_sun_times sun_rise_set d lon lat hours_from_utc
                             indeterminate indeterminate in
  let select := select_period sun_rise_set indeterminate in
  valid_date_time day = true ->
  _unix day + 86400 < end_day * 86400 ->
  sun_times day = Some (true, sr0, ss0) ->
  sun_times (_add_days day 1) = Some (true, sr1, ss1) ->
  _unix sr0 <= _unix evening -> _unix ss0 <= _unix evening ->
  _unix morning < _unix sr1 ->
  select evening day sr0 ss0 lon lat hours_from_utc
  = Some (mk_period ss0 sr1 true day) /\
  select morning (_add_days day 1) sr1 ss1 lon lat hours_from_utc
  = Some (mk_period ss0 sr1 true day).
Proof.
  intros sun_times select Hv Hlast H0 H1 He1 He2 Hm.
  subst sun_times select. cbv beta in *.
  unfold select_period. split.
  - destruct (Z.ltb_spec (_unix evening) (_unix sr0)); [lia|].
    destruct (Z.geb_spec (_unix evening) (_unix ss0)); [|lia].
    rewrite H1. reflexivity.
  - destruct (Z.ltb_spec (_unix morning) (_unix sr1)); [|lia].
    rewrite (add_days_plus_then_minus day Hv Hlast), H0. reflexivity.
Qed.

Lemma night_is_one_period_across_midnight_witness :
  let day := mk_date_time 4 5 16 0 0 0 in
  let sr := div (of_Z 3) (of_Z 2) in
  exists sr0 ss0 sr1 ss1,
    _compute_local_sun_times midnight_sun_onset day (of_Z 19) (of_Z 70)
      (of_Z 0) zero_date_time zero_date_time = Some (true, sr0, ss0) /\
    _compute_local_sun_times midnight_sun_onset (_add_days day 1) (of_Z 19)
      (of_Z 70) (of_Z 0) zero_date_time zero_date_time
    = Some (true, sr1, ss1) /\
    select_period midnight_sun_onset zero_date_time
      (mk_date_time 4 5 16 23 30 0) day sr0 ss0 (of_Z 19) (of_Z 70) (of_Z 0)
    = Some (mk_period ss0 sr1 true day) /\
    select_period midnight_sun_onset zero_date_time
      (mk_date_time 4 5 17 0 45 0) (_add_days day 1) sr1 ss1
      (of_Z 19) (of_Z 70) (of_Z 0)
    = Some (mk_period ss0 sr1 true day).
Proof.
  cbv zeta.
  exists (mk_date_time 4 5 16 1 30 0), (mk_date_time 4 5 16 23 0 0),
         (mk_date_time 4 5 17 1 30 0), (mk_date_time 4 5 17 23 0 0).
  split; [vm_compute; reflexivity|]. split; [vm_compute; reflexivity|].
  apply (night_is_one_period_across_midnight midnight_sun_onset zero_date_time
           (mk_date_time 4 5 16 0 0 0)
           (mk_date_time 4 5 16 1 30 0) (mk_date_time 4 5 16 23 0 0)
           (mk_date_time 4 5 17 1 30 0) (mk_date_time 4 5 17 23 0 0)
           (mk_date_time 4 5 16 23 30 0) (mk_date_time 4 5 17 0 45 0)
           (of_Z 19) (of_Z 70) (of_Z 0));
    vm_compute; first [reflexivity | discriminate].
Defined.

(** ** An edit survives resignation *)

(** X23: resignation puts the cursor at rest, takes the hour offset back
    to 0 and leaves the preset alone; when a digit had been advanced it
    stores the coordinates the working digits stand for, and a following
    activation loads working digits that stand for the same coordinates, for
    every well-formed record of decimal digits. *)
Theorem edit_survives_resign_and_activation
    (host : host_t) (state : planetary_hour_state_t) :
  let ls := location_state state in
  let resigned := planetary_hour_face_resign host state in
  let s := planetary_hour_face_activate (fst resigned) (snd resigned) in
  settings_wf (working_latitude ls) -> decimal_digits (working_latitude ls) ->
  settings_wf (working_longitude ls) -> decimal_digits (working_longitude ls) ->
  location_changed ls = true ->
  page (location_state (snd resigned)) = 0 /\
  active_digit (location_state (snd resigned)) = 0 /\
  hour_offset (snd resigned) = 0 /\
  longLatToUse (snd resigned) = longLatToUse state /\
  load_location_from_filesystem (fst resigned)
  = (_latlon_from_struct (working_latitude ls),
     _latlon_from_struct (working_longitude ls)) /\
  _latlon_from_struct (working_latitude (location_state s))
  = _latlon_from_struct (working_latitude ls) /\
  _latlon_from_struct (working_longitude (location_state s))
  = _latlon_from_struct (working_longitude ls).
Proof.
  intros ls resigned s W1 D1 W2 D2 Hch.
  subst resigned s.
  unfold planetary_hour_face_resign, _update_location_register.
  cbn [with_cursor location_changed]. fold ls. rewrite Hch.
  cbn [fst snd location_state with_location_state with_changed with_cursor
       with_hour_offset page active_digit hour_offset longLatToUse
       working_latitude working_longitude with_location
       load_location_from_filesystem].
  refine (conj eq_refl (conj eq_refl (conj eq_refl (conj eq_refl
            (conj eq_refl _))))).
  unfold planetary_hour_face_activate.
  cbn [with_location load_location_from_filesystem location_state
       with_location_state with_expires with_preset with_hour_offset
       with_changed with_cursor with_latitude with_longitude
       working_latitude working_longitude].
  assert (R : forall v, settings_wf v -> decimal_digits v ->
            -19999 <= _latlon_from_struct v <= 19999).
  { intros v W D. pose proof (abs_latlon v W) as A.
    destruct W as (? & ? & ? & ? & ? & ?). destruct D as (? & ? & ? & ?).
    change (2 ^ HUNDREDS_BITS) with 2 in *. lia. }
  destruct (struct_from_latlon_decodes _ (R _ W1 D1)) as (E1 & _).
  destruct (struct_from_latlon_decodes _ (R _ W2 D2)) as (E2 & _).
  split; [exact E1 | exact E2].
Qed.

Lemma edit_survives_resign_and_activation_witness :
  let host := arctic_host (mk_date_time 4 5 10 12 0 0) in
  let state :=
    mk_state 3 0 (mk_date_time 4 5 10 12 0 0)
      (mk_location_state 1 3 true
         (_planetary_hour_face_struct_from_latlon (-3395))
         (_planetary_hour_face_struct_from_latlon 15120)) in
  let resigned := planetary_hour_face_resign host state in
  let s := planetary_hour_face_activate (fst resigned) (snd resigned) in
  load_location_from_filesystem (fst resigned) = (-3395, 15120) /\
  _latlon_from_struct (working_latitude (location_state s)) = -3395 /\
  _latlon_from_struct (working_longitude (location_state s)) = 15120.
Proof.
  cbv zeta.
  destruct (edit_survives_resign_and_activation
              (arctic_host (mk_date_time 4 5 10 12 0 0))
              (mk_state 3 0 (mk_date_time 4 5 10 12 0 0)
                 (mk_location_state 1 3 true
                    (_planetary_hour_face_struct_from_latlon (-3395))
                    (_planetary_hour_face_struct_from_latlon 15120))))
    as (_ & _ & _ & _ & H1 & H2 & H3);
    try (unfold settings_wf, decimal_digits; cbn; lia);
    try reflexivity.
  split; [exact H1|]. split; [exact H2 | exact H3].
Defined.

(** X24: the update shows "No LOC" exactly when the location in use (the
    stored one for preset 0 or a table of at most one preset, the preset
    entry otherwise) has latitude 0 and longitude 0; it then changes
    nothing.  The point at 0.00 N, 0.00 E can therefore not be used as a
    location, and a non-zero location never yields "No LOC". *)
Theorem no_location_exactly_at_zero_zero
    (sun_rise_set : Z -> Z -> Z -> double -> double -> Z * double * double)
    (longLatPresets : list (Z * Z)) (indeterminate : watch_date_time_t)
    (host : host_t) (state : planetary_hour_state_t) :
  let update :=
    _planetary_hour_face_update sun_rise_set longLatPresets indeterminate in
  (location_in_use longLatPresets host state = (0, 0) ->
   update host state = Some (state, Display_No_Loc)) /\
  (forall st', update host state = Some (st', Display_No_Loc) ->
               location_in_use longLatPresets host state = (0, 0)).
Proof.
  cbv zeta. unfold _planetary_hour_face_update, location_in_use.
  destruct (if (longLatToUse state =? 0) || (_location_count longLatPresets <=? 1)
            then load_location_from_filesystem host
            else nth (Z.to_nat (longLatToUse state)) longLatPresets (0, 0))
    as [lat_centi lon_centi].
  split.
  - intro H. inversion H. reflexivity.
  - intros st'.
    destruct (Z.eqb_spec lat_centi 0) as [-> | N1];
      [destruct (Z.eqb_spec lon_centi 0) as [-> | N2]; [reflexivity|]|];
      cbn [andb]; cbv zeta;
      (destruct (_compute_local_sun_times _ _ _ _ _ _ _) as [[[ok sr] ss]|];
       [|discriminate]);
      cbn [bind]; (destruct ok; cbn [negb]; [|discriminate]);
      (destruct (select_period _ _ _ _ _ _ _ _ _) as [p|]; [|discriminate]);
      cbn [bind];
      (destruct (_find_planetary_hour_in_period _ _ _) as [[[i hs] he]|];
       [|discriminate]);
      cbn [bind]; discriminate.
Qed.

Lemma no_location_exactly_at_zero_zero_witness :
  let now := mk_date_time 4 5 10 12 0 0 in
  let host := mk_host now 0 (0, 0) WATCH_LCD_TYPE_CLASSIC true false in
  _planetary_hour_face_update midnight_sun_onset [] zero_date_time
    host (fresh_state now) = Some (fresh_state now, Display_No_Loc).
Proof.
  cbv zeta.
  apply (no_location_exactly_at_zero_zero midnight_sun_onset []
           zero_date_time
           (mk_host (mk_date_time 4 5 10 12 0 0) 0 (0, 0)
                    WATCH_LCD_TYPE_CLASSIC true false)
           (fresh_state (mk_date_time 4 5 10 12 0 0))).
  reflexivity.
Defined.
